(** * gobuildcache: the protocol engine, the local disk store, the locking
      groups and the debug decorator, embedded from the Go sources.

    Go strings and file contents are [string] (sequences of bytes), [[]byte]
    is [list byte], [int64] is [Z] together with the range predicate
    [int64_ok], a Go [error] is a value of the inductive type [error] and a
    nil error is [None].  Functions that return several results return
    tuples.  State (the file system, the logger, the scanner, the writer,
    the backend) is passed explicitly. *)

From Stdlib Require Import String Ascii ZArith NArith List Bool Lia.
From Stdlib Require Import Strings.Byte Decimal DecimalString DecimalZ DecimalPos.
From stdpp Require Import base option gmap strings.
Import ListNotations.

#[local] Open Scope string_scope.
#[local] Open Scope Z_scope.

(** * Part I: the embedding *)

(** ** Errors *)

(** [errors_New] is a leaf error ([errors.New], or [fmt.Errorf] without a
    [%w] verb); [fmt_Errorf] is an error that wraps another one (a [%w]
    verb, or a library error such as [*fs.PathError]).  [msg] is the text
    [Error()] returns.  Sentinel errors are compared by their structure. *)
Inductive error : Type :=
| errors_New (msg : string)
| fmt_Errorf (msg : string) (wrapped : error).

#[global] Instance error_eq_dec : EqDecision error.
Proof. solve_decision. Defined.

Module Err.

Definition Error (e : error) : string :=
  match e with
  | errors_New m => m
  | fmt_Errorf m _ => m
  end.

(** [errors.Is]: walks the chain of wrapped errors. *)
Fixpoint errors_Is (err target : error) : bool :=
  if bool_decide (err = target) then true
  else match err with
       | errors_New _ => false
       | fmt_Errorf _ w => errors_Is w target
       end.

(** [fmt.Errorf(prefix + "%w" + suffix, err)]. *)
Definition wrapf (prefix : string) (err : error) (suffix : string) : error :=
  fmt_Errorf (prefix ++ Error err ++ suffix) err.

Definition io_EOF : error := errors_New "EOF".
Definition io_ErrUnexpectedEOF : error := errors_New "unexpected EOF".
Definition os_ErrNotExist : error := errors_New "file does not exist".

(** [syscall.ENOENT]: [errors.Is(ENOENT, os.ErrNotExist)] holds. *)
Definition syscall_ENOENT : error :=
  fmt_Errorf "no such file or directory" os_ErrNotExist.

(** [&fs.PathError{Op: op, Path: path, Err: err}]. *)
Definition PathError (op path : string) (err : error) : error :=
  fmt_Errorf (op ++ " " ++ path ++ ": " ++ Error err) err.

End Err.

(** ** Integers *)

Definition int64_ok (z : Z) : Prop := - 2 ^ 63 <= z < 2 ^ 63.
Definition int64_okb (z : Z) : bool := (- 2 ^ 63 <=? z) && (z <? 2 ^ 63).

(** ** Strings *)

Module Str.

Definition byteN (c : ascii) : N := N_of_ascii c.

(** [strings.HasPrefix]. *)
Definition HasPrefix (s p : string) : bool := String.prefix p s.

(** [s[len(p):]] for a prefix [p] of [s]. *)
Fixpoint drop (n : nat) (s : string) : string :=
  match n, s with
  | O, _ => s
  | S n', String _ r => drop n' r
  | S _, EmptyString => EmptyString
  end.

(** [strings.Split(s, "\n")]. *)
Fixpoint Split_nl (s : string) : list string :=
  match s with
  | EmptyString => [EmptyString]
  | String c r =>
      if Ascii.eqb c "010" then EmptyString :: Split_nl r
      else match Split_nl r with
           | h :: t => String c h :: t
           | [] => [String c EmptyString]
           end
  end.

(** The ASCII members of [unicode.IsSpace]. *)
Definition ascii_space (c : ascii) : bool :=
  let n := byteN c in
  ((9 <=? n) && (n <=? 13))%N || (n =? 32)%N.

(** [space3 c d e]: the bytes [c d e] are the UTF-8 encoding of one of the
    three-byte white space runes U+1680, U+2000..U+200A, U+2028, U+2029,
    U+202F, U+205F, U+3000. *)
Definition space3 (c d e : N) : bool :=
  ((c =? 225) && (d =? 154) && (e =? 128)
   || (c =? 226) && (d =? 128)
      && ((128 <=? e) && (e <=? 138) || (e =? 168) || (e =? 169) || (e =? 175))
   || (c =? 226) && (d =? 129) && (e =? 159)
   || (c =? 227) && (d =? 128) && (e =? 128))%N.

(** [space2 c d]: the bytes [c d] encode U+0085 or U+00A0. *)
Definition space2 (c d : N) : bool :=
  ((c =? 194) && ((d =? 133) || (d =? 160)))%N.

(** The number of bytes of the white space rune ([unicode.IsSpace]) that
    [s], read as UTF-8, starts with; 0 when it starts with none. *)
Definition space_width (s : string) : nat :=
  match s with
  | EmptyString => 0
  | String c r =>
      if ascii_space c then 1
      else match r with
           | EmptyString => 0
           | String d r' =>
               if space2 (byteN c) (byteN d) then 2
               else match r' with
                    | EmptyString => 0
                    | String e _ =>
                        if space3 (byteN c) (byteN d) (byteN e) then 3 else 0
                    end
           end
  end%nat.

(** The number of bytes of the white space rune that ends the string whose
    bytes, last one first, are [l]. *)
Definition space_width_rev (l : list ascii) : nat :=
  match l with
  | [] => 0
  | e :: r =>
      if ascii_space e then 1
      else match r with
           | [] => 0
           | d :: r' =>
               if space2 (byteN d) (byteN e) then 2
               else match r' with
                    | [] => 0
                    | c :: _ =>
                        if space3 (byteN c) (byteN d) (byteN e) then 3 else 0
                    end
           end
  end%nat.

Fixpoint TrimLeft_loop (fuel : nat) (s : string) : string :=
  match fuel with
  | O => s
  | S fuel' =>
      match space_width s with
      | O => s
      | w => TrimLeft_loop fuel' (drop w s)
      end
  end.

(** [strings.TrimLeftFunc(s, unicode.IsSpace)]; every round removes at
    least one byte, so [length s] rounds are enough. *)
Definition TrimLeft (s : string) : string :=
  TrimLeft_loop (String.length s) s.

Fixpoint TrimRight_loop (fuel : nat) (l : list ascii) : list ascii :=
  match fuel with
  | O => l
  | S fuel' =>
      match space_width_rev l with
      | O => l
      | w => TrimRight_loop fuel' (skipn w l)
      end
  end.

(** [strings.TrimRightFunc(s, unicode.IsSpace)]. *)
Definition TrimRight (s : string) : string :=
  let l := rev (list_ascii_of_string s) in
  string_of_list_ascii (rev (TrimRight_loop (List.length l) l)).

(** [strings.TrimSpace]. *)
Definition TrimSpace (s : string) : string := TrimRight (TrimLeft s).

(** [strings.TrimSpace(line) != ""]. *)
Definition nonblank (s : string) : bool :=
  negb (bool_decide (TrimSpace s = "")).

(** The bytes of [s] up to the first white space rune, and the rest. *)
Fixpoint token (s : string) : string * string :=
  match s with
  | EmptyString => (EmptyString, EmptyString)
  | String c r =>
      match space_width s with
      | O => let '(a, b) := token r in (String c a, b)
      | _ => (EmptyString, s)
      end
  end.

(** The longest prefix of [s] whose bytes satisfy [p], and the rest. *)
Fixpoint span (p : ascii -> bool) (s : string) : string * string :=
  match s with
  | EmptyString => (EmptyString, EmptyString)
  | String c r =>
      if p c then let '(a, b) := span p r in (String c a, b)
      else (EmptyString, s)
  end.

Definition is_digit (c : ascii) : bool :=
  ((48 <=? byteN c) && (byteN c <=? 57))%N.

End Str.

(** ** encoding/hex *)

Module Hex.

Definition hexdigit (n : N) : ascii :=
  ascii_of_N (if (n <? 10)%N then 48 + n else 87 + n)%N.

(** [hex.EncodeToString]: two lower-case digits per byte. *)
Fixpoint EncodeToString (bs : list byte) : string :=
  match bs with
  | [] => EmptyString
  | b :: r =>
      let n := Byte.to_N b in
      String (hexdigit (n / 16)%N)
        (String (hexdigit (n mod 16)%N) (EncodeToString r))
  end.

(** [reverseHexTable]: digits in either case. *)
Definition fromHexChar (c : ascii) : option N :=
  let n := Str.byteN c in
  if ((48 <=? n) && (n <=? 57))%N then Some (n - 48)%N
  else if ((97 <=? n) && (n <=? 102))%N then Some (n - 87)%N
  else if ((65 <=? n) && (n <=? 70))%N then Some (n - 55)%N
  else None.

Definition ErrLength : error :=
  errors_New "encoding/hex: odd length hex string".
Definition InvalidByteError (c : ascii) : error :=
  errors_New ("encoding/hex: invalid byte: " ++ String c EmptyString).

Definition mkbyte (a b : N) : byte :=
  match Byte.of_N (a * 16 + b)%N with
  | Some x => x
  | None => Byte.x00
  end.

(** [hex.DecodeString]. *)
Fixpoint DecodeString (s : string) : error + list byte :=
  match s with
  | EmptyString => inr []
  | String p EmptyString =>
      match fromHexChar p with
      | None => inl (InvalidByteError p)
      | Some _ => inl ErrLength
      end
  | String p (String q r) =>
      match fromHexChar p with
      | None => inl (InvalidByteError p)
      | Some a =>
          match fromHexChar q with
          | None => inl (InvalidByteError q)
          | Some b =>
              match DecodeString r with
              | inl e => inl e
              | inr l => inr (mkbyte a b :: l)
              end
          end
      end
  end.

End Hex.

(** ** fmt *)

Module Fmt.

(** The verb [%d] on an [int64]. *)
Definition format_int (z : Z) : string :=
  NilZero.string_of_int (Z.to_int z).

(** [strconv.ParseInt(tok, 10, 64)] on a token made of an optional sign
    and at least one decimal digit, as [scanNumber] delivers it. *)
Definition ParseInt (sign digits : string) : option Z :=
  match NilEmpty.uint_of_string digits with
  | None => None
  | Some u =>
      let z := if bool_decide (sign = "-") then - Z.of_uint u
               else Z.of_uint u in
      if int64_okb z then Some z else None
  end.

(** What [fmt.Sscanf(line, lit + "%s", &v)] stores in [v], given the input
    that follows the literal [lit]: the next word, when there is one.
    [None]: the scan fails and [v] keeps its value. *)
Definition Sscanf_s (input : string) : option string :=
  match Str.TrimLeft input with
  | EmptyString => None
  | rest => Some (fst (Str.token rest))
  end.

Definition is_sign (c : ascii) : bool :=
  Ascii.eqb c "+" || Ascii.eqb c "-".

(** What [fmt.Sscanf(line, lit + "%d", &v)] stores in the [int64] [v]:
    white space is skipped, one sign is accepted, the digits that follow
    are read, and the number must fit 64 bits. *)
Definition Sscanf_d (input : string) : option Z :=
  match Str.TrimLeft input with
  | EmptyString => None
  | String c r as rest =>
      let '(sign, after) :=
        if is_sign c then (String c EmptyString, r) else (EmptyString, rest) in
      match fst (Str.span Str.is_digit after) with
      | EmptyString => None
      | digits => ParseInt sign digits
      end
  end.

End Fmt.

(** ** time *)

(** A [time.Time] is modelled as an instant: seconds and nanoseconds since
    the Unix epoch (the location and the monotonic reading are left out). *)
Record Time : Type := mkTime { sec : Z; nsec : Z }.

#[global] Instance Time_eq_dec : EqDecision Time.
Proof. solve_decision. Defined.

(** [t.Unix()] and [time.Unix(s, 0)]. *)
Definition Time_Unix (t : Time) : Z := sec t.
Definition time_Unix (s : Z) : Time := mkTime s 0.

(** ** io.Reader *)

(** A reader delivers the bytes [rdata] and then ends, with [io.EOF] when
    [rerr] is [None] and with the error [rerr] otherwise. *)
Record Reader : Type := mkReader { rdata : string; rerr : option error }.

(** [strings.NewReader(s)]. *)
Definition strings_NewReader (s : string) : Reader := mkReader s None.

(** ** The file system *)

(** The result of a call that may panic. *)
Inductive run (A : Type) : Type :=
| Panic
| Done (a : A).
Arguments Panic {A}.
Arguments Done {A} a.

Module FS.

(** The regular files: path to contents.  The shard directories are taken
    to exist ([newLocalCache] creates them). *)
Abbreviation Files := (gmap string string).

(** The calls whose error the sources inspect. *)
Inductive Syscall : Type :=
| SysCreate (path : string)
| SysCopy (path : string)
| SysClose (path : string)
| SysRename (src dst : string)
| SysWriteFile (path : string)
| SysReadFile (path : string)
| SysStat (path : string).

(** The environment of one method call: which system calls fail, and with
    which error.  A call that is not made to fail succeeds when the file
    system allows it.  A failed call leaves the files as they were. *)
Definition Faults : Type := Syscall -> option error.

Definition no_faults : Faults := fun _ => None.

Section Calls.
Variable env : Faults.

(** [os.Create]: creates or truncates. *)
Definition os_Create (path : string) (fs : Files) : option error * Files :=
  match env (SysCreate path) with
  | Some e => (Some e, fs)
  | None => (None, <[path := ""]> fs)
  end.

(** [io.Copy(file, body)] into the open file at [path]: fails when a write
    fails or when the reader ends with an error; in the second case the
    bytes read so far are in the file. *)
Definition io_Copy (path : string) (body : Reader) (fs : Files)
  : option error * Files :=
  match env (SysCopy path) with
  | Some e => (Some e, fs)
  | None => (rerr body, <[path := rdata body]> fs)
  end.

(** [file.Close()]. *)
Definition File_Close (path : string) : option error := env (SysClose path).

(** [os.Rename]: replaces [dst]. *)
Definition os_Rename (src dst : string) (fs : Files) : option error * Files :=
  match env (SysRename src dst) with
  | Some e => (Some e, fs)
  | None =>
      match fs !! src with
      | None => (Some (Err.PathError "rename" src Err.syscall_ENOENT), fs)
      | Some c => (None, <[dst := c]> (delete src fs))
      end
  end.

(** [os.WriteFile]. *)
Definition os_WriteFile (path content : string) (fs : Files)
  : option error * Files :=
  match env (SysWriteFile path) with
  | Some e => (Some e, fs)
  | None => (None, <[path := content]> fs)
  end.

(** [os.ReadFile]. *)
Definition os_ReadFile (path : string) (fs : Files) : error + string :=
  match env (SysReadFile path) with
  | Some e => inl e
  | None =>
      match fs !! path with
      | None => inl (Err.PathError "open" path Err.syscall_ENOENT)
      | Some c => inr c
      end
  end.

(** [os.Stat], its error. *)
Definition os_Stat (path : string) (fs : Files) : option error :=
  match env (SysStat path) with
  | Some e => Some e
  | None =>
      match fs !! path with
      | None => Some (Err.PathError "stat" path Err.syscall_ENOENT)
      | Some _ => None
      end
  end.

End Calls.

(** [os.Remove], whose result the sources discard: the file is gone
    afterwards; removing an absent file changes nothing. *)
Definition os_Remove (path : string) (fs : Files) : Files := delete path fs.

End FS.

(** ** The logger *)

Record LogRecord : Type :=
  mkLog { level : string; message : string; attrs : list (string * string) }.

(** ** The local disk store (localcache.go) *)

Module LocalCache.
Import FS.

Record localCacheMetadata : Type :=
  mkMeta { OutputID : list byte; Size : Z; PutTime : Time }.

(** The logger of the store is part of [World]. *)
Record localCache : Type := mkLocalCache { cacheDir : string }.

(** The files of the store and the records its logger has received. *)
Record World : Type :=
  mkWorld { files : gmap string string; logged : list LogRecord }.

Section Store.

(** The constant [fileFormatVersion] is declared in a file of the package
    that is not among the sources at hand. *)
Variable fileFormatVersion : string.

(** [filepath.Join] of a cleaned, absolute [dir] other than the root with
    two names that hold no separator. *)
Definition filepath_Join (dir a b : string) : string :=
  dir ++ "/" ++ a ++ "/" ++ b.

(** [actionIDToPath]; [None]: [hexActionID[:2]] panics, which happens for
    an empty [actionID]. *)
Definition actionIDToPath (lc : localCache) (actionID : list byte)
  : option string :=
  let hexActionID := Hex.EncodeToString actionID in
  match hexActionID with
  | String a (String b _) =>
      let subdir := String a (String b EmptyString) in
      let hexID := fileFormatVersion ++ hexActionID in
      Some (filepath_Join (cacheDir lc) subdir hexID)
  | _ => None
  end.

(** [metadataPath]. *)
Definition metadataPath (lc : localCache) (actionID : list byte)
  : option string :=
  match actionIDToPath lc actionID with
  | Some p => Some (p ++ ".meta")
  | None => None
  end.

(** [getPath]. *)
Definition getPath (lc : localCache) (actionID : list byte) : option string :=
  actionIDToPath lc actionID.

(** The text [writeMetadata] formats. *)
Definition metadataContent (meta : localCacheMetadata) : string :=
  "outputID:" ++ Hex.EncodeToString (OutputID meta) ++ "
size:" ++ Fmt.format_int (Size meta) ++ "
time:" ++ Fmt.format_int (Time_Unix (PutTime meta)) ++ "
".

(** [writeMetadata]. *)
Definition writeMetadata (env : Faults) (lc : localCache)
    (actionID : list byte) (meta : localCacheMetadata) (fs : Files)
  : run (option error * Files) :=
  match metadataPath lc actionID with
  | None => Panic
  | Some metaPath =>
      let content := metadataContent meta in
      let tmpPath := metaPath ++ ".tmp" in
      match os_WriteFile env tmpPath content fs with
      | (Some err, fs1) =>
          Done (Some (Err.wrapf "failed to write temp metadata: " err ""), fs1)
      | (None, fs1) =>
          match os_Rename env tmpPath metaPath fs1 with
          | (Some err, fs2) =>
              Done (Some (Err.wrapf "failed to rename metadata: " err ""),
                    os_Remove tmpPath fs2)
          | (None, fs2) => Done (None, fs2)
          end
      end
  end.

(** The three variables the parsing loop of [readMetadata] assigns. *)
Record fields : Type :=
  mkFields { outputIDHex : string; size : Z; putTimeUnix : Z }.

(** One round of the loop over the lines; a failed [Sscanf] leaves its
    variable as it was. *)
Definition parseLine (st : fields) (line : string) : fields :=
  let line := Str.TrimSpace line in
  if Str.HasPrefix line "outputID:" then
    match Fmt.Sscanf_s (Str.drop 9 line) with
    | Some v => mkFields v (size st) (putTimeUnix st)
    | None => st
    end
  else if Str.HasPrefix line "size:" then
    match Fmt.Sscanf_d (Str.drop 5 line) with
    | Some v => mkFields (outputIDHex st) v (putTimeUnix st)
    | None => st
    end
  else if Str.HasPrefix line "time:" then
    match Fmt.Sscanf_d (Str.drop 5 line) with
    | Some v => mkFields (outputIDHex st) (size st) v
    | None => st
    end
  else st.

Definition parseLines (data : string) : fields :=
  fold_left parseLine (Str.Split_nl data) (mkFields "" 0 0).

(** [readMetadata]. *)
Definition readMetadata (env : Faults) (lc : localCache)
    (actionID : list byte) (fs : Files)
  : run (error + localCacheMetadata) :=
  match metadataPath lc actionID with
  | None => Panic
  | Some metaPath =>
      match os_ReadFile env metaPath fs with
      | inl err => Done (inl (Err.wrapf "failed to read metadata: " err ""))
      | inr data =>
          let st := parseLines data in
          if bool_decide (outputIDHex st = "") then
            Done (inl (errors_New "metadata missing outputID field"))
          else
            match Hex.DecodeString (outputIDHex st) with
            | inl err =>
                Done (inl (Err.wrapf "failed to decode outputID: " err ""))
            | inr outputID =>
                Done (inr (mkMeta outputID (size st)
                                  (time_Unix (putTimeUnix st))))
            end
      end
  end.

(** [write]; the deferred [os.Remove(tmpPath)] runs on every return that
    follows its registration. *)
Definition write (env : Faults) (lc : localCache) (actionID : list byte)
    (body : Reader) (fs : Files) : run ((string * option error) * Files) :=
  match actionIDToPath lc actionID with
  | None => Panic
  | Some diskPath =>
      let tmpPath := diskPath ++ ".tmp" in
      match os_Create env tmpPath fs with
      | (Some err, fs1) =>
          Done (("", Some (Err.wrapf "failed to create temp file: " err "")),
                fs1)
      | (None, fs1) =>
          let '(err, fs2) := io_Copy env tmpPath body fs1 in
          let closeErr := File_Close env tmpPath in
          match err, closeErr with
          | Some err, _ =>
              Done (("", Some (Err.wrapf "failed to write to temp file: "
                                         err "")),
                    os_Remove tmpPath fs2)
          | None, Some closeErr =>
              Done (("", Some (Err.wrapf "failed to close temp file: "
                                         closeErr "")),
                    os_Remove tmpPath fs2)
          | None, None =>
              match os_Rename env tmpPath diskPath fs2 with
              | (Some err, fs3) =>
                  Done (("", Some (Err.wrapf "failed to rename cache file: "
                                             err "")),
                        os_Remove tmpPath fs3)
              | (None, fs3) => Done ((diskPath, None), os_Remove tmpPath fs3)
              end
          end
      end
  end.

Definition warn (msg : string) (actionID : list byte) (err : error)
  : LogRecord :=
  mkLog "WARN" msg
    [("actionID", Hex.EncodeToString actionID); ("error", Err.Error err)].

(** [writeWithMetadata]. *)
Definition writeWithMetadata (env : Faults) (lc : localCache)
    (actionID : list byte) (body : Reader) (meta : localCacheMetadata)
    (w : World) : run ((string * option error) * World) :=
  match write env lc actionID body (files w) with
  | Panic => Panic
  | Done ((_, Some err), fs1) => Done (("", Some err), mkWorld fs1 (logged w))
  | Done ((diskPath, None), fs1) =>
      match writeMetadata env lc actionID meta fs1 with
      | Panic => Panic
      | Done (Some err, fs2) =>
          Done ((diskPath, None),
                mkWorld fs2
                  (logged w ++
                   [warn "failed to write local cache metadata" actionID err]))
      | Done (None, fs2) => Done ((diskPath, None), mkWorld fs2 (logged w))
      end
  end.

(** [check]; [None] is the nil result, a miss. *)
Definition check (env : Faults) (lc : localCache) (actionID : list byte)
    (w : World) : run (option localCacheMetadata * World) :=
  match readMetadata env lc actionID (files w) with
  | Panic => Panic
  | Done (inr meta) => Done (Some meta, w)
  | Done (inl err) =>
      if Err.errors_Is err Err.os_ErrNotExist then Done (None, w)
      else
        let w1 := mkWorld (files w)
                    (logged w ++
                     [warn "failed to read local cache metadata" actionID err])
        in
        match actionIDToPath lc actionID with
        | None => Panic
        | Some diskPath =>
            match os_Stat env diskPath (files w) with
            | None =>
                Done (None,
                      mkWorld (files w1)
                        (logged w1 ++
                         [warn "local cache file exists but metadata is missing/corrupted"
                               actionID err]))
            | Some _ => Done (None, w1)
            end
        end
  end.

End Store.
End LocalCache.

(** ** The locking groups (pkg/locking) *)

Module Locking.

(** What a call that may wait for a mutex does: it returns, or it waits
    for a mutex that another holder has locked. *)
Inductive outcome (A : Type) : Type :=
| Blocked
| Returned (a : A).
Arguments Blocked {A}.
Arguments Returned {A} a.

Section Group.
(** [V] is the type of the value [fn] returns ([interface{}]), [W] the
    state [fn] works on. *)
Context {V W : Type}.

Definition Fn : Type := W -> (V * option error) * W.

(** [NoOpGroup.DoWithLock]. *)
Definition NoOpGroup_DoWithLock (key : string) (fn : Fn) (w : W)
  : outcome ((V * option error) * W) :=
  let '((v, err), w') := fn w in
  Returned ((v, err), w').

(** [MemLock]: the embedded mutex and the mutex of every key; [true] is
    locked. *)
Record MemLock : Type := mkMemLock { mu : bool; locks : gmap string bool }.

(** [NewMemLock]. *)
Definition NewMemLock : MemLock := mkMemLock false ∅.

(** [MemLock.DoWithLock]. *)
Definition MemLock_DoWithLock (s : MemLock) (key : string) (fn : Fn) (w : W)
  : outcome (((V * option error) * W) * MemLock) :=
  (* s.Lock() *)
  if mu s then Blocked
  else
    let locks1 :=
      match locks s !! key with
      | Some _ => locks s
      | None => <[key := false]> (locks s)
      end in
    (* s.Unlock(); lock.Lock() *)
    match locks1 !! key with
    | Some true => Blocked
    | _ =>
        let locks2 := <[key := true]> locks1 in
        let '(r, w') := fn w in
        (* the deferred lock.Unlock() *)
        Returned ((r, w'), mkMemLock false (<[key := false]> locks2))
    end.

End Group.
End Locking.

(** ** The backend interface and the debug decorator (backends) *)

Module Backends.

(** What [Get] returns: outputID, diskPath, size, putTime, miss, err. *)
Definition GetResult : Type :=
  list byte * string * Z * option Time * bool * option error.

(** The interface [Backend] ([CacheBackend] in package main) over the
    state [S] of an implementation.  A nil [body] is [None]. *)
Class Backend (S : Type) : Type := {
  Put : list byte -> list byte -> option Reader -> Z -> S
        -> (string * option error) * S;
  Get : list byte -> S -> GetResult * S;
  Close : S -> option error * S;
  Clear : S -> option error * S
}.

Module Debug.
Section Debug.
Context {S : Type} `{Backend S}.

(** The wrapped backend, and what has been written to [os.Stderr]. *)
Record Debug : Type := mkDebug { backend : S; stderr : string }.

(** [NewDebug]. *)
Definition NewDebug (b : S) (stderr : string) : Debug := mkDebug b stderr.

Definition Fprintf (d : Debug) (line : string) : string := stderr d ++ line.

Definition nl : string := String "010" EmptyString.

Definition Debug_Put (actionID outputID : list byte) (body : option Reader)
    (bodySize : Z) (d : Debug) : (string * option error) * Debug :=
  let log1 := Fprintf d
    ("[DEBUG] Put: actionID=" ++ Hex.EncodeToString actionID
     ++ ", outputID=" ++ Hex.EncodeToString outputID
     ++ ", size=" ++ Fmt.format_int bodySize ++ nl) in
  let '((diskPath, err), b') := Put actionID outputID body bodySize (backend d) in
  match err with
  | Some e =>
      ((diskPath, err),
       mkDebug b' (log1 ++ "[DEBUG] Put: ERROR: " ++ Err.Error e ++ nl))
  | None =>
      ((diskPath, None),
       mkDebug b' (log1 ++ "[DEBUG] Put: stored at " ++ diskPath ++ nl))
  end.

Definition Debug_Get (actionID : list byte) (d : Debug)
  : Backends.GetResult * Debug :=
  let log1 := Fprintf d
    ("[DEBUG] Get: actionID=" ++ Hex.EncodeToString actionID ++ nl) in
  let '((outputID, diskPath, size, putTime, miss, err), b') :=
    Get actionID (backend d) in
  match err with
  | Some e =>
      ((outputID, diskPath, size, putTime, miss, err),
       mkDebug b' (log1 ++ "[DEBUG] Get: ERROR: " ++ Err.Error e ++ nl))
  | None =>
      let log2 :=
        if miss then log1 ++ "[DEBUG] Get: MISS" ++ nl
        else log1 ++ "[DEBUG] Get: HIT at " ++ diskPath
             ++ ", outputID=" ++ Hex.EncodeToString outputID
             ++ ", size=" ++ Fmt.format_int size ++ nl in
      ((outputID, diskPath, size, putTime, miss, err), mkDebug b' log2)
  end.

Definition Debug_Close (d : Debug) : option error * Debug :=
  let log1 := Fprintf d ("[DEBUG] Close: closing backend" ++ nl) in
  let '(err, b') := Close (backend d) in
  match err with
  | Some e =>
      (err, mkDebug b' (log1 ++ "[DEBUG] Close: ERROR: " ++ Err.Error e ++ nl))
  | None => (err, mkDebug b' log1)
  end.

Definition Debug_Clear (d : Debug) : option error * Debug :=
  let log1 := Fprintf d ("[DEBUG] Clear: clearing cache" ++ nl) in
  let '(err, b') := Clear (backend d) in
  match err with
  | Some e =>
      (Some e,
       mkDebug b' (log1 ++ "[DEBUG] Clear: ERROR: " ++ Err.Error e ++ nl))
  | None =>
      (None,
       mkDebug b' (log1 ++ "[DEBUG] Clear: cache cleared successfully" ++ nl))
  end.

(** [*Debug] implements [Backend]. *)
#[export] Instance Debug_Backend : Backend Debug := {
  Put := Debug_Put;
  Get := Debug_Get;
  Close := Debug_Close;
  Clear := Debug_Clear
}.

End Debug.

Arguments Debug : clear implicits.

End Debug.
End Backends.

(** ** encoding/base64, the padded standard encoding *)

Module Base64.

(** The alphabet of [StdEncoding]. *)
Definition enc6 (n : N) : ascii :=
  ascii_of_N (if (n <? 26) then 65 + n
              else if (n <? 52) then 71 + n
              else if (n <? 62) then n - 4
              else if (n =? 62) then 43 else 47)%N.

Definition dec6 (c : ascii) : option N :=
  let n := Str.byteN c in
  if ((65 <=? n) && (n <=? 90))%N then Some (n - 65)%N
  else if ((97 <=? n) && (n <=? 122))%N then Some (n - 71)%N
  else if ((48 <=? n) && (n <=? 57))%N then Some (n + 4)%N
  else if (n =? 43)%N then Some 62%N
  else if (n =? 47)%N then Some 63%N
  else None.

Definition byte_of (n : N) : byte :=
  match Byte.of_N (n mod 256)%N with
  | Some b => b
  | None => Byte.x00
  end.

Definition pad : ascii := "=".

(** [StdEncoding.EncodeToString]. *)
Fixpoint EncodeToString (bs : list byte) : string :=
  match bs with
  | [] => EmptyString
  | [a] =>
      let a := Byte.to_N a in
      String (enc6 (a / 4)) (String (enc6 (a mod 4 * 16))
        (String pad (String pad EmptyString)))
  | [a; b] =>
      let a := Byte.to_N a in let b := Byte.to_N b in
      String (enc6 (a / 4)) (String (enc6 (a mod 4 * 16 + b / 16))
        (String (enc6 (b mod 16 * 4)) (String pad EmptyString)))
  | a :: b :: c :: r =>
      let a := Byte.to_N a in let b := Byte.to_N b in let c := Byte.to_N c in
      String (enc6 (a / 4)) (String (enc6 (a mod 4 * 16 + b / 16))
        (String (enc6 (b mod 16 * 4 + c / 64)) (String (enc6 (c mod 64))
          (EncodeToString r))))
  end%N.

Definition CorruptInputError : error :=
  errors_New "illegal base64 data".

(** The decoder skips carriage returns and line feeds wherever they are. *)
Fixpoint strip_newlines (s : string) : string :=
  match s with
  | EmptyString => EmptyString
  | String c r =>
      if Ascii.eqb c "010" || Ascii.eqb c "013" then strip_newlines r
      else String c (strip_newlines r)
  end.

(** Quanta of four characters; the last one may end with one or two
    padding characters, after which nothing may follow. *)
Fixpoint decode_quanta (s : string) : option (list byte) :=
  match s with
  | EmptyString => Some []
  | String a (String b (String c (String d r))) =>
      match dec6 a, dec6 b with
      | Some x, Some y =>
          let b1 := byte_of (x * 4 + y / 16) in
          if Ascii.eqb c pad then
            if Ascii.eqb d pad && bool_decide (r = EmptyString)
            then Some [b1] else None
          else
            match dec6 c with
            | None => None
            | Some z =>
                let b2 := byte_of (y mod 16 * 16 + z / 4) in
                if Ascii.eqb d pad then
                  if bool_decide (r = EmptyString) then Some [b1; b2]
                  else None
                else
                  match dec6 d with
                  | None => None
                  | Some u =>
                      let b3 := byte_of (z mod 4 * 64 + u) in
                      match decode_quanta r with
                      | Some l => Some (b1 :: b2 :: b3 :: l)
                      | None => None
                      end
                  end
            end
      | _, _ => None
      end
  | _ => None
  end%N.

(** [StdEncoding.DecodeString]. *)
Definition DecodeString (s : string) : error + list byte :=
  match decode_quanta (strip_newlines s) with
  | Some l => inr l
  | None => inl CorruptInputError
  end.

End Base64.

(** ** encoding/json *)

(** The double quote, and a helper to write JSON texts legibly: [sq s] is
    [s] with every apostrophe replaced by a double quote. *)
Definition dquote : ascii := "034".

Fixpoint sq (s : string) : string :=
  match s with
  | EmptyString => EmptyString
  | String c r => String (if Ascii.eqb c "'" then dquote else c) (sq r)
  end.

Module Json.

#[local] Set Warnings "-register-all".

Inductive value : Type :=
| Null
| Bool (b : bool)
| Number (literal : string)
| Str (s : string)
| Array (elems : list value)
| Object (members : list (string * value)).

Definition SyntaxError : error := errors_New "json: invalid syntax".
Definition UnmarshalTypeError (what : string) : error :=
  errors_New ("json: cannot unmarshal " ++ what).

Definition is_ws (c : ascii) : bool :=
  Ascii.eqb c " " || Ascii.eqb c "009" || Ascii.eqb c "010" || Ascii.eqb c "013".

Fixpoint skip_ws (s : string) : string :=
  match s with
  | String c r => if is_ws c then skip_ws r else s
  | EmptyString => s
  end.

(** The UTF-8 encoding of the code point [n]. *)
Definition utf8 (n : N) : string :=
  let b (k : N) := String (ascii_of_N k) EmptyString in
  (if n <? 128 then b n
   else if n <? 2048 then b (192 + n / 64) ++ b (128 + n mod 64)
   else if n <? 65536 then
     b (224 + n / 4096) ++ b (128 + n / 64 mod 64) ++ b (128 + n mod 64)
   else b (240 + n / 262144) ++ b (128 + n / 4096 mod 64)
        ++ b (128 + n / 64 mod 64) ++ b (128 + n mod 64))%N.

(** [getu4]: the code unit of an escape [\uXXXX] at the head of [s]. *)
Definition getu4 (s : string) : option N :=
  match s with
  | String b (String u (String h1 (String h2 (String h3 (String h4 _))))) =>
      if Ascii.eqb b "\" && Ascii.eqb u "u" then
        match Hex.fromHexChar h1, Hex.fromHexChar h2,
              Hex.fromHexChar h3, Hex.fromHexChar h4 with
        | Some a, Some b, Some c, Some d =>
            Some (((a * 16 + b) * 16 + c) * 16 + d)%N
        | _, _, _, _ => None
        end
      else None
  | _ => None
  end.

Definition simple_escape (c : ascii) : option ascii :=
  if Ascii.eqb c dquote then Some dquote
  else if Ascii.eqb c "\" then Some "\"%char
  else if Ascii.eqb c "/" then Some "/"%char
  else if Ascii.eqb c "b" then Some "008"%char
  else if Ascii.eqb c "f" then Some "012"%char
  else if Ascii.eqb c "n" then Some "010"%char
  else if Ascii.eqb c "r" then Some "013"%char
  else if Ascii.eqb c "t" then Some "009"%char
  else None.

(** The text of a string literal whose opening quote has been read, and
    what follows its closing quote.  A surrogate pair of escapes makes one
    code point; a surrogate without its partner becomes U+FFFD.  Bytes
    that are not valid UTF-8 are kept as they are (the library replaces
    them by U+FFFD). *)
Fixpoint string_body (fuel : nat) (s : string) : option (string * string) :=
  match fuel with
  | O => None
  | S f =>
      match s with
      | EmptyString => None
      | String c r =>
          if Ascii.eqb c dquote then Some (EmptyString, r)
          else if Ascii.eqb c "\" then
            match r with
            | EmptyString => None
            | String e r' =>
                match simple_escape e with
                | Some x =>
                    match string_body f r' with
                    | Some (t, rest) => Some (String x t, rest)
                    | None => None
                    end
                | None =>
                    match getu4 s with
                    | None => None
                    | Some rr =>
                        let after := Str.drop 6 s in
                        let surrogate := ((55296 <=? rr) && (rr <? 57344))%N in
                        let pair :=
                          match getu4 after with
                          | Some rr1 =>
                              if ((55296 <=? rr) && (rr <? 56320)
                                  && (56320 <=? rr1) && (rr1 <? 57344))%N
                              then Some (65536 + (rr - 55296) * 1024
                                         + (rr1 - 56320))%N
                              else None
                          | None => None
                          end in
                        let '(cp, after) :=
                          if surrogate then
                            match pair with
                            | Some dec => (dec, Str.drop 6 after)
                            | None => (65533%N, after)
                            end
                          else (rr, after) in
                        match string_body f after with
                        | Some (t, rest) => Some (utf8 cp ++ t, rest)
                        | None => None
                        end
                    end
                end
            end
          else if (Str.byteN c <? 32)%N then None
          else
            match string_body f r with
            | Some (t, rest) => Some (String c t, rest)
            | None => None
            end
      end
  end.

Definition digits_of (s : string) : string * string := Str.span Str.is_digit s.

(** A number literal at the head of [s]: its text and what follows. *)
Definition number (s : string) : option (string * string) :=
  let '(sign, s1) :=
    match s with
    | String c r => if Ascii.eqb c "-" then ("-", r) else (EmptyString, s)
    | EmptyString => (EmptyString, s)
    end in
  let '(int, s2) := digits_of s1 in
  match int with
  | EmptyString => None
  | String d0 more =>
      if Ascii.eqb d0 "0" && negb (bool_decide (more = EmptyString)) then
        (* a leading zero ends the integer part: the rest is not a number *)
        None
      else
        let '(frac, s3) :=
          match s2 with
          | String c r =>
              if Ascii.eqb c "." then
                let '(ds, rest) := digits_of r in (Some ds, rest)
              else (None, s2)
          | EmptyString => (None, s2)
          end in
        match frac with
        | Some EmptyString => None
        | _ =>
            let fracText :=
              match frac with Some ds => "." ++ ds | None => EmptyString end in
            match s3 with
            | String c r =>
                if Ascii.eqb c "e" || Ascii.eqb c "E" then
                  let '(esign, r1) :=
                    match r with
                    | String g r' =>
                        if Fmt.is_sign g then (String g EmptyString, r')
                        else (EmptyString, r)
                    | EmptyString => (EmptyString, r)
                    end in
                  let '(eds, rest) := digits_of r1 in
                  match eds with
                  | EmptyString => None
                  | _ => Some (sign ++ int ++ fracText
                               ++ String c EmptyString ++ esign ++ eds, rest)
                  end
                else Some (sign ++ int ++ fracText, s3)
            | EmptyString => Some (sign ++ int ++ fracText, s3)
            end
        end
  end.

(** A value at the head of [s] (after white space) and what follows it. *)
Fixpoint parse_value (fuel : nat) (s : string) : option (value * string) :=
  match fuel with
  | O => None
  | S f =>
      match skip_ws s with
      | EmptyString => None
      | String c r as s' =>
          if Ascii.eqb c "{" then
            match skip_ws r with
            | String c' r' =>
                if Ascii.eqb c' "}" then Some (Object [], r')
                else match parse_members f r with
                     | Some (ms, rest) => Some (Object ms, rest)
                     | None => None
                     end
            | EmptyString => None
            end
          else if Ascii.eqb c "[" then
            match skip_ws r with
            | String c' r' =>
                if Ascii.eqb c' "]" then Some (Array [], r')
                else match parse_elements f r with
                     | Some (vs, rest) => Some (Array vs, rest)
                     | None => None
                     end
            | EmptyString => None
            end
          else if Ascii.eqb c dquote then
            match string_body (S (String.length r)) r with
            | Some (t, rest) => Some (Str t, rest)
            | None => None
            end
          else if Str.HasPrefix s' "true" then Some (Bool true, Str.drop 4 s')
          else if Str.HasPrefix s' "false" then Some (Bool false, Str.drop 5 s')
          else if Str.HasPrefix s' "null" then Some (Null, Str.drop 4 s')
          else match number s' with
               | Some (lit, rest) => Some (Number lit, rest)
               | None => None
               end
      end
  end
with parse_elements (fuel : nat) (s : string)
  : option (list value * string) :=
  match fuel with
  | O => None
  | S f =>
      match parse_value f s with
      | None => None
      | Some (v, r) =>
          match skip_ws r with
          | String c r' =>
              if Ascii.eqb c "," then
                match parse_elements f r' with
                | Some (vs, rest) => Some (v :: vs, rest)
                | None => None
                end
              else if Ascii.eqb c "]" then Some ([v], r')
              else None
          | EmptyString => None
          end
      end
  end
with parse_members (fuel : nat) (s : string)
  : option (list (string * value) * string) :=
  match fuel with
  | O => None
  | S f =>
      match skip_ws s with
      | String q r =>
          if Ascii.eqb q dquote then
            match string_body (S (String.length r)) r with
            | None => None
            | Some (k, r1) =>
                match skip_ws r1 with
                | String c r2 =>
                    if Ascii.eqb c ":" then
                      match parse_value f r2 with
                      | None => None
                      | Some (v, r3) =>
                          match skip_ws r3 with
                          | String c' r4 =>
                              if Ascii.eqb c' "," then
                                match parse_members f r4 with
                                | Some (ms, rest) => Some ((k, v) :: ms, rest)
                                | None => None
                                end
                              else if Ascii.eqb c' "}" then Some ([(k, v)], r4)
                              else None
                          | EmptyString => None
                          end
                      end
                    else None
                | EmptyString => None
                end
            end
          else None
      | EmptyString => None
      end
  end.

(** The value a text holds, when the text is one JSON value between
    optional white space ([checkValid] and the decoder's scan). *)
Definition parse (s : string) : option value :=
  match parse_value (2 * String.length s + 2) s with
  | Some (v, rest) =>
      match skip_ws rest with
      | EmptyString => Some v
      | _ => None
      end
  | None => None
  end.

(** *** Decoding into Go values *)

(** Into a [string]: [null] leaves the variable as it is. *)
Definition into_string (v : value) (old : string) : error + string :=
  match v with
  | Null => inr old
  | Str s => inr s
  | _ => inl (UnmarshalTypeError "into Go value of type string")
  end.

(** The text of an integer: an optional minus sign and digits. *)
Definition integer_literal (lit : string) : option Z :=
  let '(neg, ds) :=
    match lit with
    | String c r => if Ascii.eqb c "-" then (true, r) else (false, lit)
    | EmptyString => (false, lit)
    end in
  match ds with
  | EmptyString => None
  | _ =>
      match NilEmpty.uint_of_string ds with
      | Some u => Some (if neg then - Z.of_uint u else Z.of_uint u)
      | None => None
      end
  end.

(** Into an [int64]. *)
Definition into_int64 (v : value) (old : Z) : error + Z :=
  match v with
  | Null => inr old
  | Number lit =>
      match integer_literal lit with
      | Some z =>
          if int64_okb z then inr z
          else inl (UnmarshalTypeError "number into Go value of type int64")
      | None => inl (UnmarshalTypeError "number into Go value of type int64")
      end
  | _ => inl (UnmarshalTypeError "into Go value of type int64")
  end.

Definition into_uint8 (v : value) : error + byte :=
  match v with
  | Null => inr Byte.x00
  | Number lit =>
      match integer_literal lit with
      | Some z =>
          match (if (0 <=? z) && (z <? 256) then Byte.of_N (Z.to_N z)
                 else None) with
          | Some b => inr b
          | None => inl (UnmarshalTypeError "number into Go value of type uint8")
          end
      | None => inl (UnmarshalTypeError "number into Go value of type uint8")
      end
  | _ => inl (UnmarshalTypeError "into Go value of type uint8")
  end.

Fixpoint into_uint8s (vs : list value) : error + list byte :=
  match vs with
  | [] => inr []
  | v :: r =>
      match into_uint8 v with
      | inl e => inl e
      | inr b =>
          match into_uint8s r with
          | inl e => inl e
          | inr bs => inr (b :: bs)
          end
      end
  end.

(** Into a [[]byte]: a string holds base64; [null] makes the slice nil; an
    array is decoded element by element (into a fresh slice: a [null]
    element is taken to leave a zero). *)
Definition into_bytes (v : value) : error + list byte :=
  match v with
  | Null => inr []
  | Str s => Base64.DecodeString s
  | Array vs => into_uint8s vs
  | _ => inl (UnmarshalTypeError "into Go value of type []uint8")
  end.

(** Upper case to lower case, for the ASCII letters. *)
Definition lower (c : ascii) : ascii :=
  let n := Str.byteN c in
  if ((65 <=? n) && (n <=? 90))%N then ascii_of_N (n + 32) else c.

Fixpoint lower_string (s : string) : string :=
  match s with
  | EmptyString => EmptyString
  | String c r => String (lower c) (lower_string r)
  end.

(** A key names a field when they are equal up to the case of the ASCII
    letters. *)
Definition names (key field : string) : bool :=
  bool_decide (lower_string key = lower_string field).

(** *** Encoding *)

Definition u00 (n : N) : string :=
  "\u00" ++ String (Hex.hexdigit (n / 16)) (String (Hex.hexdigit (n mod 16))
                                              EmptyString).

(** The escapes of [appendString] with HTML escaping, as of Go 1.22.
    U+2028 and U+2029 are escaped; other bytes above 127 are kept (the
    library replaces invalid UTF-8 by the escape of U+FFFD). *)
Fixpoint quote_body (s : string) : string :=
  match s with
  | EmptyString => EmptyString
  | String c r =>
      let n := Str.byteN c in
      if Ascii.eqb c dquote then "\" ++ String dquote (quote_body r)
      else if Ascii.eqb c "\" then "\\" ++ quote_body r
      else if (n =? 8)%N then "\b" ++ quote_body r
      else if (n =? 12)%N then "\f" ++ quote_body r
      else if (n =? 10)%N then "\n" ++ quote_body r
      else if (n =? 13)%N then "\r" ++ quote_body r
      else if (n =? 9)%N then "\t" ++ quote_body r
      else if ((n <? 32) || (n =? 60) || (n =? 62) || (n =? 38))%N
      then u00 n ++ quote_body r
      else
        match r with
        | String d (String e r'') =>
            if ((n =? 226) && (Str.byteN d =? 128) && (Str.byteN e =? 168))%N
            then "\u2028" ++ quote_body r''
            else if ((n =? 226) && (Str.byteN d =? 128)
                     && (Str.byteN e =? 169))%N
            then "\u2029" ++ quote_body r''
            else String c (quote_body r)
        | _ => String c (quote_body r)
        end
  end.

Definition quote (s : string) : string :=
  String dquote (quote_body s ++ String dquote EmptyString).

Fixpoint join (sep : string) (l : list string) : string :=
  match l with
  | [] => EmptyString
  | [x] => x
  | x :: r => x ++ sep ++ join sep r
  end.

End Json.


(** ** time.Time as JSON *)

Module TimeJson.

(** The civil date (year, month, day) of a day number counted from
    1970-01-01, in the proleptic Gregorian calendar. *)
Definition civil_from_days (days : Z) : Z * Z * Z :=
  let z := days + 719468 in
  let era := z / 146097 in
  let doe := z - era * 146097 in
  let yoe := (doe - doe / 1460 + doe / 36524 - doe / 146096) / 365 in
  let doy := doe - (365 * yoe + yoe / 4 - yoe / 100) in
  let mp := (5 * doy + 2) / 153 in
  let d := doy - (153 * mp + 2) / 5 + 1 in
  let m := if mp <? 10 then mp + 3 else mp - 9 in
  let y := yoe + era * 400 in
  (if m <=? 2 then y + 1 else y, m, d).

Fixpoint zeros (n : nat) : string :=
  match n with
  | O => EmptyString
  | S n' => String "0" (zeros n')
  end.

Definition zpad (width : nat) (z : Z) : string :=
  let s := Fmt.format_int z in
  zeros (width - String.length s) ++ s.

Fixpoint strip_zeros (l : list ascii) : list ascii :=
  match l with
  | c :: r => if Ascii.eqb c "0" then strip_zeros r else l
  | [] => []
  end.

Definition fraction (ns : Z) : string :=
  if ns =? 0 then EmptyString
  else "." ++ string_of_list_ascii
         (rev (strip_zeros (rev (list_ascii_of_string (zpad 9 ns))))).

(** [Time.MarshalJSON]: the quoted RFC 3339 text with nanoseconds, here
    for an instant in UTC; an error outside the years 0 to 9999. *)
Definition MarshalJSON (t : Time) : error + string :=
  let '(y, m, d) := civil_from_days (sec t / 86400) in
  let r := sec t mod 86400 in
  if (y <? 0) || (10000 <=? y) then
    inl (errors_New "Time.MarshalJSON: year outside of range [0,9999]")
  else
    inr (String dquote
           (zpad 4 y ++ "-" ++ zpad 2 m ++ "-" ++ zpad 2 d ++ "T"
            ++ zpad 2 (r / 3600) ++ ":" ++ zpad 2 (r mod 3600 / 60) ++ ":"
            ++ zpad 2 (r mod 60) ++ fraction (nsec t) ++ "Z"
            ++ String dquote EmptyString)).

End TimeJson.

(** ** The protocol engine (server.go) *)

Module Server.
Import Backends.

(** [Cmd]. *)
Definition Cmd : Type := string.
Definition CmdPut : Cmd := "put".
Definition CmdGet : Cmd := "get".
Definition CmdClose : Cmd := "close".

Module Req.
Record Request : Type := mkRequest {
  ID : Z;
  Command : Cmd;
  ActionID : list byte;
  OutputID : list byte;
  Body : option Reader;
  BodySize : Z
}.
End Req.
Abbreviation Request := Req.Request.

Module Resp.
Record Response : Type := mkResponse {
  ID : Z;
  Err : string;
  KnownCommands : list Cmd;
  Miss : bool;
  OutputID : list byte;
  Size : Z;
  Time : option Time;
  DiskPath : string
}.
End Resp.
Abbreviation Response := Resp.Response.

(** The zero values of the two structures. *)
Definition zeroRequest : Request := Req.mkRequest 0 "" [] [] None 0.
Definition zeroResponse : Response := Resp.mkResponse 0 "" [] false [] 0 None "".

(** *** json.Unmarshal into a [Request] and into a [string] *)

(** One member of the object: the field its key names is set from its
    value; a key that names no field is skipped.  [Body] is an interface
    with methods: only [null] can be stored in it. *)
Definition setField (req : Request) (kv : string * Json.value)
  : error + Request :=
  let '(key, v) := kv in
  let '(Req.mkRequest id cmd aid oid body bsize) := req in
  if Json.names key "ID" then
    match Json.into_int64 v id with
    | inl e => inl e
    | inr x => inr (Req.mkRequest x cmd aid oid body bsize)
    end
  else if Json.names key "Command" then
    match Json.into_string v cmd with
    | inl e => inl e
    | inr x => inr (Req.mkRequest id x aid oid body bsize)
    end
  else if Json.names key "ActionID" then
    match Json.into_bytes v with
    | inl e => inl e
    | inr x => inr (Req.mkRequest id cmd x oid body bsize)
    end
  else if Json.names key "OutputID" then
    match Json.into_bytes v with
    | inl e => inl e
    | inr x => inr (Req.mkRequest id cmd aid x body bsize)
    end
  else if Json.names key "Body" then
    match v with
    | Json.Null => inr (Req.mkRequest id cmd aid oid None bsize)
    | _ => inl (Json.UnmarshalTypeError "into Go struct field Request.Body of type io.Reader")
    end
  else if Json.names key "BodySize" then
    match Json.into_int64 v bsize with
    | inl e => inl e
    | inr x => inr (Req.mkRequest id cmd aid oid body x)
    end
  else inr req.

Fixpoint setFields (req : Request) (ms : list (string * Json.value))
  : error + Request :=
  match ms with
  | [] => inr req
  | kv :: r =>
      match setField req kv with
      | inl e => inl e
      | inr req' => setFields req' r
      end
  end.

(** [json.Unmarshal([]byte(line), &req)] for a zero [req]. *)
Definition Unmarshal_Request (line : string) : error + Request :=
  match Json.parse line with
  | None => inl Json.SyntaxError
  | Some Json.Null => inr zeroRequest
  | Some (Json.Object ms) => setFields zeroRequest ms
  | Some _ => inl (Json.UnmarshalTypeError "into Go value of type main.Request")
  end.

(** [json.Unmarshal([]byte(bodyLine), &base64Str)] for an empty string. *)
Definition Unmarshal_string (line : string) : error + string :=
  match Json.parse line with
  | None => inl Json.SyntaxError
  | Some v => Json.into_string v ""
  end.

(** *** json.Marshal of a [Response]: every field has [omitempty] *)

Definition member (name : string) (text : string) : string :=
  Json.quote name ++ ":" ++ text.

Definition Marshal (resp : Response) : error + string :=
  let time : error + list string :=
    match Resp.Time resp with
    | None => inr []
    | Some t =>
        match TimeJson.MarshalJSON t with
        | inl e => inl e
        | inr s => inr [member "Time" s]
        end
    end in
  match time with
  | inl e => inl (Err.wrapf "json: error calling MarshalJSON for type *time.Time: " e "")
  | inr time =>
      inr ("{" ++ Json.join ","
        ((if Resp.ID resp =? 0 then []
          else [member "ID" (Fmt.format_int (Resp.ID resp))])
         ++ (if bool_decide (Resp.Err resp = "") then []
             else [member "Err" (Json.quote (Resp.Err resp))])
         ++ (match Resp.KnownCommands resp with
             | [] => []
             | cmds => [member "KnownCommands"
                          ("[" ++ Json.join "," (map Json.quote cmds) ++ "]")]
             end)
         ++ (if Resp.Miss resp then [member "Miss" "true"] else [])
         ++ (match Resp.OutputID resp with
             | [] => []
             | bs => [member "OutputID" (Json.quote (Base64.EncodeToString bs))]
             end)
         ++ (if Resp.Size resp =? 0 then []
             else [member "Size" (Fmt.format_int (Resp.Size resp))])
         ++ time
         ++ (if bool_decide (Resp.DiskPath resp = "") then []
             else [member "DiskPath" (Json.quote (Resp.DiskPath resp))]))
        ++ "}")
  end.

(** *** The scanner and the writer *)

(** A [bufio.Scanner] over the inbound stream: the lines it has yet to
    deliver and the error, if any, that ends the stream ([None]: the end
    of the stream). *)
Record Scanner : Type :=
  mkScanner { tokens : list string; scanErr : option error }.

(** A [bufio.Writer] over the outbound stream: the bytes delivered, the
    bytes buffered, its sticky error, and for each coming operation
    ([Write], [WriteByte], [Flush]) whether it fails. *)
Record Writer : Type := mkWriter {
  delivered : string;
  buffered : string;
  werr : option error;
  wfaults : list (option error)
}.

Definition Writer_op (w : Writer) (f : Writer -> Writer)
  : option error * Writer :=
  match werr w with
  | Some e => (Some e, w)
  | None =>
      match wfaults w with
      | Some e :: r => (Some e, mkWriter (delivered w) (buffered w) (Some e) r)
      | None :: r => (None, f (mkWriter (delivered w) (buffered w) None r))
      | [] => (None, f w)
      end
  end.

Definition Writer_Write (w : Writer) (data : string) : option error * Writer :=
  Writer_op w (fun w =>
    mkWriter (delivered w) (buffered w ++ data) (werr w) (wfaults w)).

Definition Writer_Flush (w : Writer) : option error * Writer :=
  Writer_op w (fun w =>
    mkWriter (delivered w ++ buffered w) "" (werr w) (wfaults w)).

Section Engine.
Context {B : Type} `{Backend B}.

(** [CacheProg]. *)
Record CacheProg : Type :=
  mkCacheProg { backend : B; scanner : Scanner; writer : Writer }.

Definition with_writer (cp : CacheProg) (w : Writer) : CacheProg :=
  mkCacheProg (backend cp) (scanner cp) w.

(** [SendResponse]. *)
Definition SendResponse (resp : Response) (cp : CacheProg)
  : option error * CacheProg :=
  match Marshal resp with
  | inl err => (Some (Err.wrapf "failed to marshal response: " err ""), cp)
  | inr data =>
      match Writer_Write (writer cp) data with
      | (Some err, w1) =>
          (Some (Err.wrapf "failed to write response: " err ""),
           with_writer cp w1)
      | (None, w1) =>
          match Writer_Write w1 (String "010" EmptyString) with
          | (Some err, w2) =>
              (Some (Err.wrapf "failed to write newline: " err ""),
               with_writer cp w2)
          | (None, w2) =>
              let '(err, w3) := Writer_Flush w2 in (err, with_writer cp w3)
          end
      end
  end.

Definition initialResponse : Response :=
  Resp.mkResponse 0 "" [CmdPut; CmdGet; CmdClose] false [] 0 None "".

(** [SendInitialResponse]. *)
Definition SendInitialResponse (cp : CacheProg) : option error * CacheProg :=
  SendResponse initialResponse cp.

(** The loop [for { if !Scan() ...; line = Text(); if TrimSpace(line) != ""
    { break } }]: the first non-blank line and the lines after it, or
    [None] when [Scan] returns false first. *)
Fixpoint nextLine (toks : list string) : option (string * list string) :=
  match toks with
  | [] => None
  | line :: rest =>
      if Str.nonblank line then Some (line, rest) else nextLine rest
  end.

(** The verb [%q] on a line, for the printable ASCII characters. *)
Definition Quote (s : string) : string := Json.quote s.

(** [ReadRequest].  [inl Err.io_EOF] is the result [nil, io.EOF]. *)
Definition ReadRequest (cp : CacheProg) : (error + Request) * CacheProg :=
  let sc := scanner cp in
  let ended := mkCacheProg (backend cp) (mkScanner [] (scanErr sc)) (writer cp) in
  match nextLine (tokens sc) with
  | None =>
      match scanErr sc with
      | Some err => (inl (Err.wrapf "failed to read request: " err ""), ended)
      | None => (inl Err.io_EOF, ended)
      end
  | Some (line, rest) =>
      let cp1 := mkCacheProg (backend cp) (mkScanner rest (scanErr sc))
                   (writer cp) in
      match Unmarshal_Request line with
      | inl err =>
          (inl (Err.wrapf "failed to unmarshal request: " err
                  (" (line: " ++ Quote line ++ ")")), cp1)
      | inr req =>
          if bool_decide (Req.Command req = CmdPut) && (0 <? Req.BodySize req)
          then
            match nextLine rest with
            | None =>
                match scanErr sc with
                | Some err =>
                    (inl (Err.wrapf "error reading body line: " err ""), ended)
                | None => (inl Err.io_EOF, ended)
                end
            | Some (bodyLine, rest') =>
                let cp2 := mkCacheProg (backend cp)
                             (mkScanner rest' (scanErr sc)) (writer cp) in
                match Unmarshal_string bodyLine with
                | inl err =>
                    (inl (Err.wrapf "failed to unmarshal body as JSON string: "
                            err (" (line: " ++ Quote bodyLine ++ ")")), cp2)
                | inr base64Str =>
                    match Base64.DecodeString base64Str with
                    | inl err =>
                        (inl (Err.wrapf "failed to decode base64 body: " err ""),
                         cp2)
                    | inr bodyData =>
                        (inr (Req.mkRequest (Req.ID req) (Req.Command req)
                                (Req.ActionID req) (Req.OutputID req)
                                (Some (strings_NewReader
                                         (string_of_list_byte bodyData)))
                                (Req.BodySize req)),
                         cp2)
                    end
                end
            end
          else (inr req, cp1)
      end
  end.

Definition with_backend (cp : CacheProg) (b : B) : CacheProg :=
  mkCacheProg b (scanner cp) (writer cp).

(** The response [HandleRequest] builds, and the backend after the call. *)
Definition respond (req : Request) (b : B) : Response * B :=
  let id := Req.ID req in
  if bool_decide (Req.Command req = CmdPut) then
    let '((diskPath, err), b') :=
      Put (Req.ActionID req) (Req.OutputID req) (Req.Body req)
          (Req.BodySize req) b in
    match err with
    | Some e => (Resp.mkResponse id (Err.Error e) [] false [] 0 None "", b')
    | None => (Resp.mkResponse id "" [] false [] 0 None diskPath, b')
    end
  else if bool_decide (Req.Command req = CmdGet) then
    let '((outputID, diskPath, size, putTime, miss, err), b') :=
      Get (Req.ActionID req) b in
    match err with
    | Some e => (Resp.mkResponse id (Err.Error e) [] false [] 0 None "", b')
    | None =>
        if miss then (Resp.mkResponse id "" [] true [] 0 None "", b')
        else (Resp.mkResponse id "" [] false outputID size putTime diskPath, b')
    end
  else if bool_decide (Req.Command req = CmdClose) then
    let '(err, b') := Close b in
    match err with
    | Some e => (Resp.mkResponse id (Err.Error e) [] false [] 0 None "", b')
    | None => (Resp.mkResponse id "" [] false [] 0 None "", b')
    end
  else
    (Resp.mkResponse id ("unknown command: " ++ Req.Command req)
       [] false [] 0 None "", b).

(** [HandleRequest]. *)
Definition HandleRequest (req : Request) (cp : CacheProg)
  : option error * CacheProg :=
  let '(resp, b') := respond req (backend cp) in
  SendResponse resp (with_backend cp b').

(** The loop of [Run].  Every round that goes on has taken a line from the
    scanner, so [fuel] rounds are enough when [fuel] exceeds the number of
    lines; [None]: the rounds ran out. *)
Fixpoint serve (fuel : nat) (cp : CacheProg)
  : option (option error * CacheProg) :=
  match fuel with
  | O => None
  | S fuel' =>
      match ReadRequest cp with
      | (inl err, cp1) =>
          if bool_decide (err = Err.io_EOF) then Some (None, cp1)
          else Some (Some (Err.wrapf "failed to read request: " err ""), cp1)
      | (inr req, cp1) =>
          match HandleRequest req cp1 with
          | (Some err, cp2) =>
              Some (Some (Err.wrapf "failed to handle request: " err ""), cp2)
          | (None, cp2) =>
              if bool_decide (Req.Command req = CmdClose) then Some (None, cp2)
              else serve fuel' cp2
          end
      end
  end.

Definition rounds (cp : CacheProg) : nat :=
  S (List.length (tokens (scanner cp))).

(** [Run]. *)
Definition Run (cp : CacheProg) : option (option error * CacheProg) :=
  match SendInitialResponse cp with
  | (Some err, cp1) =>
      Some (Some (Err.wrapf "failed to send initial response: " err ""), cp1)
  | (None, cp1) => serve (rounds cp1) cp1
  end.

End Engine.

Arguments CacheProg : clear implicits.

End Server.

(** ** Predicates and sample values used in the statements *)

Module Props.

(** A byte that is ASCII and no white space. *)
Definition plain (c : ascii) : bool :=
  (Str.byteN c <? 128)%N && negb (Str.ascii_space c).

Fixpoint all (p : ascii -> bool) (s : string) : bool :=
  match s with
  | EmptyString => true
  | String c r => p c && all p r
  end.

(** The writer has no error, holds no buffered bytes, and its next three
    operations (the [Write], [WriteByte] and [Flush] of one
    [SendResponse]) do not fail. *)
Definition Writer_ready (w : Server.Writer) : Prop :=
  Server.werr w = None /\ Server.buffered w = "" /\
  Forall (fun f => f = None) (firstn 3 (Server.wfaults w)).

(** The writer after one response line [data] went out. *)
Definition Writer_sent (w : Server.Writer) (data : string) : Server.Writer :=
  Server.mkWriter (Server.delivered w ++ data ++ String "010" EmptyString) ""
    None (skipn 3 (Server.wfaults w)).

(** The error the backend call of a put, get or close request returns,
    and the backend after the call. *)
Definition backendFailure {B : Type} `{Backends.Backend B}
    (req : Server.Request) (b : B) : option (error * B) :=
  if bool_decide (Server.Req.Command req = Server.CmdPut) then
    match Backends.Put (Server.Req.ActionID req) (Server.Req.OutputID req)
            (Server.Req.Body req) (Server.Req.BodySize req) b with
    | ((_, Some e), b') => Some (e, b')
    | _ => None
    end
  else if bool_decide (Server.Req.Command req = Server.CmdGet) then
    match Backends.Get (Server.Req.ActionID req) b with
    | ((_, _, _, _, _, Some e), b') => Some (e, b')
    | _ => None
    end
  else if bool_decide (Server.Req.Command req = Server.CmdClose) then
    match Backends.Close b with
    | (Some e, b') => Some (e, b')
    | _ => None
    end
  else None.

(** The response that reports the error text [msg] for the request [id]. *)
Definition errorResponse (id : Z) (msg : string) : Server.Response :=
  Server.Resp.mkResponse id msg [] false [] 0 None "".

(** The request [ReadRequest] returns for a put with a body. *)
Definition withBody (req : Server.Request) (bodyData : list byte)
  : Server.Request :=
  Server.Req.mkRequest (Server.Req.ID req) (Server.Req.Command req)
    (Server.Req.ActionID req) (Server.Req.OutputID req)
    (Some (strings_NewReader (string_of_list_byte bodyData)))
    (Server.Req.BodySize req).

(** What the caller of [check] sees: the metadata (or the miss) and the
    records logged; [None] when the call panics. *)
Definition observed
    (r : run (option LocalCache.localCacheMetadata * LocalCache.World))
  : option (option LocalCache.localCacheMetadata * list LogRecord) :=
  match r with
  | Done (m, w) => Some (m, LocalCache.logged w)
  | Panic => None
  end.

(** The capabilities line as the engine writes it, and as the protocol
    description gives it. *)
Definition capabilitiesLine : string :=
  sq "{'KnownCommands':['put','get','close']}".
Definition describedCapabilitiesLine : string :=
  sq "{'ID':0,'KnownCommands':['put','get','close']}".

(** What a session shows from outside: the error [Run] returns and the
    bytes delivered on the outbound stream. *)
Definition transcript {B : Type}
    (r : option (option error * Server.CacheProg B))
  : option (option error * string) :=
  match r with
  | Some (e, cp) => Some (e, Server.delivered (Server.writer cp))
  | None => None
  end.

Definition known (cmd : Server.Cmd) : bool :=
  bool_decide (cmd = Server.CmdPut) || bool_decide (cmd = Server.CmdGet)
  || bool_decide (cmd = Server.CmdClose).

End Props.

(** Sample values: a backend that refuses every call and counts the calls
    it received, a fresh writer, a store directory and a version
    prefix. *)
Module Samples.

#[export] Instance refusing : Backends.Backend nat := {
  Put := fun _ _ _ _ n => (("", Some (errors_New "disk full")), S n);
  Get := fun _ n =>
    (([], "", 0, None, false, Some (errors_New "disk unreadable")), S n);
  Close := fun n => (Some (errors_New "close failed"), S n);
  Clear := fun n => (Some (errors_New "clear failed"), S n)
}.

Definition freshWriter : Server.Writer := Server.mkWriter "" "" None [].

Definition session (lines : list string) : Server.CacheProg nat :=
  Server.mkCacheProg 0%nat (Server.mkScanner lines None) freshWriter.

Definition lc : LocalCache.localCache := LocalCache.mkLocalCache "/cache".
Definition version : string := "v1-".
Definition key : list byte := [Byte.x01].
Definition keyPath : string := "/cache/01/v1-01".

(** A body whose reader fails after three bytes. *)
Definition brokenBody : Reader :=
  mkReader "new" (Some (errors_New "read failed")).

(** An entry stored earlier under [key]: the body and its sidecar. *)
Definition storedEntry : gmap string string :=
  {[ keyPath := "old";
     keyPath ++ ".meta" := LocalCache.metadataContent
                             (LocalCache.mkMeta [Byte.xab] 3 (time_Unix 7)) ]}.

(** A sidecar whose size and time lines hold no number. *)
Definition garbledSidecar : gmap string string :=
  {[ keyPath ++ ".meta" := "outputID:00" ++ String "010" "size:x"
                           ++ String "010" "time:y" ++ String "010" "" ]}.

(** An environment in which writing the temporary sidecar fails. *)
Definition sidecarFails : FS.Faults := fun c =>
  match c with
  | FS.SysWriteFile _ => Some (errors_New "no space left on device")
  | _ => None
  end.

(** Request lines of the protocol scenario, and the requests they hold. *)
Definition putLine : string :=
  sq "{'ID':2,'Command':'put','ActionID':'AAAA','OutputID':'AQID','BodySize':4}".
Definition putRequest : Server.Request :=
  Server.Req.mkRequest 2 "put" [Byte.x00; Byte.x00; Byte.x00]
    [Byte.x01; Byte.x02; Byte.x03] None 4.
Definition getLine : string := sq "{'ID':8,'Command':'get','ActionID':'AAAA'}".
Definition getRequest : Server.Request :=
  Server.Req.mkRequest 8 "get" [Byte.x00; Byte.x00; Byte.x00] [] None 0.

End Samples.

(** ** The start of the local disk store (newLocalCache) *)

Module Setup.

(** Which [os.MkdirAll] calls fail, by the path they name. *)
Definition MkdirFaults : Type := string -> option error.

(** [os.MkdirAll]: afterwards the directory exists; a directory that is
    there already is no error.  The set [dirs] holds the paths known to
    exist by name: the parents a call creates along are not entered. *)
Definition os_MkdirAll (env : MkdirFaults) (path : string) (dirs : gset string)
  : option error * gset string :=
  match env path with
  | Some e => (Some e, dirs)
  | None => (None, {[ path ]} ∪ dirs)
  end.

(** [fmt.Sprintf("%02x", i)] for [0 <= i < 256]. *)
Definition Sprintf_02x (i : N) : string :=
  String (Hex.hexdigit (i / 16)) (String (Hex.hexdigit (i mod 16)) EmptyString).

(** [filepath.Join] of a cleaned, absolute [dir] other than the root with
    one name that holds no separator. *)
Definition filepath_Join (dir a : string) : string := dir ++ "/" ++ a.

(** The loop [for i := 0; i < 256; i++] from [i] on, [n] rounds: it stops
    at the first directory it cannot create. *)
Fixpoint mkSubdirs (env : MkdirFaults) (absCacheDir : string) (n : nat) (i : N)
    (dirs : gset string) : option error * gset string :=
  match n with
  | O => (None, dirs)
  | S n' =>
      let subdir := Sprintf_02x i in
      let subdirPath := filepath_Join absCacheDir subdir in
      match os_MkdirAll env subdirPath dirs with
      | (Some err, dirs1) =>
          (Some (Err.wrapf ("failed to create subdirectory " ++ subdir ++ ": ")
                   err ""), dirs1)
      | (None, dirs1) => mkSubdirs env absCacheDir n' (i + 1)%N dirs1
      end
  end.

(** [newLocalCache].  [filepath_Abs] is [filepath.Abs], which depends on
    the working directory of the process. *)
Definition newLocalCache (env : MkdirFaults)
    (filepath_Abs : string -> error + string) (cacheDir : string)
    (dirs : gset string) : (error + LocalCache.localCache) * gset string :=
  match os_MkdirAll env cacheDir dirs with
  | (Some err, dirs1) =>
      (inl (Err.wrapf "failed to create cache directory: " err ""), dirs1)
  | (None, dirs1) =>
      match filepath_Abs cacheDir with
      | inl err =>
          (inl (Err.wrapf "failed to get absolute path: " err ""), dirs1)
      | inr absCacheDir =>
          match mkSubdirs env absCacheDir 256 0 dirs1 with
          | (Some err, dirs2) => (inl err, dirs2)
          | (None, dirs2) => (inr (LocalCache.mkLocalCache absCacheDir), dirs2)
          end
      end
  end.

End Setup.

(** ** Further predicates and sample values *)

Module Terms.

(** No system call is made to fail. *)
Definition quiet (env : FS.Faults) : Prop := forall c, env c = None.

(** The four files the store keeps or uses for a key whose body path is
    [p]. *)
Inductive fileKind : Type := Body | Sidecar | BodyTmp | SidecarTmp.

Definition pathOf (k : fileKind) (p : string) : string :=
  match k with
  | Body => p
  | Sidecar => p ++ ".meta"
  | BodyTmp => p ++ ".tmp"
  | SidecarTmp => (p ++ ".meta") ++ ".tmp"
  end.

(** A hex digit, in either case. *)
Definition is_hex (c : ascii) : Prop := Hex.fromHexChar c <> None.

(** No mutex of the group is held. *)
Definition idle (s : Locking.MemLock) : Prop :=
  Locking.mu s = false /\
  forall k b, Locking.locks s !! k = Some b -> b = false.

(** The engine [cp] with the lines [toks] to read. *)
Definition feed {B : Type} (cp : Server.CacheProg B) (toks : list string)
  : Server.CacheProg B :=
  Server.mkCacheProg (Server.backend cp)
    (Server.mkScanner toks (Server.scanErr (Server.scanner cp)))
    (Server.writer cp).

(** A line that [ReadRequest] skips. *)
Definition blank (line : string) : Prop := Str.nonblank line = false.

(** The engine over the backend that a debug decorator wraps, the
    diagnostic stream forgotten. *)
Definition undecorated {B : Type}
    (cp : Server.CacheProg (Backends.Debug.Debug B)) : Server.CacheProg B :=
  Server.mkCacheProg (Backends.Debug.backend (Server.backend cp))
    (Server.scanner cp) (Server.writer cp).

Definition forget {B : Type}
    (r : option (option error * Server.CacheProg (Backends.Debug.Debug B)))
  : option (option error * Server.CacheProg B) :=
  match r with
  | Some (e, cp) => Some (e, undecorated cp)
  | None => None
  end.

(** No byte of [s] is a line feed. *)
Definition one_line (s : string) : bool :=
  Props.all (fun c => negb (Ascii.eqb c "010")) s.

(** The response [HandleRequest] sends for a close request. *)
Definition closeResponse (id : Z) (err : option error) : Server.Response :=
  Props.errorResponse id
    (match err with Some e => Err.Error e | None => EmptyString end).

(** An environment in which the final rename of a body fails. *)
Definition renameFails : FS.Faults := fun c =>
  match c with
  | FS.SysRename _ _ => Some (errors_New "cross-device link")
  | _ => None
  end.

(** A backend that stores nothing and accepts every call. *)
Definition accepting : Backends.Backend unit := {|
  Backends.Put := fun _ _ _ _ u => (("/stored", None), u);
  Backends.Get := fun _ u => (([], "", 0, None, true, None), u);
  Backends.Close := fun u => (None, u);
  Backends.Clear := fun u => (None, u)
|}.

Definition closeLine : string := sq "{'ID':3,'Command':'close'}".
Definition closeRequest : Server.Request :=
  Server.Req.mkRequest 3 "close" [] [] None 0.

End Terms.

(** * Part II: facts and theorems *)

(** ** The string and codec functions on sample inputs *)

Module Examples.
Example TrimSpace_ex1 : Str.TrimSpace "  size:12 	" = "size:12".
Proof. reflexivity. Qed.
Example Sscanf_d_ex1 : Fmt.Sscanf_d " -42xyz" = Some (-42).
Proof. reflexivity. Qed.
Example Sscanf_d_ex2 : Fmt.Sscanf_d "oops" = None.
Proof. reflexivity. Qed.
Example Sscanf_d_ex3 : Fmt.Sscanf_d "9223372036854775808" = None.
Proof. reflexivity. Qed.
Example Sscanf_s_ex1 : Fmt.Sscanf_s "ab cd" = Some "ab".
Proof. reflexivity. Qed.
Example format_int_ex : Fmt.format_int (-120) = "-120" /\ Fmt.format_int 0 = "0".
Proof. split; reflexivity. Qed.
Example hex_ex : Hex.EncodeToString [Byte.x00; Byte.xab; Byte.xff] = "00abff"
  /\ Hex.DecodeString "00ABff" = inr [Byte.x00; Byte.xab; Byte.xff].
Proof. split; reflexivity. Qed.
Example base64_ex :
  Base64.DecodeString "dGVzdA==" = inr [Byte.x74; Byte.x65; Byte.x73; Byte.x74]
  /\ Base64.EncodeToString [Byte.x74; Byte.x65; Byte.x73; Byte.x74] = "dGVzdA==".
Proof. split; reflexivity. Qed.
Example time_ex :
  TimeJson.MarshalJSON (mkTime 1700000000 0)
  = inr (sq "'2023-11-14T22:13:20Z'").
Proof. reflexivity. Qed.
End Examples.

Module StrFacts.
Import Str Props.

Lemma plain_not_space c : plain c = true -> ascii_space c = false.
Proof. unfold plain. intros H. apply andb_prop in H as [_ H]. now destruct (ascii_space c). Qed.

Lemma plain_lt c : plain c = true -> (byteN c < 128)%N.
Proof. unfold plain. intros H. apply andb_prop in H as [H _]. now apply N.ltb_lt. Qed.

Lemma space2_low c d : (c < 128)%N -> space2 c d = false.
Proof.
  intros H. unfold space2.
  replace (c =? 194)%N with false; [reflexivity|].
  symmetry. apply N.eqb_neq. lia.
Qed.

Lemma space3_low c d e : (c < 128)%N -> space3 c d e = false.
Proof.
  intros H. unfold space3.
  replace (c =? 225)%N with false by (symmetry; apply N.eqb_neq; lia).
  replace (c =? 226)%N with false by (symmetry; apply N.eqb_neq; lia).
  replace (c =? 227)%N with false by (symmetry; apply N.eqb_neq; lia).
  reflexivity.
Qed.

Lemma space2_last_low c e : (e < 128)%N -> space2 c e = false.
Proof.
  intros H. unfold space2.
  replace (e =? 133)%N with false by (symmetry; apply N.eqb_neq; lia).
  replace (e =? 160)%N with false by (symmetry; apply N.eqb_neq; lia).
  now rewrite andb_false_r.
Qed.

Lemma space3_last_low c d e : (e < 128)%N -> space3 c d e = false.
Proof.
  intros H. unfold space3.
  replace (e =? 128)%N with false by (symmetry; apply N.eqb_neq; lia).
  replace (128 <=? e)%N with false by (symmetry; apply N.leb_gt; lia).
  replace (e =? 168)%N with false by (symmetry; apply N.eqb_neq; lia).
  replace (e =? 169)%N with false by (symmetry; apply N.eqb_neq; lia).
  replace (e =? 175)%N with false by (symmetry; apply N.eqb_neq; lia).
  replace (e =? 159)%N with false by (symmetry; apply N.eqb_neq; lia).
  now rewrite !andb_false_r.
Qed.

Lemma space_width_plain c r : plain c = true -> space_width (String c r) = 0%nat.
Proof.
  intros H. unfold space_width.
  rewrite (plain_not_space _ H).
  destruct r as [|d r']; [reflexivity|].
  rewrite (space2_low _ _ (plain_lt _ H)).
  destruct r' as [|e r'']; [reflexivity|].
  now rewrite (space3_low _ _ _ (plain_lt _ H)).
Qed.

Lemma space_width_rev_plain e r : plain e = true -> space_width_rev (e :: r) = 0%nat.
Proof.
  intros H. unfold space_width_rev.
  rewrite (plain_not_space _ H).
  destruct r as [|d r']; [reflexivity|].
  rewrite (space2_last_low _ _ (plain_lt _ H)).
  destruct r' as [|c r'']; [reflexivity|].
  now rewrite (space3_last_low _ _ _ (plain_lt _ H)).
Qed.

Lemma TrimLeft_plain s : all plain s = true -> TrimLeft s = s.
Proof.
  destruct s as [|c r]; [reflexivity|].
  simpl. intros H. apply andb_prop in H as [H _].
  unfold TrimLeft. cbn [String.length TrimLeft_loop].
  now rewrite (space_width_plain _ _ H).
Qed.

Lemma all_Forall p s : all p s = true -> Forall (fun c => p c = true) (list_ascii_of_string s).
Proof.
  induction s as [|c r IH]; simpl; intros H; [constructor|].
  apply andb_prop in H as [H1 H2]. constructor; auto.
Qed.

Lemma TrimRight_plain s : all plain s = true -> TrimRight s = s.
Proof.
  intros H. unfold TrimRight.
  assert (Hl : Forall (fun c => plain c = true) (rev (list_ascii_of_string s))).
  { apply Forall_rev. now apply all_Forall. }
  destruct (rev (list_ascii_of_string s)) as [|e l] eqn:E.
  - simpl. rewrite <- (string_of_list_ascii_of_string s).
    rewrite <- (rev_involutive (list_ascii_of_string s)), E. reflexivity.
  - inversion Hl; subst.
    cbn [List.length TrimRight_loop].
    rewrite (space_width_rev_plain _ _ H2).
    rewrite <- E, rev_involutive. apply string_of_list_ascii_of_string.
Qed.

Lemma TrimSpace_plain s : all plain s = true -> TrimSpace s = s.
Proof.
  intros H. unfold TrimSpace. rewrite (TrimLeft_plain _ H). now apply TrimRight_plain.
Qed.

Lemma token_plain s : all plain s = true -> token s = (s, EmptyString).
Proof.
  induction s as [|c r IH]; [reflexivity|].
  intros H. pose proof H as H'. simpl in H. apply andb_prop in H as [H1 H2].
  cbn [token]. rewrite (space_width_plain _ _ H1), (IH H2). reflexivity.
Qed.

Lemma all_app p a b : all p (a ++ b) = all p a && all p b.
Proof. induction a as [|c r IH]; simpl; [reflexivity|]. now rewrite IH, andb_assoc. Qed.

Lemma Split_nl_nonempty s : exists h t, Split_nl s = h :: t.
Proof.
  induction s as [|c r [h [t IH]]]; simpl; [eauto|].
  destruct (Ascii.eqb c "010"); [eauto|]. rewrite IH. eauto.
Qed.

Lemma plain_not_newline c : plain c = true -> Ascii.eqb c "010" = false.
Proof.
  intros H. destruct (Ascii.eqb_spec c "010") as [->|]; [|reflexivity].
  discriminate H.
Qed.

(** [Split] cuts at the first newline after a line of plain bytes. *)
Lemma Split_nl_line a b :
  all plain a = true ->
  Split_nl (a ++ String "010" b) = a :: Split_nl b.
Proof.
  induction a as [|c r IH]; simpl; intros H; [reflexivity|].
  apply andb_prop in H as [H1 H2].
  rewrite (plain_not_newline _ H1), (IH H2). reflexivity.
Qed.

End StrFacts.

Module CodecFacts.
Import Str Props StrFacts.

(** ** Hexadecimal *)

Lemma hex_byte_plain b :
  plain (Hex.hexdigit (Byte.to_N b / 16)) = true /\
  plain (Hex.hexdigit (Byte.to_N b mod 16)) = true.
Proof. destruct b; split; reflexivity. Qed.

Lemma hex_plain bs : all plain (Hex.EncodeToString bs) = true.
Proof.
  induction bs as [|b r IH]; [reflexivity|].
  destruct (hex_byte_plain b) as [H1 H2].
  simpl. now rewrite H1, H2, IH.
Qed.

Lemma hex_byte_decode b :
  Hex.fromHexChar (Hex.hexdigit (Byte.to_N b / 16)) = Some (Byte.to_N b / 16)%N /\
  Hex.fromHexChar (Hex.hexdigit (Byte.to_N b mod 16)) = Some (Byte.to_N b mod 16)%N /\
  Hex.mkbyte (Byte.to_N b / 16) (Byte.to_N b mod 16) = b.
Proof. destruct b; repeat split; reflexivity. Qed.

(** [hex.DecodeString] undoes [hex.EncodeToString]. *)
Lemma hex_roundtrip bs : Hex.DecodeString (Hex.EncodeToString bs) = inr bs.
Proof.
  induction bs as [|b r IH]; [reflexivity|].
  destruct (hex_byte_decode b) as (H1 & H2 & H3).
  cbn [Hex.EncodeToString Hex.DecodeString].
  now rewrite H1, H2, IH, H3.
Qed.

Lemma hex_empty bs : Hex.EncodeToString bs = EmptyString -> bs = [].
Proof. destruct bs; [reflexivity|discriminate]. Qed.

(** ** Decimal *)

Lemma is_digit_plain c : is_digit c = true -> plain c = true.
Proof.
  unfold is_digit, plain, ascii_space. intros H.
  apply andb_prop in H as [H1 H2].
  apply N.leb_le in H1. apply N.leb_le in H2.
  replace (byteN c <? 128)%N with true by (symmetry; apply N.ltb_lt; lia).
  replace (byteN c <=? 13)%N with false by (symmetry; apply N.leb_gt; lia).
  replace (byteN c =? 32)%N with false by (symmetry; apply N.eqb_neq; lia).
  now rewrite andb_false_r.
Qed.

Lemma all_impl (p q : ascii -> bool) s :
  (forall c, p c = true -> q c = true) -> all p s = true -> all q s = true.
Proof.
  intros Hpq. induction s as [|c r IH]; simpl; [auto|].
  intros H. apply andb_prop in H as [H1 H2]. now rewrite (Hpq _ H1), (IH H2).
Qed.

Lemma uint_digits d : all is_digit (NilEmpty.string_of_uint d) = true.
Proof. induction d; simpl; auto. Qed.

Lemma uint_nonempty d : d <> Nil -> NilEmpty.string_of_uint d <> EmptyString.
Proof. destruct d; simpl; congruence. Qed.

Lemma NilZero_uint d : d <> Nil -> NilZero.string_of_uint d = NilEmpty.string_of_uint d.
Proof. destruct d; simpl; congruence. Qed.

Lemma to_int_cases z :
  (exists d, Z.to_int z = Decimal.Pos d /\ d <> Nil /\ Z.of_uint d = z) \/
  (exists d, Z.to_int z = Decimal.Neg d /\ d <> Nil /\ - Z.of_uint d = z).
Proof.
  pose proof (DecimalZ.of_to z) as E.
  destruct z as [|p|p]; simpl in *.
  - left. exists (D0 Nil). repeat split; congruence.
  - left. exists (Pos.to_uint p). repeat split; auto using Unsigned.to_uint_nonnil.
  - right. exists (Pos.to_uint p). repeat split; auto using Unsigned.to_uint_nonnil.
Qed.

(** The text [%d] prints holds digits after an optional minus sign. *)
Lemma format_int_plain z : all plain (Fmt.format_int z) = true.
Proof.
  unfold Fmt.format_int.
  destruct (to_int_cases z) as [(d & E & Hd & _)|(d & E & Hd & _)]; rewrite E; simpl.
  - rewrite (NilZero_uint _ Hd).
    apply (all_impl is_digit); [apply is_digit_plain | apply uint_digits].
  - rewrite (NilZero_uint _ Hd).
    apply (all_impl is_digit); [apply is_digit_plain | apply uint_digits].
Qed.

Lemma span_all p s : all p s = true -> span p s = (s, EmptyString).
Proof.
  induction s as [|c r IH]; simpl; [reflexivity|].
  intros H. apply andb_prop in H as [H1 H2]. now rewrite H1, (IH H2).
Qed.

Lemma digit_not_sign c : is_digit c = true -> Fmt.is_sign c = false.
Proof.
  unfold Fmt.is_sign. intros H.
  destruct (Ascii.eqb_spec c "+") as [->|]; [discriminate H|].
  destruct (Ascii.eqb_spec c "-") as [->|]; [discriminate H|]. reflexivity.
Qed.

Lemma int64_okb_true z : int64_ok z -> int64_okb z = true.
Proof.
  unfold int64_ok, int64_okb. intros [H1 H2].
  apply andb_true_intro. split; [apply Z.leb_le | apply Z.ltb_lt]; assumption.
Qed.

(** [Sscanf] with [%d] reads back what [%d] printed. *)
Lemma Sscanf_d_format z : int64_ok z -> Fmt.Sscanf_d (Fmt.format_int z) = Some z.
Proof.
  intros Hz. unfold Fmt.Sscanf_d.
  rewrite (TrimLeft_plain _ (format_int_plain z)).
  unfold Fmt.format_int.
  destruct (to_int_cases z) as [(d & E & Hd & Hv)|(d & E & Hd & Hv)]; rewrite E; simpl.
  - rewrite (NilZero_uint _ Hd).
    pose proof (uint_digits d) as Hdig. pose proof (uint_nonempty d Hd) as Hne.
    destruct (NilEmpty.string_of_uint d) as [|c r] eqn:Es; [congruence|].
    pose proof Hdig as Hdig'. simpl in Hdig'. apply andb_prop in Hdig' as [Hc _].
    rewrite (digit_not_sign _ Hc), (span_all _ _ Hdig). cbn [fst].
    unfold Fmt.ParseInt. rewrite <- Es, NilEmpty.usu.
    rewrite bool_decide_eq_false_2 by discriminate.
    rewrite Hv, (int64_okb_true _ Hz). reflexivity.
  - rewrite (NilZero_uint _ Hd).
    pose proof (uint_digits d) as Hdig. pose proof (uint_nonempty d Hd) as Hne.
    rewrite (span_all _ _ Hdig). cbn [fst].
    destruct (NilEmpty.string_of_uint d) as [|c r] eqn:Es; [congruence|].
    unfold Fmt.ParseInt. rewrite <- Es, NilEmpty.usu.
    rewrite bool_decide_eq_true_2 by reflexivity.
    rewrite Hv, (int64_okb_true _ Hz). reflexivity.
Qed.

(** [Sscanf] with [%s] reads a word of plain bytes whole, and fails on
    empty input. *)
Lemma Sscanf_s_plain s :
  all plain s = true ->
  Fmt.Sscanf_s s = match s with EmptyString => None | _ => Some s end.
Proof.
  intros H. unfold Fmt.Sscanf_s. rewrite (TrimLeft_plain _ H).
  destruct s; [reflexivity|]. now rewrite (token_plain _ H).
Qed.

End CodecFacts.

Module LocalCacheFacts.
Import Str Props StrFacts CodecFacts FS LocalCache.

(** ** Paths *)

Lemma length_app (a b : string) :
  String.length (a ++ b) = (String.length a + String.length b)%nat.
Proof. induction a as [|c r IH]; simpl; [reflexivity|]. now rewrite IH. Qed.

Lemma app_suffix_ne (p x : string) : x <> EmptyString -> p ++ x <> p.
Proof.
  intros Hx E. apply (f_equal String.length) in E. rewrite length_app in E.
  destruct x; [congruence|]. simpl in E. lia.
Qed.

Lemma app_inj_l (p x y : string) : p ++ x = p ++ y -> x = y.
Proof. induction p as [|c r IH]; simpl; [auto|]. intros [= E]. auto. Qed.

Lemma tmp_ne_disk p : p ++ ".tmp" <> p.
Proof. now apply app_suffix_ne. Qed.

Lemma tmp_ne_meta p : p ++ ".tmp" <> p ++ ".meta".
Proof. intros E. apply app_inj_l in E. discriminate. Qed.

Lemma meta_ne_disk p : p ++ ".meta" <> p.
Proof. now apply app_suffix_ne. Qed.

Lemma metatmp_ne_meta p : (p ++ ".meta") ++ ".tmp" <> p ++ ".meta".
Proof. now apply app_suffix_ne. Qed.

Section Store.
Variable v : string.
Variable lc : localCache.

Lemma actionIDToPath_nonempty actionID :
  actionID <> [] -> exists p, actionIDToPath v lc actionID = Some p.
Proof.
  destruct actionID as [|b r]; [congruence|]. intros _.
  unfold actionIDToPath. cbn [Hex.EncodeToString]. eauto.
Qed.

Lemma actionIDToPath_empty : actionIDToPath v lc [] = None.
Proof. reflexivity. Qed.

Lemma metadataPath_Some actionID p :
  actionIDToPath v lc actionID = Some p ->
  metadataPath v lc actionID = Some (p ++ ".meta").
Proof. unfold metadataPath. now intros ->. Qed.

(** ** [check] *)

(** Whatever [readMetadata] fails with, [check] reports a miss and leaves
    the files as they are. *)
Lemma check_miss env actionID w e :
  readMetadata v env lc actionID (files w) = Done (inl e) ->
  exists w', check v env lc actionID w = Done (None, w') /\ files w' = files w.
Proof.
  intros E. unfold check. rewrite E.
  destruct (Err.errors_Is e Err.os_ErrNotExist); [eauto|].
  unfold readMetadata, metadataPath in E.
  destruct (actionIDToPath v lc actionID) as [p|]; [|discriminate].
  destruct (os_Stat env p (files w)); eauto.
Qed.

Lemma check_hit env actionID w m :
  readMetadata v env lc actionID (files w) = Done (inr m) ->
  check v env lc actionID w = Done (Some m, w).
Proof. intros E. unfold check. now rewrite E. Qed.

(** [readMetadata] looks at the sidecar only. *)
Lemma readMetadata_ext env actionID p (fs1 fs2 : Files) :
  actionIDToPath v lc actionID = Some p ->
  fs1 !! (p ++ ".meta") = fs2 !! (p ++ ".meta") ->
  readMetadata v env lc actionID fs1 = readMetadata v env lc actionID fs2.
Proof.
  intros Hp E. unfold readMetadata. rewrite (metadataPath_Some _ _ Hp).
  unfold os_ReadFile. now rewrite E.
Qed.

(** [check] looks at the sidecar and at the body file only. *)
Lemma check_ext env actionID p (fs1 fs2 : Files) logs :
  actionIDToPath v lc actionID = Some p ->
  fs1 !! (p ++ ".meta") = fs2 !! (p ++ ".meta") ->
  fs1 !! p = fs2 !! p ->
  observed (check v env lc actionID (mkWorld fs1 logs)) =
  observed (check v env lc actionID (mkWorld fs2 logs)).
Proof.
  intros Hp Em Ed. unfold check. cbn [files logged].
  rewrite (readMetadata_ext env actionID p fs1 fs2 Hp Em).
  destruct (readMetadata v env lc actionID fs2) as [|[e|m]]; [reflexivity| |reflexivity].
  destruct (Err.errors_Is e Err.os_ErrNotExist); [reflexivity|].
  rewrite Hp. unfold os_Stat. rewrite Ed.
  destruct (env (SysStat p)); [reflexivity|].
  destruct (fs2 !! p); reflexivity.
Qed.

(** An absent sidecar is a miss without a warning. *)
Lemma check_absent env actionID p w :
  actionIDToPath v lc actionID = Some p ->
  env (SysReadFile (p ++ ".meta")) = None ->
  files w !! (p ++ ".meta") = None ->
  check v env lc actionID w = Done (None, w).
Proof.
  intros Hp He Hf. unfold check, readMetadata.
  rewrite (metadataPath_Some _ _ Hp). unfold os_ReadFile. rewrite He, Hf.
  reflexivity.
Qed.

End Store.
End LocalCacheFacts.

Module SidecarFacts.
Import Str Props StrFacts CodecFacts FS LocalCache LocalCacheFacts.

Lemma HasPrefix_app p s : HasPrefix (p ++ s) p = true.
Proof.
  unfold HasPrefix. induction p as [|a p IH]; simpl.
  - destruct s; reflexivity.
  - destruct (ascii_dec a a); [apply IH | congruence].
Qed.

(** The lines of the text [writeMetadata] writes. *)
Lemma metadataContent_lines meta :
  Split_nl (metadataContent meta) =
  [ "outputID:" ++ Hex.EncodeToString (OutputID meta);
    "size:" ++ Fmt.format_int (Size meta);
    "time:" ++ Fmt.format_int (Time_Unix (PutTime meta));
    EmptyString ].
Proof.
  change (metadataContent meta) with
    (("outputID:" ++ Hex.EncodeToString (OutputID meta)) ++ String "010"
     (("size:" ++ Fmt.format_int (Size meta)) ++ String "010"
      (("time:" ++ Fmt.format_int (Time_Unix (PutTime meta))) ++ String "010"
       EmptyString))).
  rewrite !Split_nl_line; [reflexivity| | |].
  - rewrite all_app, format_int_plain. reflexivity.
  - rewrite all_app, format_int_plain. reflexivity.
  - rewrite all_app, hex_plain. reflexivity.
Qed.

Lemma parseLine_outputID st hex :
  all plain hex = true ->
  parseLine st ("outputID:" ++ hex) =
  match hex with
  | EmptyString => st
  | _ => mkFields hex (size st) (putTimeUnix st)
  end.
Proof.
  intros H. unfold parseLine. cbv zeta.
  rewrite TrimSpace_plain by (rewrite all_app, H; reflexivity).
  rewrite (HasPrefix_app "outputID:").
  change (drop 9 ("outputID:" ++ hex)) with hex.
  rewrite (Sscanf_s_plain _ H). destruct hex; reflexivity.
Qed.

Lemma parseLine_size st z :
  int64_ok z ->
  parseLine st ("size:" ++ Fmt.format_int z) =
  mkFields (outputIDHex st) z (putTimeUnix st).
Proof.
  intros H. unfold parseLine. cbv zeta.
  rewrite TrimSpace_plain by (rewrite all_app, format_int_plain; reflexivity).
  change (HasPrefix ("size:" ++ Fmt.format_int z) "outputID:") with false.
  rewrite (HasPrefix_app "size:").
  change (drop 5 ("size:" ++ Fmt.format_int z)) with (Fmt.format_int z).
  now rewrite (Sscanf_d_format _ H).
Qed.

Lemma parseLine_time st z :
  int64_ok z ->
  parseLine st ("time:" ++ Fmt.format_int z) =
  mkFields (outputIDHex st) (size st) z.
Proof.
  intros H. unfold parseLine. cbv zeta.
  rewrite TrimSpace_plain by (rewrite all_app, format_int_plain; reflexivity).
  change (HasPrefix ("time:" ++ Fmt.format_int z) "outputID:") with false.
  change (HasPrefix ("time:" ++ Fmt.format_int z) "size:") with false.
  rewrite (HasPrefix_app "time:").
  change (drop 5 ("time:" ++ Fmt.format_int z)) with (Fmt.format_int z).
  now rewrite (Sscanf_d_format _ H).
Qed.

(** The size and time lines never touch the output ID that was read. *)
Lemma parseLine_number_keeps st (tag : string) z :
  tag = "size:" \/ tag = "time:" ->
  outputIDHex (parseLine st (tag ++ Fmt.format_int z)) = outputIDHex st.
Proof.
  intros Ht. unfold parseLine. cbv zeta.
  rewrite TrimSpace_plain
    by (rewrite all_app, format_int_plain; destruct Ht; subst; reflexivity).
  destruct Ht; subst.
  - change (HasPrefix ("size:" ++ Fmt.format_int z) "outputID:") with false.
    rewrite (HasPrefix_app "size:").
    cbv iota. destruct (Fmt.Sscanf_d _); reflexivity.
  - change (HasPrefix ("time:" ++ Fmt.format_int z) "outputID:") with false.
    change (HasPrefix ("time:" ++ Fmt.format_int z) "size:") with false.
    rewrite (HasPrefix_app "time:").
    cbv iota. destruct (Fmt.Sscanf_d _); reflexivity.
Qed.

Lemma parseLine_blank st : parseLine st EmptyString = st.
Proof. reflexivity. Qed.

(** The loop of [readMetadata] reads back what [writeMetadata] wrote. *)
Lemma parseLines_content meta :
  OutputID meta <> [] ->
  int64_ok (Size meta) -> int64_ok (Time_Unix (PutTime meta)) ->
  parseLines (metadataContent meta) =
  mkFields (Hex.EncodeToString (OutputID meta)) (Size meta)
           (Time_Unix (PutTime meta)).
Proof.
  intros Ho Hs Ht. unfold parseLines. rewrite metadataContent_lines.
  cbn [fold_left].
  rewrite parseLine_outputID by apply hex_plain.
  destruct (Hex.EncodeToString (OutputID meta)) as [|c r] eqn:E.
  { apply hex_empty in E. congruence. }
  rewrite (parseLine_size _ _ Hs), (parseLine_time _ _ Ht), parseLine_blank.
  reflexivity.
Qed.

(** With an empty output ID the loop reads no output ID. *)
Lemma parseLines_empty_outputID meta :
  OutputID meta = [] ->
  outputIDHex (parseLines (metadataContent meta)) = EmptyString.
Proof.
  intros Ho. unfold parseLines. rewrite metadataContent_lines, Ho.
  cbn [fold_left Hex.EncodeToString].
  rewrite parseLine_blank.
  rewrite (parseLine_number_keeps _ "time:") by auto.
  rewrite (parseLine_number_keeps _ "size:") by auto.
  reflexivity.
Qed.

End SidecarFacts.

Module StoreFacts.
Import Str Props StrFacts CodecFacts FS LocalCache LocalCacheFacts SidecarFacts.

Section Store.
Variable v : string.
Variable lc : localCache.

(** A successful [write] returns the path of the action ID. *)
Lemma write_ok_path env actionID body fs p fs' :
  write v env lc actionID body fs = Done ((p, None), fs') ->
  actionIDToPath v lc actionID = Some p.
Proof.
  unfold write. destruct (actionIDToPath v lc actionID) as [d|]; [|discriminate].
  destruct (os_Create env (d ++ ".tmp") fs) as [[e|] fs1]; [discriminate|].
  destruct (io_Copy env (d ++ ".tmp") body fs1) as [[e|] fs2]; [discriminate|].
  destruct (File_Close env (d ++ ".tmp")); [discriminate|].
  destruct (os_Rename env (d ++ ".tmp") d fs2) as [[e|] fs3]; [discriminate|].
  now intros [= -> _].
Qed.

(** What a successful [writeMetadata] leaves in the sidecar. *)
Lemma writeMetadata_ok env actionID meta fs fs' :
  writeMetadata v env lc actionID meta fs = Done (None, fs') ->
  exists p, actionIDToPath v lc actionID = Some p /\
            fs' !! (p ++ ".meta") = Some (metadataContent meta).
Proof.
  unfold writeMetadata, metadataPath.
  destruct (actionIDToPath v lc actionID) as [p|]; [|discriminate].
  unfold os_WriteFile.
  destruct (env (SysWriteFile ((p ++ ".meta") ++ ".tmp"))); [discriminate|].
  unfold os_Rename.
  destruct (env (SysRename ((p ++ ".meta") ++ ".tmp") (p ++ ".meta"))); [discriminate|].
  rewrite lookup_insert_eq. intros [= <-].
  exists p. split; [reflexivity|]. apply lookup_insert_eq.
Qed.

(** [readMetadata] on a sidecar that [writeMetadata] wrote. *)
Lemma readMetadata_written env actionID p meta (fs : Files) :
  actionIDToPath v lc actionID = Some p ->
  env (SysReadFile (p ++ ".meta")) = None ->
  fs !! (p ++ ".meta") = Some (metadataContent meta) ->
  OutputID meta <> [] ->
  int64_ok (Size meta) -> int64_ok (Time_Unix (PutTime meta)) ->
  readMetadata v env lc actionID fs =
  Done (inr (mkMeta (OutputID meta) (Size meta)
                    (time_Unix (Time_Unix (PutTime meta))))).
Proof.
  intros Hp He Hf Ho Hs Ht. unfold readMetadata.
  rewrite (metadataPath_Some _ _ _ _ Hp). unfold os_ReadFile. rewrite He, Hf.
  rewrite (parseLines_content _ Ho Hs Ht). cbn [outputIDHex size putTimeUnix].
  rewrite bool_decide_eq_false_2.
  - now rewrite hex_roundtrip.
  - intros E. apply hex_empty in E. congruence.
Qed.

End Store.
End StoreFacts.

Module DiskStore.
Import Str Props StrFacts CodecFacts FS LocalCache LocalCacheFacts SidecarFacts StoreFacts.

(** C5, as amended: when the body write fails before the rename (at the
    creation of the temporary file, at the copy, or at the close), [write]
    returns an error, no file other than the temporary one is touched, the
    temporary file is gone once it had been created, and [check] answers
    what it answered before the call: a miss when the key had no sidecar. *)
Theorem write_failure_leaves_the_entry_as_it_was
    (v : string) (lc : localCache) (env : Faults) (actionID : list byte)
    (body : Reader) (fs : Files) (diskPath : string) :
  actionIDToPath v lc actionID = Some diskPath ->
  env (SysCreate (diskPath ++ ".tmp")) <> None \/
  env (SysCopy (diskPath ++ ".tmp")) <> None \/
  rerr body <> None \/
  env (SysClose (diskPath ++ ".tmp")) <> None ->
  exists e fs',
    write v env lc actionID body fs = Done ((EmptyString, Some e), fs') /\
    (forall q, q <> diskPath ++ ".tmp" -> fs' !! q = fs !! q) /\
    (env (SysCreate (diskPath ++ ".tmp")) = None ->
     fs' !! (diskPath ++ ".tmp") = None) /\
    (forall env' logs,
       observed (check v env' lc actionID (mkWorld fs' logs)) =
       observed (check v env' lc actionID (mkWorld fs logs))) /\
    (fs !! (diskPath ++ ".meta") = None ->
     forall env' logs, exists w',
       check v env' lc actionID (mkWorld fs' logs) = Done (None, w')).
Proof.
  intros Hp Hfail.
  assert (Hkeep : forall (e : error) (fs' : Files),
    (forall q, q <> diskPath ++ ".tmp" -> fs' !! q = fs !! q) ->
    (forall env' logs,
       observed (check v env' lc actionID (mkWorld fs' logs)) =
       observed (check v env' lc actionID (mkWorld fs logs))) /\
    (fs !! (diskPath ++ ".meta") = None ->
     forall env' logs, exists w',
       check v env' lc actionID (mkWorld fs' logs) = Done (None, w'))).
  { intros e fs' Hq. split.
    - intros env' logs. apply (check_ext v lc env' actionID diskPath); [assumption| |].
      + apply Hq. intros E. symmetry in E. now apply tmp_ne_meta in E.
      + apply Hq. intros E. symmetry in E. now apply tmp_ne_disk in E.
    - intros Hm env' logs.
      assert (Hm' : fs' !! (diskPath ++ ".meta") = None).
      { rewrite Hq; [assumption|]. intros E. symmetry in E. now apply tmp_ne_meta in E. }
      destruct (readMetadata v env' lc actionID fs') as [|[e'|m]] eqn:Er.
      + unfold readMetadata in Er. rewrite (metadataPath_Some _ _ _ _ Hp) in Er.
        destruct (os_ReadFile env' (diskPath ++ ".meta") fs'); [discriminate|].
        destruct (bool_decide _); [discriminate|].
        destruct (Hex.DecodeString _); discriminate.
      + destruct (check_miss v lc env' actionID (mkWorld fs' logs) e' Er) as (w' & Hc & _).
        eauto.
      + unfold readMetadata in Er. rewrite (metadataPath_Some _ _ _ _ Hp) in Er.
        unfold os_ReadFile in Er. rewrite Hm' in Er.
        destruct (env' (SysReadFile (diskPath ++ ".meta"))); discriminate. }
  unfold write. rewrite Hp. unfold os_Create.
  destruct (env (SysCreate (diskPath ++ ".tmp"))) as [ec|] eqn:Ec.
  { eexists _, fs. split; [reflexivity|]. split; [auto|]. split; [discriminate|].
    apply (Hkeep ec). auto. }
  unfold io_Copy, File_Close, os_Remove.
  assert (Hdel : forall (m : Files) x q, q <> diskPath ++ ".tmp" ->
            delete (diskPath ++ ".tmp") (<[diskPath ++ ".tmp" := x]> m) !! q = m !! q).
  { intros m x q Hq. rewrite lookup_delete_ne by congruence.
    now rewrite lookup_insert_ne by congruence. }
  destruct (env (SysCopy (diskPath ++ ".tmp"))) as [ew|] eqn:Ew.
  { eexists _, _. split; [reflexivity|]. split; [apply Hdel|].
    split; [intros _; apply lookup_delete_eq|].
    apply (Hkeep ew). apply Hdel. }
  destruct (rerr body) as [er|] eqn:Er.
  { eexists _, _. split; [reflexivity|].
    assert (Hq : forall q, q <> diskPath ++ ".tmp" ->
       delete (diskPath ++ ".tmp")
         (<[diskPath ++ ".tmp" := rdata body]> (<[diskPath ++ ".tmp" := ""]> fs)) !! q
       = fs !! q).
    { intros q Hq. rewrite Hdel by assumption. now rewrite lookup_insert_ne by congruence. }
    split; [apply Hq|]. split; [intros _; apply lookup_delete_eq|].
    apply (Hkeep er). apply Hq. }
  destruct (env (SysClose (diskPath ++ ".tmp"))) as [ecl|] eqn:Ecl.
  { eexists _, _. split; [reflexivity|].
    assert (Hq : forall q, q <> diskPath ++ ".tmp" ->
       delete (diskPath ++ ".tmp")
         (<[diskPath ++ ".tmp" := rdata body]> (<[diskPath ++ ".tmp" := ""]> fs)) !! q
       = fs !! q).
    { intros q Hq. rewrite Hdel by assumption. now rewrite lookup_insert_ne by congruence. }
    split; [apply Hq|]. split; [intros _; apply lookup_delete_eq|].
    apply (Hkeep ecl). apply Hq. }
  exfalso. destruct Hfail as [H|[H|[H|H]]]; congruence.
Qed.

(** The amended C5 at a concrete input: the reader of the body fails. *)
Lemma write_failure_witness :
  actionIDToPath Samples.version Samples.lc Samples.key = Some Samples.keyPath /\
  exists e fs',
    write Samples.version no_faults Samples.lc Samples.key Samples.brokenBody ∅
      = Done ((EmptyString, Some e), fs') /\
    (forall q, q <> Samples.keyPath ++ ".tmp" -> fs' !! q = (∅ : Files) !! q) /\
    (no_faults (SysCreate (Samples.keyPath ++ ".tmp")) = None ->
     fs' !! (Samples.keyPath ++ ".tmp") = None) /\
    (forall env' logs,
       observed (check Samples.version env' Samples.lc Samples.key (mkWorld fs' logs)) =
       observed (check Samples.version env' Samples.lc Samples.key (mkWorld ∅ logs))) /\
    ((∅ : Files) !! (Samples.keyPath ++ ".meta") = None ->
     forall env' logs, exists w',
       check Samples.version env' Samples.lc Samples.key (mkWorld fs' logs)
       = Done (None, w')).
Proof.
  split; [reflexivity|].
  apply (write_failure_leaves_the_entry_as_it_was Samples.version Samples.lc
           no_faults Samples.key Samples.brokenBody ∅ Samples.keyPath).
  - reflexivity.
  - right. right. left. discriminate.
Defined.

(** C5 as stated fails: the key holds an entry stored earlier, the write
    of a new body fails at the copy, and the next [check] is a hit (on the
    earlier entry), not a miss. *)
Lemma write_failure_then_hit :
  write Samples.version no_faults Samples.lc Samples.key Samples.brokenBody
    Samples.storedEntry =
  Done ((EmptyString,
         Some (Err.wrapf "failed to write to temp file: "
                 (errors_New "read failed") "")),
        Samples.storedEntry) /\
  observed (check Samples.version no_faults Samples.lc Samples.key
              (mkWorld Samples.storedEntry [])) =
  Some (Some (mkMeta [Byte.xab] 3 (time_Unix 7)), []).
Proof. split; vm_compute; reflexivity. Qed.

(** C6: when the body write succeeds and the write of the sidecar fails,
    [writeWithMetadata] returns the disk path of the action ID and a nil
    error; the failure is logged as one warning. *)
Theorem writeWithMetadata_succeeds_without_sidecar
    (v : string) (lc : localCache) (env : Faults) (actionID : list byte)
    (body : Reader) (meta : localCacheMetadata) (w : World)
    (diskPath : string) (fs1 fs2 : Files) (e : error) :
  write v env lc actionID body (files w) = Done ((diskPath, None), fs1) ->
  writeMetadata v env lc actionID meta fs1 = Done (Some e, fs2) ->
  writeWithMetadata v env lc actionID body meta w =
    Done ((diskPath, None),
          mkWorld fs2
            (logged w ++
             [warn "failed to write local cache metadata" actionID e])) /\
  actionIDToPath v lc actionID = Some diskPath.
Proof.
  intros Hw Hm. split.
  - unfold writeWithMetadata. now rewrite Hw, Hm.
  - exact (write_ok_path v lc env actionID body (files w) diskPath fs1 Hw).
Qed.

(** C6 at a concrete input: the device is full when the sidecar is
    written. *)
Lemma writeWithMetadata_witness :
  let body := strings_NewReader "abc" in
  let meta := mkMeta [Byte.xab] 3 (time_Unix 7) in
  let e := Err.wrapf "failed to write temp metadata: "
             (errors_New "no space left on device") "" in
  let fs := ({[ Samples.keyPath := "abc" ]} : Files) in
  write Samples.version Samples.sidecarFails Samples.lc Samples.key body ∅
    = Done ((Samples.keyPath, None), fs) /\
  writeMetadata Samples.version Samples.sidecarFails Samples.lc Samples.key meta fs
    = Done (Some e, fs) /\
  writeWithMetadata Samples.version Samples.sidecarFails Samples.lc Samples.key
    body meta (mkWorld ∅ []) =
    Done ((Samples.keyPath, None),
          mkWorld fs [warn "failed to write local cache metadata" Samples.key e]) /\
  actionIDToPath Samples.version Samples.lc Samples.key = Some Samples.keyPath.
Proof.
  intros body meta e fs.
  assert (Hw : write Samples.version Samples.sidecarFails Samples.lc Samples.key
                 body (files (mkWorld ∅ [])) = Done ((Samples.keyPath, None), fs))
    by (vm_compute; reflexivity).
  assert (Hm : writeMetadata Samples.version Samples.sidecarFails Samples.lc
                 Samples.key meta fs = Done (Some e, fs))
    by (vm_compute; reflexivity).
  split; [exact Hw|]. split; [exact Hm|].
  exact (writeWithMetadata_succeeds_without_sidecar Samples.version Samples.lc
           Samples.sidecarFails Samples.key body meta (mkWorld ∅ [])
           Samples.keyPath fs fs e Hw Hm).
Defined.

(** C7 on a sidecar whose size and time lines hold no number: [check]
    reports a hit, with size 0 and the time of the epoch, and logs
    nothing. *)
Theorem check_garbled_sidecar_is_a_hit :
  observed (check Samples.version no_faults Samples.lc Samples.key
              (mkWorld Samples.garbledSidecar [])) =
  Some (Some (mkMeta [Byte.x00] 0 (time_Unix 0)), []).
Proof. vm_compute. reflexivity. Qed.

(** The parts of C7 that hold: an absent, an unreadable or a rejected
    sidecar is a miss, and a sidecar as [writeMetadata] writes it yields
    the stored values. *)
Lemma check_unusable_sidecar_is_a_miss
    (v : string) (lc : localCache) (env : Faults) (actionID : list byte)
    (w : World) (e : error) :
  readMetadata v env lc actionID (files w) = Done (inl e) ->
  exists w', check v env lc actionID w = Done (None, w') /\ files w' = files w.
Proof. apply check_miss. Qed.

Lemma check_written_sidecar
    (v : string) (lc : localCache) (env env' : Faults) (actionID : list byte)
    (meta : localCacheMetadata) (fs fs' : Files) (logs : list LogRecord) :
  writeMetadata v env lc actionID meta fs = Done (None, fs') ->
  (forall p, env' (SysReadFile p) = None) ->
  OutputID meta <> [] ->
  int64_ok (Size meta) -> int64_ok (Time_Unix (PutTime meta)) ->
  check v env' lc actionID (mkWorld fs' logs) =
  Done (Some (mkMeta (OutputID meta) (Size meta)
                     (time_Unix (Time_Unix (PutTime meta)))),
        mkWorld fs' logs).
Proof.
  intros Hw He Ho Hs Ht.
  destruct (writeMetadata_ok v lc env actionID meta fs fs' Hw) as (p & Hp & Hf).
  apply check_hit. cbn [files].
  now apply (readMetadata_written v lc env' actionID p meta fs').
Qed.

(** C10: once [writeMetadata] has written a sidecar for an empty output
    ID, the sidecar holds an empty [outputID] field, [readMetadata] rejects
    it for its missing output ID, and [check] on that action ID is a miss
    whatever the environment. *)
Theorem empty_outputID_is_never_a_hit
    (v : string) (lc : localCache) (env : Faults) (actionID : list byte)
    (meta : localCacheMetadata) (fs fs' : Files) :
  OutputID meta = [] ->
  writeMetadata v env lc actionID meta fs = Done (None, fs') ->
  exists metaPath,
    metadataPath v lc actionID = Some metaPath /\
    fs' !! metaPath = Some (metadataContent meta) /\
    outputIDHex (parseLines (metadataContent meta)) = EmptyString /\
    (forall env', env' (SysReadFile metaPath) = None ->
       readMetadata v env' lc actionID fs' =
       Done (inl (errors_New "metadata missing outputID field"))) /\
    (forall env' logs, exists w',
       check v env' lc actionID (mkWorld fs' logs) = Done (None, w')).
Proof.
  intros Ho Hw.
  destruct (writeMetadata_ok v lc env actionID meta fs fs' Hw) as (p & Hp & Hf).
  pose proof (parseLines_empty_outputID meta Ho) as Hx.
  assert (Hr : forall env', exists e,
            readMetadata v env' lc actionID fs' = Done (inl e) /\
            (env' (SysReadFile (p ++ ".meta")) = None ->
             e = errors_New "metadata missing outputID field")).
  { intros env'. unfold readMetadata. rewrite (metadataPath_Some _ _ _ _ Hp).
    unfold os_ReadFile. destruct (env' (SysReadFile (p ++ ".meta"))) as [e0|].
    - eexists. split; [reflexivity|discriminate].
    - rewrite Hf, Hx. rewrite bool_decide_eq_true_2 by reflexivity.
      eexists. split; reflexivity. }
  exists (p ++ ".meta"). split; [now apply metadataPath_Some|].
  split; [assumption|]. split; [assumption|]. split.
  - intros env' He. destruct (Hr env') as (e & E1 & E2). rewrite E1, (E2 He). reflexivity.
  - intros env' logs. destruct (Hr env') as (e & E1 & _).
    destruct (check_miss v lc env' actionID (mkWorld fs' logs) e E1) as (w' & Hc & _).
    eauto.
Qed.

(** C10 at a concrete input. *)
Lemma empty_outputID_witness :
  let meta := mkMeta [] 3 (time_Unix 7) in
  let fs' := ({[ Samples.keyPath ++ ".meta" := metadataContent meta ]} : Files) in
  OutputID meta = [] /\
  writeMetadata Samples.version no_faults Samples.lc Samples.key meta ∅
    = Done (None, fs') /\
  exists metaPath,
    metadataPath Samples.version Samples.lc Samples.key = Some metaPath /\
    fs' !! metaPath = Some (metadataContent meta) /\
    outputIDHex (parseLines (metadataContent meta)) = EmptyString /\
    (forall env', env' (SysReadFile metaPath) = None ->
       readMetadata Samples.version env' Samples.lc Samples.key fs' =
       Done (inl (errors_New "metadata missing outputID field"))) /\
    (forall env' logs, exists w',
       check Samples.version env' Samples.lc Samples.key (mkWorld fs' logs)
       = Done (None, w')).
Proof.
  intros meta fs'.
  assert (Hw : writeMetadata Samples.version no_faults Samples.lc Samples.key
                 meta ∅ = Done (None, fs')) by (vm_compute; reflexivity).
  split; [reflexivity|]. split; [exact Hw|].
  exact (empty_outputID_is_never_a_hit Samples.version Samples.lc no_faults
           Samples.key meta ∅ fs' eq_refl Hw).
Defined.

End DiskStore.

Module LockingClaims.
Import Locking.

(** C8: both groups return what [fn] returns, unchanged.  [MemLock]
    either waits (the map lock or the lock of the key is held by someone
    else) or returns; when it returns, the lock of the key and the map
    lock are free again, whether or not [fn] returned an error, and the
    locks of the other keys are as they were.  No outcome is a failure of
    the acquisition. *)
Theorem DoWithLock_returns_what_fn_returns
    (V W : Type) (s : MemLock) (key : string)
    (fn : W -> (V * option error) * W) (w : W) :
  NoOpGroup_DoWithLock key fn w = Returned (fn w) /\
  match MemLock_DoWithLock s key fn w with
  | Blocked => mu s = true \/ locks s !! key = Some true
  | Returned (r, s') =>
      r = fn w /\ mu s' = false /\ locks s' !! key = Some false /\
      forall k, k <> key -> locks s' !! k = locks s !! k
  end.
Proof.
  split.
  - unfold NoOpGroup_DoWithLock. destruct (fn w) as [[x e] w']. reflexivity.
  - unfold MemLock_DoWithLock. destruct (mu s); [now left|].
    destruct (locks s !! key) as [held|] eqn:E.
    + rewrite E. destruct held; [now right|].
      destruct (fn w) as [r w']. cbn [mu locks].
      split; [reflexivity|]. split; [reflexivity|].
      split; [apply lookup_insert_eq|].
      intros k Hk. now rewrite !lookup_insert_ne by congruence.
    + rewrite lookup_insert_eq.
      destruct (fn w) as [r w']. cbn [mu locks].
      split; [reflexivity|]. split; [reflexivity|].
      split; [apply lookup_insert_eq|].
      intros k Hk. now rewrite !lookup_insert_ne by congruence.
Qed.

(** A call on a fresh [MemLock] returns, also when [fn] fails. *)
Example DoWithLock_fresh_error :
  MemLock_DoWithLock NewMemLock "k"
    (fun n : nat => ((n, Some (errors_New "boom")), S n)) 4%nat =
  Returned (((4%nat, Some (errors_New "boom")), 5%nat),
            mkMemLock false {[ "k" := false ]}).
Proof. vm_compute. reflexivity. Qed.

End LockingClaims.

Module DebugClaims.
Import Backends Backends.Debug Samples.

Lemma app_assoc (a b c : string) : (a ++ b) ++ c = a ++ (b ++ c).
Proof.
  induction a as [|x r IH]; [reflexivity|].
  change (String x ((r ++ b) ++ c) = String x (r ++ (b ++ c))). now f_equal.
Qed.

(** C9: each of the four methods of the decorator returns what the one
    call of the wrapped backend returns, leaves the wrapped backend in the
    state that call left it in, and only appends to the diagnostic
    stream. *)
Theorem Debug_forwards_every_call
    (S : Type) (H : Backend S) (d : Debug S)
    (actionID outputID : list byte) (body : option Reader) (bodySize : Z) :
  (exists out,
     Debug_Put actionID outputID body bodySize d =
     (fst (Put actionID outputID body bodySize (backend d)),
      mkDebug (snd (Put actionID outputID body bodySize (backend d)))
              (stderr d ++ out))) /\
  (exists out,
     Debug_Get actionID d =
     (fst (Get actionID (backend d)),
      mkDebug (snd (Get actionID (backend d))) (stderr d ++ out))) /\
  (exists out,
     Debug_Close d =
     (fst (Close (backend d)),
      mkDebug (snd (Close (backend d))) (stderr d ++ out))) /\
  (exists out,
     Debug_Clear d =
     (fst (Clear (backend d)),
      mkDebug (snd (Clear (backend d))) (stderr d ++ out))).
Proof.
  repeat split.
  - unfold Debug_Put, Fprintf.
    destruct (Put actionID outputID body bodySize (backend d)) as [[p [e|]] b'];
      cbn [fst snd]; rewrite app_assoc; eexists; reflexivity.
  - unfold Debug_Get, Fprintf.
    destruct (Get actionID (backend d)) as [[[[[[o p] n] t] m] [e|]] b'];
      cbn [fst snd]; [rewrite app_assoc; eexists; reflexivity|].
    destruct m; rewrite app_assoc; eexists; reflexivity.
  - unfold Debug_Close, Fprintf.
    destruct (Close (backend d)) as [[e|] b']; cbn [fst snd];
      [rewrite app_assoc|]; eexists; reflexivity.
  - unfold Debug_Clear, Fprintf.
    destruct (Clear (backend d)) as [[e|] b']; cbn [fst snd];
      rewrite app_assoc; eexists; reflexivity.
Qed.

(** The decorator around the refusing backend: one call goes through, the
    error comes back as it is, two lines are logged. *)
Example Debug_Put_refused :
  Debug_Put [Byte.x01] [Byte.xab] None 4 (mkDebug 0%nat "") =
  (("", Some (errors_New "disk full")),
   mkDebug 1%nat
     ("[DEBUG] Put: actionID=01, outputID=ab, size=4" ++ String "010"
      ("[DEBUG] Put: ERROR: disk full" ++ String "010" ""))).
Proof. vm_compute. reflexivity. Qed.

End DebugClaims.

Module ServerFacts.
Import Backends Server Props.

Section Engine.
Context {B : Type} `{Backend B}.

Lemma Marshal_without_time resp :
  Resp.Time resp = None -> exists data, Marshal resp = inr data.
Proof. intros E. unfold Marshal. rewrite E. eexists. reflexivity. Qed.

(** On a ready writer [SendResponse] delivers the line of the response. *)
Lemma SendResponse_ready resp (cp : CacheProg B) data :
  Writer_ready (writer cp) ->
  Marshal resp = inr data ->
  SendResponse resp cp = (None, with_writer cp (Writer_sent (writer cp) data)).
Proof.
  intros (He & Hb & Hf) Hm. unfold SendResponse, Writer_sent. rewrite Hm.
  destruct (writer cp) as [del buf we fl]. cbn [werr buffered wfaults delivered] in *.
  subst we buf.
  unfold Writer_Write, Writer_Flush, Writer_op; cbn [werr buffered wfaults delivered].
  destruct fl as [|[e1|] fl]; [reflexivity|inversion Hf; discriminate|].
  cbn [werr buffered wfaults delivered].
  destruct fl as [|[e2|] fl];
    [reflexivity|inversion Hf as [|? ? ? Hf']; inversion Hf'; discriminate|].
  cbn [werr buffered wfaults delivered].
  destruct fl as [|[e3|] fl];
    [reflexivity
    |inversion Hf as [|? ? ? Hf']; inversion Hf' as [|? ? ? Hf'']; inversion Hf'';
     discriminate|].
  reflexivity.
Qed.

Lemma SendResponse_keeps resp (cp : CacheProg B) :
  scanner (snd (SendResponse resp cp)) = scanner cp /\
  backend (snd (SendResponse resp cp)) = backend cp.
Proof.
  unfold SendResponse. destruct (Marshal resp) as [e|data]; [split; reflexivity|].
  destruct (Writer_Write (writer cp) data) as [[e|] w1]; [split; reflexivity|].
  destruct (Writer_Write w1 _) as [[e|] w2]; [split; reflexivity|].
  destruct (Writer_Flush w2) as [e w3]. split; reflexivity.
Qed.

Lemma HandleRequest_keeps_scanner req (cp : CacheProg B) :
  scanner (snd (HandleRequest req cp)) = scanner cp.
Proof.
  unfold HandleRequest. destruct (respond req (backend cp)) as [resp b'].
  now destruct (SendResponse_keeps resp (with_backend cp b')) as [-> _].
Qed.

Lemma nextLine_length toks line rest :
  nextLine toks = Some (line, rest) -> (List.length rest < List.length toks)%nat.
Proof.
  induction toks as [|t r IH]; simpl; [discriminate|].
  destruct (Str.nonblank t).
  - intros [= _ <-]. lia.
  - intros E. apply IH in E. lia.
Qed.

(** A request that [ReadRequest] returns has cost the scanner a line; the
    backend and the writer are not touched. *)
Lemma ReadRequest_request (cp cp1 : CacheProg B) req :
  ReadRequest cp = (inr req, cp1) ->
  backend cp1 = backend cp /\ writer cp1 = writer cp /\
  scanErr (scanner cp1) = scanErr (scanner cp) /\
  (List.length (tokens (scanner cp1)) < List.length (tokens (scanner cp)))%nat.
Proof.
  unfold ReadRequest.
  destruct (nextLine (tokens (scanner cp))) as [[line rest]|] eqn:E1.
  2:{ destruct (scanErr (scanner cp)); discriminate. }
  pose proof (nextLine_length _ _ _ E1) as L1.
  destruct (Unmarshal_Request line) as [e|r]; [discriminate|].
  destruct (bool_decide (Req.Command r = CmdPut) && (0 <? Req.BodySize r)).
  2:{ intros [= <- <-]. cbn. auto. }
  destruct (nextLine rest) as [[bodyLine rest']|] eqn:E2.
  2:{ destruct (scanErr (scanner cp)); discriminate. }
  pose proof (nextLine_length _ _ _ E2) as L2.
  destruct (Unmarshal_string bodyLine) as [e|b64]; [discriminate|].
  destruct (Base64.DecodeString b64) as [e|bodyData]; [discriminate|].
  intros [= <- <-]. cbn. repeat split; auto. lia.
Qed.

(** The loop needs no more rounds than the scanner holds lines, plus
    one. *)
Lemma serve_fuel (f1 : nat) :
  forall (f2 : nat) (cp : CacheProg B),
    (List.length (tokens (scanner cp)) < f1)%nat ->
    (List.length (tokens (scanner cp)) < f2)%nat ->
    serve f1 cp = serve f2 cp.
Proof.
  induction f1 as [|f1 IH]; intros f2 cp L1 L2; [lia|].
  destruct f2 as [|f2]; [lia|]. cbn [serve].
  destruct (ReadRequest cp) as [[err|req] cp1] eqn:ER; [reflexivity|].
  destruct (ReadRequest_request _ _ _ ER) as (_ & _ & _ & L).
  pose proof (HandleRequest_keeps_scanner req cp1) as K.
  destruct (HandleRequest req cp1) as [[e|] cp2]; [reflexivity|].
  destruct (bool_decide (Req.Command req = CmdClose)); [reflexivity|].
  cbn [snd] in K. apply IH; rewrite K; lia.
Qed.

Lemma serve_rounds (f : nat) (cp : CacheProg B) :
  (List.length (tokens (scanner cp)) < f)%nat ->
  serve f cp = serve (rounds cp) cp.
Proof. intros L. apply serve_fuel; [assumption|unfold rounds; lia]. Qed.

(** The loop returns. *)
Lemma serve_returns (f : nat) :
  forall cp : CacheProg B,
    (List.length (tokens (scanner cp)) < f)%nat ->
    exists r, serve f cp = Some r.
Proof.
  induction f as [|f IH]; intros cp L; [lia|]. cbn [serve].
  destruct (ReadRequest cp) as [[err|req] cp1] eqn:ER.
  - destruct (bool_decide (err = Err.io_EOF)); eauto.
  - destruct (ReadRequest_request _ _ _ ER) as (_ & _ & _ & L').
    pose proof (HandleRequest_keeps_scanner req cp1) as K.
    destruct (HandleRequest req cp1) as [[e|] cp2]; [eauto|].
    destruct (bool_decide (Req.Command req = CmdClose)); [eauto|].
    cbn [snd] in K. apply IH. rewrite K. lia.
Qed.

(** [Run] returns, whatever the session. *)
Lemma Run_returns (cp : CacheProg B) : exists r, Run cp = Some r.
Proof.
  unfold Run. destruct (SendInitialResponse cp) as [[e|] cp1]; [eauto|].
  apply serve_returns. unfold rounds. lia.
Qed.

End Engine.
End ServerFacts.

Module Engine.
Import Backends Server Props ServerFacts Samples.

(** C3, as amended: [Run] starts with [SendInitialResponse], which reads
    nothing and, on a ready writer, delivers exactly one line, the
    capabilities response; its serialized form has no [ID] member, the
    zero being omitted. *)
Theorem Run_sends_the_capabilities_first
    (B : Type) (H : Backend B) (cp : CacheProg B) :
  Writer_ready (writer cp) ->
  Marshal initialResponse = inr capabilitiesLine /\
  SendInitialResponse cp =
    (None, with_writer cp (Writer_sent (writer cp) capabilitiesLine)) /\
  Run cp = serve (rounds cp)
             (with_writer cp (Writer_sent (writer cp) capabilitiesLine)).
Proof.
  intros Hw.
  assert (Hm : Marshal initialResponse = inr capabilitiesLine) by reflexivity.
  assert (Hs : SendInitialResponse cp =
               (None, with_writer cp (Writer_sent (writer cp) capabilitiesLine))).
  { unfold SendInitialResponse. now apply SendResponse_ready. }
  split; [exact Hm|]. split; [exact Hs|].
  unfold Run. rewrite Hs. reflexivity.
Qed.

(** The amended C3 on a session without input. *)
Lemma Run_capabilities_witness :
  Writer_ready (writer (session [])) /\
  Marshal initialResponse = inr capabilitiesLine /\
  SendInitialResponse (session []) =
    (None, with_writer (session [])
             (Writer_sent (writer (session [])) capabilitiesLine)) /\
  Run (session []) =
    serve (rounds (session []))
      (with_writer (session [])
         (Writer_sent (writer (session [])) capabilitiesLine)).
Proof.
  assert (Hw : Writer_ready (writer (session []))).
  { repeat split; constructor. }
  split; [exact Hw|].
  exact (Run_sends_the_capabilities_first nat refusing (session []) Hw).
Defined.

(** C3 as stated fails: the line the engine sends first is not the line
    with an [ID] member. *)
Lemma capabilities_line_has_no_ID :
  transcript (Run (session [])) =
    Some (None, capabilitiesLine ++ String "010" "") /\
  capabilitiesLine <> describedCapabilitiesLine.
Proof. split; [vm_compute; reflexivity | discriminate]. Qed.

(** C2, as amended: for a put that declares a positive body size,
    [ReadRequest] takes the next non-blank line, decodes it as a JSON
    string and then as base64, and the decoded bytes, however many, are
    the body; the declared size is passed on as it came. *)
Theorem ReadRequest_put_takes_the_body_line
    (B : Type) (H : Backend B) (cp : CacheProg B)
    (line : string) (rest : list string) (req : Request)
    (bodyLine : string) (rest' : list string)
    (base64Str : string) (bodyData : list byte) :
  nextLine (tokens (scanner cp)) = Some (line, rest) ->
  Unmarshal_Request line = inr req ->
  Req.Command req = CmdPut ->
  0 < Req.BodySize req ->
  nextLine rest = Some (bodyLine, rest') ->
  Unmarshal_string bodyLine = inr base64Str ->
  Base64.DecodeString base64Str = inr bodyData ->
  ReadRequest cp =
    (inr (withBody req bodyData),
     mkCacheProg (backend cp) (mkScanner rest' (scanErr (scanner cp)))
       (writer cp)).
Proof.
  intros E1 E2 E3 E4 E5 E6 E7. unfold ReadRequest.
  rewrite E1, E2, E5, E6, E7.
  rewrite bool_decide_eq_true_2 by assumption.
  replace (0 <? Req.BodySize req) with true by (symmetry; now apply Z.ltb_lt).
  reflexivity.
Qed.


(** The amended C2 on the put of the protocol scenario. *)
Lemma ReadRequest_put_witness :
  ReadRequest (session [putLine; ""; sq "'dGVzdA=='"; "next"]) =
    (inr (withBody putRequest [Byte.x74; Byte.x65; Byte.x73; Byte.x74]),
     mkCacheProg 0%nat (mkScanner ["next"] None) freshWriter).
Proof.
  apply (ReadRequest_put_takes_the_body_line nat refusing
           (session [putLine; ""; sq "'dGVzdA=='"; "next"])
           putLine [""; sq "'dGVzdA=='"; "next"] putRequest
           (sq "'dGVzdA=='") ["next"] "dGVzdA=="
           [Byte.x74; Byte.x65; Byte.x73; Byte.x74]);
    vm_compute; reflexivity.
Defined.

(** C2 as stated fails: the put declares four bytes, the body line holds
    seven, and the request carries the seven. *)
Lemma body_is_not_cut_to_BodySize :
  fst (ReadRequest (session [putLine; sq "'dGVzdGluZw=='"])) =
    inr (Req.mkRequest 2 "put" [Byte.x00; Byte.x00; Byte.x00]
           [Byte.x01; Byte.x02; Byte.x03]
           (Some (strings_NewReader "testing")) 4) /\
  Z.of_nat (String.length "testing") <> 4.
Proof. split; [vm_compute; reflexivity | discriminate]. Qed.

End Engine.

Module Session.
Import Backends Server Props ServerFacts Samples.

Section Engine.
Context {B : Type} `{Backend B}.

(** What [respond] builds when the backend call fails. *)
Lemma respond_failure req (b b' : B) e :
  backendFailure req b = Some (e, b') ->
  respond req b = (errorResponse (Req.ID req) (Err.Error e), b').
Proof.
  unfold backendFailure, respond, errorResponse.
  destruct (bool_decide (Req.Command req = CmdPut)).
  { destruct (Put _ _ _ _ b) as [[p [e0|]] b0]; [|discriminate].
    now intros [= -> ->]. }
  destruct (bool_decide (Req.Command req = CmdGet)).
  { destruct (Get _ b) as [[[[[[o p] n] t] m] [e0|]] b0]; [|discriminate].
    now intros [= -> ->]. }
  destruct (bool_decide (Req.Command req = CmdClose)); [|discriminate].
  destruct (Close b) as [[e0|] b0]; [|discriminate].
  now intros [= -> ->].
Qed.

(** What [respond] builds for a command that is none of the three. *)
Lemma respond_unknown req (b : B) :
  known (Req.Command req) = false ->
  respond req b =
  (errorResponse (Req.ID req) ("unknown command: " ++ Req.Command req), b).
Proof.
  unfold known, respond, errorResponse. intros E.
  apply orb_false_elim in E as [E E3]. apply orb_false_elim in E as [E1 E2].
  now rewrite E1, E2, E3.
Qed.

Lemma known_not_close cmd : known cmd = false -> bool_decide (cmd = CmdClose) = false.
Proof. unfold known. intros E. now apply orb_false_elim in E as [_ E]. Qed.

Lemma known_not_put cmd : known cmd = false -> bool_decide (cmd = CmdPut) = false.
Proof.
  unfold known. intros E. apply orb_false_elim in E as [E _].
  now apply orb_false_elim in E as [E _].
Qed.

End Engine.

(** C4: when the backend call of a put, get or close request fails, the
    response with the ID of the request and the text of the error is
    delivered on a ready writer, [HandleRequest] returns no error, and the
    loop goes on with the next request, or ends without error after a
    close. *)
Theorem backend_failure_is_answered_and_the_session_goes_on
    (B : Type) (H : Backend B) (cp cp1 : CacheProg B) (req : Request)
    (e : error) (b' : B) :
  ReadRequest cp = (inr req, cp1) ->
  Writer_ready (writer cp) ->
  backendFailure req (backend cp) = Some (e, b') ->
  exists data,
    Marshal (errorResponse (Req.ID req) (Err.Error e)) = inr data /\
    let cp2 := mkCacheProg b' (scanner cp1) (Writer_sent (writer cp) data) in
    HandleRequest req cp1 = (None, cp2) /\
    serve (rounds cp) cp =
      if bool_decide (Req.Command req = CmdClose) then Some (None, cp2)
      else serve (rounds cp2) cp2.
Proof.
  intros ER Hw Hf.
  destruct (ReadRequest_request _ _ _ ER) as (Eb & Ew & _ & L).
  destruct (Marshal_without_time (errorResponse (Req.ID req) (Err.Error e)) eq_refl)
    as [data Hm].
  exists data. split; [exact Hm|]. cbv zeta.
  assert (HH : HandleRequest req cp1 =
               (None, mkCacheProg b' (scanner cp1) (Writer_sent (writer cp) data))).
  { unfold HandleRequest. rewrite Eb, (respond_failure _ _ _ _ Hf).
    rewrite (SendResponse_ready _ (with_backend cp1 b') data); cbn [writer with_backend];
      rewrite ?Ew; auto. }
  split; [exact HH|].
  unfold rounds at 1. cbn [serve]. rewrite ER, HH.
  destruct (bool_decide (Req.Command req = CmdClose)); [reflexivity|].
  apply serve_rounds. cbn [scanner tokens]. lia.
Qed.


(** C4 on a get that the refusing backend fails. *)
Lemma backend_failure_witness :
  let cp := session [getLine; "next"] in
  let cp1 := session ["next"] in
  ReadRequest cp = (inr getRequest, cp1) /\
  Writer_ready (writer cp) /\
  backendFailure getRequest (backend cp) =
    Some (errors_New "disk unreadable", 1%nat) /\
  exists data,
    Marshal (errorResponse 8 "disk unreadable") = inr data /\
    let cp2 := mkCacheProg 1%nat (scanner cp1) (Writer_sent (writer cp) data) in
    HandleRequest getRequest cp1 = (None, cp2) /\
    serve (rounds cp) cp =
      if bool_decide (Req.Command getRequest = CmdClose) then Some (None, cp2)
      else serve (rounds cp2) cp2.
Proof.
  intros cp cp1.
  assert (E1 : ReadRequest cp = (inr getRequest, cp1)) by (vm_compute; reflexivity).
  assert (E2 : Writer_ready (writer cp)) by (repeat split; constructor).
  assert (E3 : backendFailure getRequest (backend cp) =
               Some (errors_New "disk unreadable", 1%nat)) by reflexivity.
  split; [exact E1|]. split; [exact E2|]. split; [exact E3|].
  exact (backend_failure_is_answered_and_the_session_goes_on nat refusing
           cp cp1 getRequest (errors_New "disk unreadable") 1%nat E1 E2 E3).
Defined.

(** C1, as amended.  For the next non-blank line of a session:
    - a line that does not decode into a request ends the loop with an
      error, and nothing is sent for it;
    - a put that declares a positive body size and is followed by the end
      of the stream ends the loop without an error, and nothing is sent
      for it;
    - a command that is none of put, get, close is answered with an error
      response that names it, the backend is not called, and the loop goes
      on with the line after it. *)
Theorem framing_errors
    (B : Type) (H : Backend B) (cp : CacheProg B)
    (line : string) (rest : list string) :
  nextLine (tokens (scanner cp)) = Some (line, rest) ->
  Writer_ready (writer cp) ->
  match Unmarshal_Request line with
  | inl _ =>
      exists err cp',
        serve (rounds cp) cp = Some (Some err, cp') /\
        writer cp' = writer cp /\ backend cp' = backend cp
  | inr req =>
      if known (Req.Command req) then
        Req.Command req = CmdPut -> 0 < Req.BodySize req ->
        nextLine rest = None -> scanErr (scanner cp) = None ->
        exists cp',
          serve (rounds cp) cp = Some (None, cp') /\
          writer cp' = writer cp /\ backend cp' = backend cp
      else
        exists data,
          Marshal (errorResponse (Req.ID req)
                     ("unknown command: " ++ Req.Command req)) = inr data /\
          let cp2 := mkCacheProg (backend cp)
                       (mkScanner rest (scanErr (scanner cp)))
                       (Writer_sent (writer cp) data) in
          serve (rounds cp) cp = serve (rounds cp2) cp2
  end.
Proof.
  intros E1 Hw. pose proof (nextLine_length _ _ _ E1) as L.
  destruct (Unmarshal_Request line) as [e|req] eqn:E2.
  - unfold rounds. cbn [serve]. unfold ReadRequest. rewrite E1, E2.
    rewrite bool_decide_eq_false_2 by discriminate.
    eexists _, _. split; [reflexivity|]. split; reflexivity.
  - destruct (known (Req.Command req)) eqn:K.
    + intros Ec Es En Ee. unfold rounds. cbn [serve]. unfold ReadRequest.
      rewrite E1, E2, En, Ee.
      rewrite bool_decide_eq_true_2 by assumption.
      replace (0 <? Req.BodySize req) with true by (symmetry; now apply Z.ltb_lt).
      cbn [andb]. rewrite bool_decide_eq_true_2 by reflexivity.
      eexists. split; [reflexivity|]. split; reflexivity.
    + destruct (Marshal_without_time
                  (errorResponse (Req.ID req) ("unknown command: " ++ Req.Command req))
                  eq_refl) as [data Hm].
      exists data. split; [exact Hm|]. cbv zeta.
      unfold rounds at 1. cbn [serve]. unfold ReadRequest. rewrite E1, E2.
      rewrite (known_not_put _ K). cbn [andb].
      unfold HandleRequest. cbn [backend]. rewrite (respond_unknown _ _ K).
      rewrite (SendResponse_ready _ _ data); cbn [writer with_backend]; auto.
      rewrite (known_not_close _ K).
      apply serve_rounds. cbn [scanner tokens with_writer with_backend backend]. lia.
Qed.

(** The amended C1 on an unknown command: the loop goes on. *)
Lemma framing_errors_witness :
  let line := sq "{'ID':7,'Command':'bogus'}" in
  let cp := session [line; getLine] in
  nextLine (tokens (scanner cp)) = Some (line, [getLine]) /\
  Writer_ready (writer cp) /\
  exists data,
    Marshal (errorResponse 7 "unknown command: bogus") = inr data /\
    let cp2 := mkCacheProg 0%nat (mkScanner [getLine] None)
                 (Writer_sent (writer cp) data) in
    serve (rounds cp) cp = serve (rounds cp2) cp2.
Proof.
  intros line cp.
  assert (E1 : nextLine (tokens (scanner cp)) = Some (line, [getLine]))
    by (vm_compute; reflexivity).
  assert (E2 : Writer_ready (writer cp)) by (repeat split; constructor).
  split; [exact E1|]. split; [exact E2|].
  exact (framing_errors nat refusing cp line [getLine] E1 E2).
Defined.

(** C1 as stated fails.  An unknown command does not end the session: it
    is answered, and so is the get after it, and [Run] returns no error.
    A put whose body line never comes does not end the session with an
    error either: [Run] returns no error. *)
Lemma unknown_command_and_missing_body_are_not_fatal :
  transcript (Run (session [sq "{'ID':7,'Command':'bogus'}"; getLine])) =
    Some (None,
          capabilitiesLine ++ String "010"
            (sq "{'ID':7,'Err':'unknown command: bogus'}" ++ String "010"
               (sq "{'ID':8,'Err':'disk unreadable'}" ++ String "010" ""))) /\
  transcript
    (Run (session
            [sq "{'ID':2,'Command':'put','ActionID':'AAAA','BodySize':4}"])) =
    Some (None, capabilitiesLine ++ String "010" "").
Proof. split; vm_compute; reflexivity. Qed.

(** A line that is not JSON is fatal. *)
Example malformed_line_is_fatal :
  exists e,
    transcript (Run (session [sq "{'ID':2,'Command"; getLine])) =
    Some (Some e, capabilitiesLine ++ String "010" "").
Proof. eexists. vm_compute. reflexivity. Qed.

End Session.

(** ** More on the local disk store *)

Module StoreMore.
Import Str Props StrFacts CodecFacts FS LocalCache LocalCacheFacts SidecarFacts
       StoreFacts Terms.

(** Two paths of different lengths differ. *)
Ltac by_length :=
  let E := fresh "E" in
  intros E; apply (f_equal String.length) in E;
  rewrite ?length_app in E; simpl in E; lia.

Lemma kinds_apart (p : string) :
  p ++ ".tmp" <> p /\ p ++ ".meta" <> p /\ (p ++ ".meta") ++ ".tmp" <> p /\
  p ++ ".meta" <> p ++ ".tmp" /\ (p ++ ".meta") ++ ".tmp" <> p ++ ".tmp" /\
  (p ++ ".meta") ++ ".tmp" <> p ++ ".meta".
Proof. repeat split; by_length. Qed.

Lemma readMetadata_returns v lc env actionID p fs :
  actionIDToPath v lc actionID = Some p ->
  exists r, readMetadata v env lc actionID fs = Done r.
Proof.
  intros Hp. unfold readMetadata. rewrite (metadataPath_Some _ _ _ _ Hp).
  destruct (os_ReadFile env (p ++ ".meta") fs); [eauto|].
  destruct (bool_decide _); [eauto|].
  destruct (Hex.DecodeString _); eauto.
Qed.



End StoreMore.

Module StoreWrites.
Import Str Props StrFacts CodecFacts FS LocalCache LocalCacheFacts SidecarFacts
       StoreFacts Terms StoreMore.

(** X1: whenever [write] reports an error, at whatever step (creation,
    copy, close or the final rename), it returns the empty path, every
    file other than the temporary one is as it was before the call, and
    the temporary file is gone unless its creation was what failed. *)
Theorem write_error_touches_only_the_temporary_file
    (v : string) (lc : localCache) (env : Faults) (actionID : list byte)
    (body : Reader) (fs fs' : Files) (p s : string) (e : error) :
  actionIDToPath v lc actionID = Some p ->
  write v env lc actionID body fs = Done ((s, Some e), fs') ->
  s = EmptyString /\
  (forall q, q <> p ++ ".tmp" -> fs' !! q = fs !! q) /\
  (env (SysCreate (p ++ ".tmp")) = None -> fs' !! (p ++ ".tmp") = None).
Proof.
  intros Hp. unfold write. rewrite Hp. unfold os_Create.
  destruct (env (SysCreate (p ++ ".tmp"))) as [ec|].
  { intros [= <- _ <-]. split; [reflexivity|]. split; [auto|discriminate]. }
  unfold io_Copy, File_Close, os_Remove, os_Rename.
  assert (Hframe : forall (m : Files) q, q <> p ++ ".tmp" ->
    delete (p ++ ".tmp") (<[p ++ ".tmp" := rdata body]> (<[p ++ ".tmp" := ""]> m)) !! q
    = m !! q).
  { intros m q Hq. rewrite lookup_delete_ne by congruence.
    now rewrite !lookup_insert_ne by congruence. }
  destruct (env (SysCopy (p ++ ".tmp"))) as [ew|].
  { intros [= <- _ <-]. split; [reflexivity|]. split.
    - intros q Hq. rewrite lookup_delete_ne by congruence.
      now rewrite lookup_insert_ne by congruence.
    - intros _. apply lookup_delete_eq. }
  destruct (rerr body) as [er|].
  { intros [= <- _ <-]. split; [reflexivity|]. split; [apply Hframe|].
    intros _. apply lookup_delete_eq. }
  destruct (env (SysClose (p ++ ".tmp"))) as [ecl|].
  { intros [= <- _ <-]. split; [reflexivity|]. split; [apply Hframe|].
    intros _. apply lookup_delete_eq. }
  destruct (env (SysRename (p ++ ".tmp") p)) as [ern|].
  { intros [= <- _ <-]. split; [reflexivity|]. split; [apply Hframe|].
    intros _. apply lookup_delete_eq. }
  rewrite lookup_insert_eq. discriminate.
Qed.

(** X1 at a concrete input: the final rename fails. *)
Lemma write_error_witness :
  let e := Err.wrapf "failed to rename cache file: "
             (errors_New "cross-device link") "" in
  actionIDToPath Samples.version Samples.lc Samples.key = Some Samples.keyPath /\
  write Samples.version renameFails Samples.lc Samples.key
    (strings_NewReader "new") Samples.storedEntry
    = Done ((EmptyString, Some e), Samples.storedEntry) /\
  (forall q, q <> Samples.keyPath ++ ".tmp" ->
     Samples.storedEntry !! q = Samples.storedEntry !! q) /\
  (renameFails (SysCreate (Samples.keyPath ++ ".tmp")) = None ->
   Samples.storedEntry !! (Samples.keyPath ++ ".tmp") = None).
Proof.
  intros e.
  assert (Hp : actionIDToPath Samples.version Samples.lc Samples.key
               = Some Samples.keyPath) by reflexivity.
  assert (Hw : write Samples.version renameFails Samples.lc Samples.key
                 (strings_NewReader "new") Samples.storedEntry
               = Done ((EmptyString, Some e), Samples.storedEntry))
    by (vm_compute; reflexivity).
  split; [exact Hp|]. split; [exact Hw|].
  exact (proj2 (write_error_touches_only_the_temporary_file Samples.version
           Samples.lc renameFails Samples.key (strings_NewReader "new")
           Samples.storedEntry Samples.storedEntry Samples.keyPath EmptyString e
           Hp Hw)).
Defined.

(** X2: when [write] returns no error, the path it returns is the body
    path of the action ID, the reader ended without an error, the body
    path holds exactly the bytes the reader delivered (an earlier body is
    replaced), the temporary file is gone, and no other file changed. *)
Theorem write_success_installs_the_body
    (v : string) (lc : localCache) (env : Faults) (actionID : list byte)
    (body : Reader) (fs fs' : Files) (p s : string) :
  actionIDToPath v lc actionID = Some p ->
  write v env lc actionID body fs = Done ((s, None), fs') ->
  s = p /\ rerr body = None /\
  fs' !! p = Some (rdata body) /\
  fs' !! (p ++ ".tmp") = None /\
  (forall q, q <> p -> q <> p ++ ".tmp" -> fs' !! q = fs !! q).
Proof.
  intros Hp. unfold write. rewrite Hp. unfold os_Create.
  destruct (env (SysCreate (p ++ ".tmp"))) as [ec|]; [discriminate|].
  unfold io_Copy, File_Close, os_Remove, os_Rename.
  destruct (env (SysCopy (p ++ ".tmp"))) as [ew|]; [discriminate|].
  destruct (rerr body) as [er|]; [discriminate|].
  destruct (env (SysClose (p ++ ".tmp"))) as [ecl|]; [discriminate|].
  destruct (env (SysRename (p ++ ".tmp") p)) as [ern|]; [discriminate|].
  rewrite lookup_insert_eq. intros [= <- <-].
  destruct (kinds_apart p) as (H1 & _).
  split; [reflexivity|]. split; [reflexivity|]. split; [|split].
  - rewrite lookup_delete_ne by congruence. apply lookup_insert_eq.
  - apply lookup_delete_eq.
  - intros q Hq1 Hq2. rewrite lookup_delete_ne by congruence.
    rewrite lookup_insert_ne by congruence.
    rewrite lookup_delete_ne by congruence.
    now rewrite !lookup_insert_ne by congruence.
Qed.

(** X2 at a concrete input: an earlier body is replaced. *)
Lemma write_success_witness :
  let fs' := (<[ Samples.keyPath := "new" ]> Samples.storedEntry : Files) in
  actionIDToPath Samples.version Samples.lc Samples.key = Some Samples.keyPath /\
  write Samples.version no_faults Samples.lc Samples.key
    (strings_NewReader "new") Samples.storedEntry
    = Done ((Samples.keyPath, None), fs') /\
  Samples.keyPath = Samples.keyPath /\
  rerr (strings_NewReader "new") = None /\
  fs' !! Samples.keyPath = Some (rdata (strings_NewReader "new")) /\
  fs' !! (Samples.keyPath ++ ".tmp") = None /\
  (forall q, q <> Samples.keyPath -> q <> Samples.keyPath ++ ".tmp" ->
     fs' !! q = Samples.storedEntry !! q).
Proof.
  intros fs'.
  assert (Hp : actionIDToPath Samples.version Samples.lc Samples.key
               = Some Samples.keyPath) by reflexivity.
  assert (Hw : write Samples.version no_faults Samples.lc Samples.key
                 (strings_NewReader "new") Samples.storedEntry
               = Done ((Samples.keyPath, None), fs'))
    by (vm_compute; reflexivity).
  split; [exact Hp|]. split; [exact Hw|].
  exact (write_success_installs_the_body Samples.version Samples.lc no_faults
           Samples.key (strings_NewReader "new") Samples.storedEntry fs'
           Samples.keyPath Samples.keyPath Hp Hw).
Defined.

(** X3: [writeMetadata] installs the whole record or nothing.  Without an
    error the sidecar holds the formatted record, its temporary file is
    gone and no other file changed; with an error every file other than
    the temporary one, the sidecar among them, is as it was. *)
Theorem writeMetadata_is_all_or_nothing
    (v : string) (lc : localCache) (env : Faults) (actionID : list byte)
    (meta : localCacheMetadata) (fs : Files) (p : string) :
  actionIDToPath v lc actionID = Some p ->
  match writeMetadata v env lc actionID meta fs with
  | Panic => False
  | Done (None, fs') =>
      fs' !! (p ++ ".meta") = Some (metadataContent meta) /\
      fs' !! ((p ++ ".meta") ++ ".tmp") = None /\
      (forall q, q <> p ++ ".meta" -> q <> (p ++ ".meta") ++ ".tmp" ->
         fs' !! q = fs !! q)
  | Done (Some _, fs') =>
      forall q, q <> (p ++ ".meta") ++ ".tmp" -> fs' !! q = fs !! q
  end.
Proof.
  intros Hp. unfold writeMetadata. rewrite (metadataPath_Some _ _ _ _ Hp).
  unfold os_WriteFile, os_Rename, os_Remove.
  destruct (env (SysWriteFile ((p ++ ".meta") ++ ".tmp"))) as [e|]; [auto|].
  destruct (env (SysRename ((p ++ ".meta") ++ ".tmp") (p ++ ".meta"))) as [e|].
  { intros q Hq. rewrite lookup_delete_ne by congruence.
    now rewrite lookup_insert_ne by congruence. }
  rewrite lookup_insert_eq.
  destruct (kinds_apart p) as (_ & _ & _ & _ & _ & H6).
  split; [apply lookup_insert_eq|]. split.
  - rewrite lookup_insert_ne by congruence. apply lookup_delete_eq.
  - intros q Hq1 Hq2. rewrite lookup_insert_ne by congruence.
    rewrite lookup_delete_ne by congruence.
    now rewrite lookup_insert_ne by congruence.
Qed.

(** X3 at a concrete input: the rename of the sidecar fails and the
    sidecar stored earlier stays. *)
Lemma writeMetadata_witness :
  actionIDToPath Samples.version Samples.lc Samples.key = Some Samples.keyPath /\
  match writeMetadata Samples.version renameFails Samples.lc Samples.key
          (mkMeta [Byte.x01] 9 (time_Unix 8)) Samples.storedEntry with
  | Panic => False
  | Done (None, fs') =>
      fs' !! (Samples.keyPath ++ ".meta")
        = Some (metadataContent (mkMeta [Byte.x01] 9 (time_Unix 8))) /\
      fs' !! ((Samples.keyPath ++ ".meta") ++ ".tmp") = None /\
      (forall q, q <> Samples.keyPath ++ ".meta" ->
         q <> (Samples.keyPath ++ ".meta") ++ ".tmp" ->
         fs' !! q = Samples.storedEntry !! q)
  | Done (Some _, fs') =>
      forall q, q <> (Samples.keyPath ++ ".meta") ++ ".tmp" ->
        fs' !! q = Samples.storedEntry !! q
  end.
Proof.
  split; [reflexivity|].
  exact (writeMetadata_is_all_or_nothing Samples.version Samples.lc renameFails
           Samples.key (mkMeta [Byte.x01] 9 (time_Unix 8)) Samples.storedEntry
           Samples.keyPath eq_refl).
Defined.

End StoreWrites.

Module StoreReads.
Import Str Props StrFacts CodecFacts FS LocalCache LocalCacheFacts SidecarFacts
       StoreFacts Terms StoreMore.

(** X4: the round trip of the store.  When no system call fails and the
    reader of the body ends without an error, [writeWithMetadata] returns
    the body path and logs nothing, whatever the files were before; the
    body path then holds the bytes of the body, no temporary file is left,
    and [check] returns the output ID, the size and the time that were
    stored, the time cut to whole seconds.  This needs a non-empty output
    ID and a size and a time that fit 64 bits. *)
Theorem writeWithMetadata_then_check
    (v : string) (lc : localCache) (env env' : Faults) (actionID : list byte)
    (body : Reader) (meta : localCacheMetadata) (fs : Files)
    (logs : list LogRecord) (p : string) :
  quiet env -> quiet env' ->
  actionIDToPath v lc actionID = Some p ->
  rerr body = None ->
  OutputID meta <> [] ->
  int64_ok (Size meta) -> int64_ok (Time_Unix (PutTime meta)) ->
  exists fs',
    writeWithMetadata v env lc actionID body meta (mkWorld fs logs)
      = Done ((p, None), mkWorld fs' logs) /\
    fs' !! p = Some (rdata body) /\
    fs' !! (p ++ ".tmp") = None /\
    fs' !! ((p ++ ".meta") ++ ".tmp") = None /\
    check v env' lc actionID (mkWorld fs' logs)
      = Done (Some (mkMeta (OutputID meta) (Size meta)
                           (time_Unix (Time_Unix (PutTime meta)))),
              mkWorld fs' logs).
Proof.
  intros Q Q' Hp Hb Ho Hs Ht.
  destruct (kinds_apart p) as (H1 & H2 & H3 & H4 & H5 & H6).
  unfold writeWithMetadata, write. cbn [files logged]. rewrite Hp.
  unfold os_Create, io_Copy, File_Close, os_Rename, os_Remove.
  rewrite !Q, Hb. rewrite lookup_insert_eq.
  unfold writeMetadata. rewrite (metadataPath_Some _ _ _ _ Hp).
  unfold os_WriteFile, os_Rename. rewrite !Q. rewrite lookup_insert_eq.
  eexists. split; [reflexivity|].
  split; [|split; [|split]].
  - rewrite lookup_insert_ne by congruence.
    rewrite lookup_delete_ne by congruence.
    rewrite lookup_insert_ne by congruence.
    rewrite lookup_delete_ne by congruence.
    apply lookup_insert_eq.
  - rewrite lookup_insert_ne by congruence.
    rewrite lookup_delete_ne by congruence.
    rewrite lookup_insert_ne by congruence.
    apply lookup_delete_eq.
  - rewrite lookup_insert_ne by congruence. apply lookup_delete_eq.
  - apply check_hit. cbn [files].
    apply (readMetadata_written v lc env' actionID p meta); auto.
    apply lookup_insert_eq.
Qed.

(** X4 at a concrete input: a key that held an entry is written again, and
    the later entry is the one [check] returns. *)
Lemma writeWithMetadata_then_check_witness :
  let meta := mkMeta [Byte.x01; Byte.x02] 3 (mkTime 1700000000 999) in
  exists fs',
    writeWithMetadata Samples.version no_faults Samples.lc Samples.key
      (strings_NewReader "new") meta (mkWorld Samples.storedEntry [])
      = Done ((Samples.keyPath, None), mkWorld fs' []) /\
    fs' !! Samples.keyPath = Some "new" /\
    fs' !! (Samples.keyPath ++ ".tmp") = None /\
    fs' !! ((Samples.keyPath ++ ".meta") ++ ".tmp") = None /\
    check Samples.version no_faults Samples.lc Samples.key (mkWorld fs' [])
      = Done (Some (mkMeta [Byte.x01; Byte.x02] 3 (mkTime 1700000000 0)),
              mkWorld fs' []).
Proof.
  intros meta.
  apply (writeWithMetadata_then_check Samples.version Samples.lc no_faults
           no_faults Samples.key (strings_NewReader "new") meta
           Samples.storedEntry [] Samples.keyPath).
  - intros c. reflexivity.
  - intros c. reflexivity.
  - reflexivity.
  - reflexivity.
  - discriminate.
  - unfold int64_ok. cbn. lia.
  - unfold int64_ok. cbn. lia.
Defined.

(** X5: [check] only reads.  It panics for the empty action ID and for no
    other; otherwise it leaves every file as it is and only appends to
    the log: nothing on a hit, at most two warnings on a miss. *)
Theorem check_only_reads
    (v : string) (lc : localCache) (env : Faults) (actionID : list byte)
    (w : World) :
  match check v env lc actionID w with
  | Panic => actionID = []
  | Done (m, w') =>
      actionID <> [] /\ files w' = files w /\
      exists warnings,
        logged w' = (logged w ++ warnings)%list /\
        (List.length warnings <= 2)%nat /\
        (m <> None -> warnings = [])
  end.
Proof.
  destruct actionID as [|b r]; [reflexivity|].
  destruct (actionIDToPath_nonempty v lc (b :: r)) as [p Hp]; [discriminate|].
  destruct (readMetadata_returns v lc env (b :: r) p (files w) Hp) as [res Hr].
  unfold check. rewrite Hr. destruct res as [e|m].
  - destruct (Err.errors_Is e Err.os_ErrNotExist).
    + split; [discriminate|]. split; [reflexivity|].
      exists []. rewrite app_nil_r. repeat split; auto; cbn; lia.
    + rewrite Hp. destruct (os_Stat env p (files w)); cbn [files logged].
      * split; [discriminate|]. split; [reflexivity|].
        eexists. split; [reflexivity|]. split; [cbn; lia|congruence].
      * split; [discriminate|]. split; [reflexivity|].
        eexists. split; [symmetry; apply app_assoc|]. split; [cbn; lia|congruence].
  - split; [discriminate|]. split; [reflexivity|].
    exists []. rewrite app_nil_r. repeat split; auto; cbn; lia.
Qed.

(** X6: which misses are logged, when no system call fails.  A key without
    a sidecar is a miss that logs nothing, also when a body file is there.
    A sidecar that holds no output ID is a miss that logs one warning, and
    a second one exactly when the body file exists. *)
Theorem check_warns_about_unusable_sidecars_only
    (v : string) (lc : localCache) (env : Faults) (actionID : list byte)
    (w : World) (p : string) :
  quiet env ->
  actionIDToPath v lc actionID = Some p ->
  match files w !! (p ++ ".meta") with
  | None => check v env lc actionID w = Done (None, w)
  | Some data =>
      outputIDHex (parseLines data) = EmptyString ->
      let e := errors_New "metadata missing outputID field" in
      check v env lc actionID w =
      Done (None,
            mkWorld (files w)
              (logged w ++
               warn "failed to read local cache metadata" actionID e ::
               match files w !! p with
               | Some _ =>
                   [warn "local cache file exists but metadata is missing/corrupted"
                         actionID e]
               | None => []
               end)%list)
  end.
Proof.
  intros Q Hp. unfold check, readMetadata.
  rewrite (metadataPath_Some _ _ _ _ Hp). unfold os_ReadFile. rewrite Q.
  destruct (files w !! (p ++ ".meta")) as [data|]; [|reflexivity].
  intros Hx. cbv zeta. rewrite Hx.
  rewrite bool_decide_eq_true_2 by reflexivity.
  change (Err.errors_Is (errors_New "metadata missing outputID field")
            Err.os_ErrNotExist) with false. cbv iota.
  rewrite Hp. unfold os_Stat. rewrite Q. cbn [files logged].
  destruct (files w !! p); [|reflexivity].
  now rewrite <- app_assoc.
Qed.

(** X6 at a concrete input: a sidecar cut off before its first byte, next
    to a body file. *)
Lemma check_warns_witness :
  let fs := ({[ Samples.keyPath := "body";
                Samples.keyPath ++ ".meta" := "" ]} : Files) in
  let e := errors_New "metadata missing outputID field" in
  check Samples.version no_faults Samples.lc Samples.key (mkWorld fs []) =
  Done (None,
        mkWorld fs
          [warn "failed to read local cache metadata" Samples.key e;
           warn "local cache file exists but metadata is missing/corrupted"
                Samples.key e]).
Proof.
  intros fs e.
  exact (check_warns_about_unusable_sidecars_only Samples.version Samples.lc
           no_faults Samples.key (mkWorld fs []) Samples.keyPath
           (fun c => eq_refl) eq_refl eq_refl).
Defined.


End StoreReads.

Module StorePaths.
Import Str Props StrFacts CodecFacts FS LocalCache LocalCacheFacts SidecarFacts
       StoreFacts Terms StoreMore.

Lemma sapp_assoc (a b c : string) : (a ++ b) ++ c = a ++ (b ++ c).
Proof.
  induction a as [|x r IH]; [reflexivity|].
  change (String x ((r ++ b) ++ c) = String x (r ++ (b ++ c))). now f_equal.
Qed.

(** Equal texts with tails of one length have equal heads and tails. *)
Lemma app_tail_inj (a b s t : string) :
  String.length s = String.length t -> a ++ s = b ++ t -> a = b /\ s = t.
Proof.
  revert b. induction a as [|x a IH]; intros [|y b] L E.
  - auto.
  - exfalso. apply (f_equal String.length) in E.
    change (String.length s = String.length (String y (b ++ t))) in E.
    cbn [String.length] in E. rewrite length_app in E. lia.
  - exfalso. apply (f_equal String.length) in E.
    change (String.length (String x (a ++ s)) = String.length t) in E.
    cbn [String.length] in E. rewrite length_app in E. lia.
  - change (String x (a ++ s) = String y (b ++ t)) in E.
    injection E as -> E. destruct (IH b L E) as [-> ->]. auto.
Qed.

Lemma hex_byte_is_hex b :
  is_hex (Hex.hexdigit (Byte.to_N b / 16)) /\
  is_hex (Hex.hexdigit (Byte.to_N b mod 16)).
Proof.
  destruct (hex_byte_decode b) as (H1 & H2 & _).
  unfold is_hex. rewrite H1, H2. split; discriminate.
Qed.

(** The hex text of a non-empty byte sequence ends with two hex digits. *)
Lemma hex_tail bs :
  bs <> [] ->
  exists q x y, Hex.EncodeToString bs = q ++ String x (String y EmptyString) /\
                is_hex x /\ is_hex y.
Proof.
  induction bs as [|b r IH]; [congruence|]. intros _.
  destruct (hex_byte_is_hex b) as [Hx Hy].
  destruct r as [|b' r'].
  - exists EmptyString, (Hex.hexdigit (Byte.to_N b / 16)),
      (Hex.hexdigit (Byte.to_N b mod 16)). auto.
  - destruct IH as (q & x & y & E & Hx' & Hy'); [discriminate|].
    exists (String (Hex.hexdigit (Byte.to_N b / 16))
              (String (Hex.hexdigit (Byte.to_N b mod 16)) q)), x, y.
    split; [|auto].
    change (Hex.EncodeToString (b :: b' :: r')) with
      (String (Hex.hexdigit (Byte.to_N b / 16))
         (String (Hex.hexdigit (Byte.to_N b mod 16))
            (Hex.EncodeToString (b' :: r')))).
    rewrite E. reflexivity.
Qed.

Lemma hex_inj a b : Hex.EncodeToString a = Hex.EncodeToString b -> a = b.
Proof.
  intros E. pose proof (hex_roundtrip a) as Ha. rewrite E, hex_roundtrip in Ha.
  congruence.
Qed.

(** A body path ends with two hex digits. *)
Lemma path_tail v lc actionID p :
  actionIDToPath v lc actionID = Some p ->
  exists q x y, p = q ++ String x (String y EmptyString) /\ is_hex x /\ is_hex y.
Proof.
  intros Hp.
  assert (Hne : actionID <> []).
  { intros ->. discriminate Hp. }
  destruct (hex_tail actionID Hne) as (q & x & y & E & Hx & Hy).
  unfold actionIDToPath in Hp.
  destruct (Hex.EncodeToString actionID) as [|c1 [|c2 rest]] eqn:Eh; try discriminate.
  injection Hp as <-. unfold filepath_Join.
  exists (cacheDir lc ++ "/" ++ String c1 (String c2 EmptyString) ++ "/" ++ v ++ q), x, y.
  split; [|auto]. rewrite E. now rewrite !sapp_assoc.
Qed.

Lemma path_inj v lc a1 a2 p :
  actionIDToPath v lc a1 = Some p -> actionIDToPath v lc a2 = Some p -> a1 = a2.
Proof.
  unfold actionIDToPath, filepath_Join. intros H1 H2.
  destruct (Hex.EncodeToString a1) as [|c1 [|c2 r1]] eqn:E1; try discriminate.
  destruct (Hex.EncodeToString a2) as [|d1 [|d2 r2]] eqn:E2; try discriminate.
  injection H1 as <-. injection H2 as H2.
  apply app_inj_l in H2.
  change ("/" ++ String d1 (String d2 EmptyString) ++ "/" ++ v ++ String d1 (String d2 r2))
    with (String "/" (String d1 (String d2 (String "/" (v ++ String d1 (String d2 r2))))))
    in H2.
  change ("/" ++ String c1 (String c2 EmptyString) ++ "/" ++ v ++ String c1 (String c2 r1))
    with (String "/" (String c1 (String c2 (String "/" (v ++ String c1 (String c2 r1))))))
    in H2.
  injection H2 as -> -> H2. apply app_inj_l in H2.
  apply hex_inj. rewrite E1, E2. congruence.
Qed.

(** A body path is no sidecar and no temporary file of any key. *)
Lemma body_is_no_other_file v lc a1 p1 (p2 : string) :
  actionIDToPath v lc a1 = Some p1 ->
  p1 <> p2 ++ ".meta" /\ p1 <> p2 ++ ".tmp".
Proof.
  intros H1. destruct (path_tail v lc a1 p1 H1) as (q & x & y & -> & Hx & Hy).
  split; intros E.
  - change ".meta" with (".me" ++ "ta") in E. rewrite <- sapp_assoc in E.
    apply app_tail_inj in E as [_ E]; [|reflexivity].
    injection E as -> ->. now apply Hx.
  - change ".tmp" with (".t" ++ "mp") in E. rewrite <- sapp_assoc in E.
    apply app_tail_inj in E as [_ E]; [|reflexivity].
    injection E as -> ->. now apply Hx.
Qed.

Lemma meta_is_no_tmp (p1 p2 : string) : p1 ++ ".meta" <> p2 ++ ".tmp".
Proof.
  intros E.
  change ".meta" with (".met" ++ "a") in E. change ".tmp" with (".tm" ++ "p") in E.
  rewrite <- !sapp_assoc in E.
  apply app_tail_inj in E as [_ E]; [discriminate|reflexivity].
Qed.

Lemma same_suffix (p1 p2 s : string) : p1 ++ s = p2 ++ s -> p1 = p2.
Proof. intros E. now apply app_tail_inj in E as [E _]. Qed.

Lemma equal_paths v lc a1 a2 p1 p2 k1 k2 :
  actionIDToPath v lc a1 = Some p1 ->
  actionIDToPath v lc a2 = Some p2 ->
  pathOf k1 p1 = pathOf k2 p2 ->
  k1 = k2 /\ a1 = a2.
Proof.
  intros H1 H2 E.
  destruct (body_is_no_other_file v lc a1 p1 p2 H1) as [A1 A2].
  destruct (body_is_no_other_file v lc a1 p1 (p2 ++ ".meta") H1) as [_ A3].
  destruct (body_is_no_other_file v lc a2 p2 p1 H2) as [B1 B2].
  destruct (body_is_no_other_file v lc a2 p2 (p1 ++ ".meta") H2) as [_ B3].
  assert (Same : p1 = p2 -> a1 = a2).
  { intros ->. exact (path_inj v lc a1 a2 p2 H1 H2). }
  destruct k1, k2; cbn [pathOf] in E;
    try (split; [reflexivity|]; apply Same; first
           [ exact E
           | now apply same_suffix in E
           | apply same_suffix in E; now apply same_suffix in E ]);
    exfalso;
    first
      [ now apply A1 | now apply A2 | now apply A3
      | now apply B1 | now apply B2 | now apply B3
      | symmetry in E; first [now apply B1 | now apply B2 | now apply B3]
      | now apply meta_is_no_tmp in E
      | symmetry in E; now apply meta_is_no_tmp in E
      | apply same_suffix in E; first [now apply A1 | symmetry in E; now apply B1] ].
Qed.

(** X8: no two files of the store collide.  The body, the sidecar and the
    two temporary files of one key, and the files of two different keys,
    all have different paths. *)
Theorem store_paths_do_not_collide
    (v : string) (lc : localCache) (a1 a2 : list byte) (p1 p2 : string)
    (k1 k2 : fileKind) :
  actionIDToPath v lc a1 = Some p1 ->
  actionIDToPath v lc a2 = Some p2 ->
  k1 <> k2 \/ a1 <> a2 ->
  pathOf k1 p1 <> pathOf k2 p2.
Proof.
  intros H1 H2 Hne E.
  destruct (equal_paths v lc a1 a2 p1 p2 k1 k2 H1 H2 E) as [Ek Ea].
  destruct Hne as [Hk|Ha]; [now apply Hk | now apply Ha].
Qed.

(** X8 at a concrete input: the sidecar of one key against the temporary
    body file of another. *)
Lemma store_paths_witness :
  actionIDToPath Samples.version Samples.lc [Byte.x01] = Some "/cache/01/v1-01" /\
  actionIDToPath Samples.version Samples.lc [Byte.x01; Byte.xfa]
    = Some "/cache/01/v1-01fa" /\
  pathOf Sidecar "/cache/01/v1-01" <> pathOf BodyTmp "/cache/01/v1-01fa".
Proof.
  split; [reflexivity|]. split; [reflexivity|].
  apply (store_paths_do_not_collide Samples.version Samples.lc [Byte.x01]
           [Byte.x01; Byte.xfa] "/cache/01/v1-01" "/cache/01/v1-01fa"
           Sidecar BodyTmp eq_refl eq_refl).
  left. discriminate.
Defined.

End StorePaths.

Module StoreSetup.
Import Str Props CodecFacts FS LocalCache LocalCacheFacts Terms Setup.

#[local] Set Warnings "-clear-no-such-hyp".

Lemma sapp_assoc2 (a b c : string) : (a ++ b) ++ c = a ++ (b ++ c).
Proof.
  induction a as [|x r IH]; [reflexivity|].
  change (String x ((r ++ b) ++ c) = String x (r ++ (b ++ c))). now f_equal.
Qed.

Lemma byte_below_256 (b : byte) : (Byte.to_N b < 256)%N.
Proof. destruct b; reflexivity. Qed.

(** What the loop over the shards leaves when it meets no failure. *)
Lemma mkSubdirs_done env absDir (n : nat) :
  forall (i : N) (dirs dirs' : gset string),
    mkSubdirs env absDir n i dirs = (None, dirs') ->
    dirs ⊆ dirs' /\
    (forall j, (i <= j < i + N.of_nat n)%N ->
       Setup.filepath_Join absDir (Sprintf_02x j) ∈ dirs') /\
    (forall d, d ∈ dirs' ->
       d ∈ dirs \/
       exists j, (i <= j < i + N.of_nat n)%N /\
                 d = Setup.filepath_Join absDir (Sprintf_02x j)).
Proof.
  induction n as [|n IH]; intros i dirs dirs'; cbn [mkSubdirs].
  - intros [= <-]. split; [set_solver|]. split; [intros j Hj; lia|auto].
  - unfold os_MkdirAll.
    destruct (env (Setup.filepath_Join absDir (Sprintf_02x i))); [discriminate|].
    intros E. apply IH in E as (S1 & S2 & S3).
    split; [set_solver|]. split.
    + intros j Hj. destruct (N.eq_dec j i) as [->|Hne]; [set_solver|].
      apply S2. lia.
    + intros d Hd. destruct (S3 d Hd) as [Hin|(j & Hj & ->)].
      * apply elem_of_union in Hin as [Hin|Hin]; [|auto].
        apply elem_of_singleton in Hin as ->. right. exists i. split; [lia|reflexivity].
      * right. exists j. split; [lia|reflexivity].
Qed.

(** X9: when [newLocalCache] returns a store, its directory is the
    absolute form of the one asked for; the paths it had [os.MkdirAll]
    create are that directory and the 256 shards 00 to ff under the
    absolute one, and no other; and the body path of every non-empty
    action ID lies directly in one of those shards, so that no write has
    to create a directory. *)
Theorem newLocalCache_creates_every_shard
    (env : MkdirFaults) (filepath_Abs : string -> error + string)
    (cacheDir : string) (dirs dirs' : gset string) (lc : localCache) :
  newLocalCache env filepath_Abs cacheDir dirs = (inr lc, dirs') ->
  filepath_Abs cacheDir = inr (LocalCache.cacheDir lc) /\
  dirs ⊆ dirs' /\ cacheDir ∈ dirs' /\
  (forall d, d ∈ dirs' ->
     d ∈ dirs \/ d = cacheDir \/
     exists j, (j < 256)%N /\
       d = Setup.filepath_Join (LocalCache.cacheDir lc) (Sprintf_02x j)) /\
  (forall v actionID p,
     actionIDToPath v lc actionID = Some p ->
     exists shard,
       shard ∈ dirs' /\ p = shard ++ "/" ++ v ++ Hex.EncodeToString actionID).
Proof.
  unfold newLocalCache, os_MkdirAll.
  destruct (env cacheDir); [discriminate|].
  destruct (filepath_Abs cacheDir) as [e|absDir]; [discriminate|].
  destruct (mkSubdirs env absDir 256 0 ({[cacheDir]} ∪ dirs)) as [[e|] dirs2] eqn:E;
    [discriminate|].
  intros [= <- <-]. cbn [LocalCache.cacheDir].
  apply mkSubdirs_done in E as (S1 & S2 & S3).
  split; [reflexivity|]. split; [set_solver|]. split; [set_solver|]. split.
  - intros d Hd. destruct (S3 d Hd) as [Hin|(j & Hj & ->)].
    + apply elem_of_union in Hin as [Hin|Hin]; [|auto].
      apply elem_of_singleton in Hin. auto.
    + right. right. exists j. split; [lia|reflexivity].
  - intros v [|b r] p; [discriminate|].
    unfold actionIDToPath, LocalCache.filepath_Join.
    cbn [Hex.EncodeToString LocalCache.cacheDir]. intros [= <-].
    exists (Setup.filepath_Join absDir (Sprintf_02x (Byte.to_N b))). split.
    + apply S2. pose proof (byte_below_256 b). lia.
    + unfold Setup.filepath_Join, Sprintf_02x. now rewrite !sapp_assoc2.
Qed.

(** X9 at a concrete input: a store under /cache, for the key ab. *)
Lemma newLocalCache_witness :
  let r := newLocalCache (fun _ => None) (fun d => inr d) "/cache" ∅ in
  fst r = inr (mkLocalCache "/cache") /\
  "/cache" ∈ snd r /\
  exists shard,
    shard ∈ snd r /\
    "/cache/ab/v1-ab" = shard ++ "/" ++ "v1-" ++ Hex.EncodeToString [Byte.xab].
Proof.
  intros r.
  assert (F : fst r = inr (mkLocalCache "/cache")) by (vm_compute; reflexivity).
  assert (E : r = (inr (mkLocalCache "/cache"), snd r))
    by (rewrite <- F; apply surjective_pairing).
  destruct (newLocalCache_creates_every_shard (fun _ => None) (fun d => inr d)
              "/cache" ∅ (snd r) (mkLocalCache "/cache") E)
    as (_ & _ & Hc & _ & Hs).
  split; [exact F|]. split; [exact Hc|].
  exact (Hs "v1-" [Byte.xab] "/cache/ab/v1-ab" eq_refl).
Defined.

End StoreSetup.

Module LockingMore.
Import Locking Terms.

(** X10: a [MemLock] none of whose mutexes is held never makes a caller
    wait.  The call returns what [fn] returns, leaves every mutex free
    again, and the map of mutexes has gained at most the key of the call:
    so every sequence of calls made one after the other on a fresh
    [MemLock] returns. *)
Theorem MemLock_idle_never_waits
    (V W : Type) (s : MemLock) (key : string)
    (fn : W -> (V * option error) * W) (w : W) :
  idle NewMemLock /\
  (idle s ->
   exists s',
     MemLock_DoWithLock s key fn w = Returned (fn w, s') /\
     idle s' /\ locks s' = <[key := false]> (locks s)).
Proof.
  split.
  { split; [reflexivity|]. intros k b. cbn [locks NewMemLock].
    rewrite lookup_empty. discriminate. }
  intros [Hmu Hfree]. unfold MemLock_DoWithLock. rewrite Hmu.
  assert (Hidle : idle (mkMemLock false (<[key := false]> (locks s)))).
  { split; [reflexivity|]. intros k b. cbn [locks].
    destruct (decide (key = k)) as [->|Hne].
    - rewrite lookup_insert_eq. congruence.
    - rewrite lookup_insert_ne by assumption. apply Hfree. }
  destruct (locks s !! key) as [held|] eqn:E.
  - rewrite E. rewrite (Hfree key held E).
    destruct (fn w) as [r w']. rewrite insert_insert_eq.
    eexists. split; [reflexivity|]. split; [exact Hidle|reflexivity].
  - rewrite lookup_insert_eq.
    destruct (fn w) as [r w']. rewrite !insert_insert_eq.
    eexists. split; [reflexivity|]. split; [exact Hidle|reflexivity].
Qed.

(** X10 at a concrete input: a second call for a key that is in the map. *)
Lemma MemLock_idle_witness :
  let s := mkMemLock false {[ "k" := false ]} in
  let fn := fun n : nat => ((n, Some (errors_New "boom")), S n) in
  idle s /\
  exists s',
    MemLock_DoWithLock s "k" fn 4%nat = Returned (fn 4%nat, s') /\
    idle s' /\ locks s' = <[ "k" := false ]> (locks s).
Proof.
  intros s fn.
  assert (Hs : idle s).
  { split; [reflexivity|]. intros k b. cbn [locks s].
    destruct (decide ("k" = k)) as [<-|Hne].
    - rewrite lookup_singleton_eq. congruence.
    - rewrite lookup_singleton_ne by assumption. discriminate. }
  split; [exact Hs|].
  exact (proj2 (MemLock_idle_never_waits nat nat s "k" fn 4%nat) Hs).
Defined.

End LockingMore.

Module DebugMore.
Import Backends Backends.Debug Server Props Terms.

Section Decorated.
Context {B : Type} `{Backend B}.

(** The response is the one the wrapped backend gives rise to, and the
    wrapped backend has seen the same call. *)
Lemma respond_decorated (req : Request) (d : Debug B) :
  fst (respond req d) = fst (respond req (Debug.backend d)) /\
  Debug.backend (snd (respond req d)) = snd (respond req (Debug.backend d)).
Proof.
  unfold respond.
  destruct (bool_decide (Req.Command req = CmdPut)).
  { cbn [Put Debug_Backend]. unfold Debug_Put.
    destruct (Put _ _ _ _ (Debug.backend d)) as [[p [e|]] b']; split; reflexivity. }
  destruct (bool_decide (Req.Command req = CmdGet)).
  { cbn [Get Debug_Backend]. unfold Debug_Get.
    destruct (Get _ (Debug.backend d)) as [[[[[[o p] n] t] m] [e|]] b'];
      [split; reflexivity|].
    destruct m; split; reflexivity. }
  destruct (bool_decide (Req.Command req = CmdClose)).
  { cbn [Close Debug_Backend]. unfold Debug_Close.
    destruct (Close (Debug.backend d)) as [[e|] b']; split; reflexivity. }
  split; reflexivity.
Qed.

Lemma SendResponse_undecorated resp (cp : CacheProg (Debug B)) :
  fst (SendResponse resp cp) = fst (SendResponse resp (undecorated cp)) /\
  undecorated (snd (SendResponse resp cp))
    = snd (SendResponse resp (undecorated cp)).
Proof.
  unfold SendResponse. destruct (Marshal resp) as [e|data]; [split; reflexivity|].
  cbn [writer undecorated].
  destruct (Writer_Write (writer cp) data) as [[e|] w1]; [split; reflexivity|].
  destruct (Writer_Write w1 _) as [[e|] w2]; [split; reflexivity|].
  destruct (Writer_Flush w2) as [e w3]. split; reflexivity.
Qed.

Lemma HandleRequest_undecorated req (cp : CacheProg (Debug B)) :
  fst (HandleRequest req cp) = fst (HandleRequest req (undecorated cp)) /\
  undecorated (snd (HandleRequest req cp))
    = snd (HandleRequest req (undecorated cp)).
Proof.
  unfold HandleRequest. cbn [backend undecorated].
  destruct (respond_decorated req (backend cp)) as [E1 E2].
  destruct (respond req (backend cp)) as [resp d'].
  destruct (respond req (Debug.backend (backend cp))) as [resp' b'].
  cbn [fst snd] in E1, E2. subst resp' b'.
  destruct (SendResponse_undecorated resp (with_backend cp d')) as [F1 F2].
  split; [exact F1|]. rewrite F2. reflexivity.
Qed.

Lemma ReadRequest_undecorated (cp : CacheProg (Debug B)) :
  fst (ReadRequest cp) = fst (ReadRequest (undecorated cp)) /\
  undecorated (snd (ReadRequest cp)) = snd (ReadRequest (undecorated cp)).
Proof.
  unfold ReadRequest. cbn [scanner undecorated backend writer].
  destruct (nextLine (tokens (scanner cp))) as [[line rest]|].
  2:{ destruct (scanErr (scanner cp)); split; reflexivity. }
  destruct (Unmarshal_Request line) as [e|r]; [split; reflexivity|].
  destruct (bool_decide (Req.Command r = CmdPut) && (0 <? Req.BodySize r));
    [|split; reflexivity].
  destruct (nextLine rest) as [[bodyLine rest']|].
  2:{ destruct (scanErr (scanner cp)); split; reflexivity. }
  destruct (Unmarshal_string bodyLine) as [e|b64]; [split; reflexivity|].
  destruct (Base64.DecodeString b64) as [e|bodyData]; split; reflexivity.
Qed.

Lemma serve_undecorated (fuel : nat) :
  forall cp : CacheProg (Debug B),
    forget (serve fuel cp) = serve fuel (undecorated cp).
Proof.
  induction fuel as [|fuel IH]; intros cp; [reflexivity|]. cbn [serve].
  destruct (ReadRequest_undecorated cp) as [R1 R2].
  destruct (ReadRequest cp) as [r cp1].
  destruct (ReadRequest (undecorated cp)) as [r' cp1'].
  cbn [fst snd] in R1, R2. subst r' cp1'.
  destruct r as [err|req].
  { destruct (bool_decide (err = Err.io_EOF)); reflexivity. }
  destruct (HandleRequest_undecorated req cp1) as [H1 H2].
  destruct (HandleRequest req cp1) as [oe cp2].
  destruct (HandleRequest req (undecorated cp1)) as [oe' cp2'].
  cbn [fst snd] in H1, H2. subst oe' cp2'.
  destruct oe as [e|]; [reflexivity|].
  destruct (bool_decide (Req.Command req = CmdClose)); [reflexivity|].
  apply IH.
Qed.

End Decorated.

(** X11: the debug decorator is invisible to the toolchain.  A session of
    the engine over a decorated backend returns the same error, reads the
    same lines, writes the same bytes and leaves the wrapped backend in
    the same state as the session over the backend itself. *)
Theorem Run_over_a_decorated_backend
    (B : Type) (H : Backend B) (cp : CacheProg (Debug B)) :
  forget (Run cp) = Run (undecorated cp).
Proof.
  unfold Run, SendInitialResponse.
  destruct (SendResponse_undecorated initialResponse cp) as [S1 S2].
  destruct (SendResponse initialResponse cp) as [oe cp1].
  destruct (SendResponse initialResponse (undecorated cp)) as [oe' cp1'].
  cbn [fst snd] in S1, S2. subst oe' cp1'.
  destruct oe as [e|]; [reflexivity|].
  apply serve_undecorated.
Qed.

Import Samples.

(** A session over the decorated refusing backend: the transcript is the
    one of the plain session, and the diagnostic stream has the lines of
    the call. *)
Example Run_decorated_get :
  let cp := mkCacheProg (mkDebug 0%nat "")
              (mkScanner [Samples.getLine] None) Samples.freshWriter in
  transcript (Run cp) = transcript (Run (Samples.session [Samples.getLine])) /\
  option_map (fun r => Debug.stderr (backend (snd r))) (Run cp) =
    Some ("[DEBUG] Get: actionID=000000" ++ String "010"
            ("[DEBUG] Get: ERROR: disk unreadable" ++ String "010" "")).
Proof. split; vm_compute; reflexivity. Qed.

End DebugMore.

Module ServerMore.
Import Backends Server Props ServerFacts Terms.

Lemma errors_Is_refl e : Err.errors_Is e e = true.
Proof. destruct e; cbn [Err.errors_Is]; now rewrite bool_decide_eq_true_2. Qed.

Lemma errors_Is_wrapf pre e suf t :
  Err.errors_Is e t = true -> Err.errors_Is (Err.wrapf pre e suf) t = true.
Proof.
  intros E. unfold Err.wrapf. cbn [Err.errors_Is].
  destruct (bool_decide _); [reflexivity|exact E].
Qed.

Lemma wrapf_not_EOF pre e suf : Err.wrapf pre e suf <> Err.io_EOF.
Proof. discriminate. Qed.

Lemma nextLine_blanks blanks toks :
  Forall blank blanks -> nextLine (blanks ++ toks)%list = nextLine toks.
Proof.
  induction 1 as [|b r Hb _ IH]; [reflexivity|].
  cbn [app nextLine]. unfold blank in Hb. now rewrite Hb.
Qed.

Lemma nextLine_all_blank toks : Forall blank toks -> nextLine toks = None.
Proof.
  intros Hb. rewrite <- (app_nil_r toks). now rewrite nextLine_blanks.
Qed.

Lemma nextLine_suffix toks line rest :
  nextLine toks = Some (line, rest) -> exists k, rest = skipn k toks.
Proof.
  induction toks as [|t r IH]; cbn [nextLine]; [discriminate|].
  destruct (Str.nonblank t).
  - intros [= _ <-]. now exists 1%nat.
  - intros E. destruct (IH E) as [k ->]. now exists (S k).
Qed.

Lemma sapp_nil_r (s : string) : s ++ "" = s.
Proof.
  induction s as [|c r IH]; [reflexivity|].
  change (String c (r ++ "") = String c r). now f_equal.
Qed.

Lemma sapp_assoc3 (a b c : string) : (a ++ b) ++ c = a ++ (b ++ c).
Proof.
  induction a as [|x r IH]; [reflexivity|].
  change (String x ((r ++ b) ++ c) = String x (r ++ (b ++ c))). now f_equal.
Qed.

Section Engine.
Context {B : Type} `{Backend B}.

(** [ReadRequest] takes lines from the front and touches nothing else. *)
Lemma ReadRequest_reads_forward (cp : CacheProg B) :
  backend (snd (ReadRequest cp)) = backend cp /\
  writer (snd (ReadRequest cp)) = writer cp /\
  scanErr (scanner (snd (ReadRequest cp))) = scanErr (scanner cp) /\
  exists k, tokens (scanner (snd (ReadRequest cp)))
            = skipn k (tokens (scanner cp)).
Proof.
  assert (Hend : exists k, [] = skipn k (tokens (scanner cp))).
  { exists (List.length (tokens (scanner cp))). symmetry. apply skipn_all. }
  unfold ReadRequest.
  destruct (nextLine (tokens (scanner cp))) as [[line rest]|] eqn:E1.
  2:{ destruct (scanErr (scanner cp)); cbn; auto. }
  destruct (nextLine_suffix _ _ _ E1) as [k1 ->].
  destruct (Unmarshal_Request line) as [e|r]; [cbn; eauto 6|].
  destruct (bool_decide (Req.Command r = CmdPut) && (0 <? Req.BodySize r));
    [|cbn; eauto 6].
  destruct (nextLine (skipn k1 (tokens (scanner cp)))) as [[bodyLine rest']|] eqn:E2.
  2:{ destruct (scanErr (scanner cp)); cbn; auto. }
  destruct (nextLine_suffix _ _ _ E2) as [k2 ->].
  assert (Hk : exists k, skipn k2 (skipn k1 (tokens (scanner cp)))
                         = skipn k (tokens (scanner cp))).
  { exists (k1 + k2)%nat. rewrite skipn_skipn. f_equal. lia. }
  destruct (Unmarshal_string bodyLine) as [e|b64]; [cbn; auto|].
  destruct (Base64.DecodeString b64) as [e|bodyData]; cbn; auto.
Qed.

Lemma Writer_op_appends (w : Writer) (f : Writer -> Writer) :
  (forall x, exists out, delivered (f x) = delivered x ++ out) ->
  exists out, delivered (snd (Writer_op w f)) = delivered w ++ out.
Proof.
  intros Hf. unfold Writer_op. destruct (werr w).
  { exists EmptyString. cbn [snd]. now rewrite sapp_nil_r. }
  destruct (wfaults w) as [|[e|] r]; cbn [snd].
  - apply Hf.
  - exists EmptyString. cbn [delivered]. now rewrite sapp_nil_r.
  - destruct (Hf (mkWriter (delivered w) (buffered w) None r)) as [out E].
    exists out. exact E.
Qed.

Lemma Write_appends w data :
  exists out, delivered (snd (Writer_Write w data)) = delivered w ++ out.
Proof.
  apply Writer_op_appends. intros x. exists EmptyString. cbn. now rewrite sapp_nil_r.
Qed.

Lemma Flush_appends w :
  exists out, delivered (snd (Writer_Flush w)) = delivered w ++ out.
Proof. apply Writer_op_appends. intros x. exists (buffered x). reflexivity. Qed.

(** [SendResponse] only appends to what has been delivered. *)
Lemma SendResponse_appends resp (cp : CacheProg B) :
  exists out,
    delivered (writer (snd (SendResponse resp cp)))
    = delivered (writer cp) ++ out.
Proof.
  unfold SendResponse. destruct (Marshal resp) as [e|data].
  { exists EmptyString. cbn. now rewrite sapp_nil_r. }
  destruct (Write_appends (writer cp) data) as [o1 E1].
  destruct (Writer_Write (writer cp) data) as [[e|] w1]; cbn [snd] in E1.
  { exists o1. exact E1. }
  destruct (Write_appends w1 (String "010" EmptyString)) as [o2 E2].
  destruct (Writer_Write w1 _) as [[e|] w2]; cbn [snd] in E2.
  { exists (o1 ++ o2). cbn. now rewrite E2, E1, sapp_assoc3. }
  destruct (Flush_appends w2) as [o3 E3].
  destruct (Writer_Flush w2) as [e w3]; cbn [snd] in E3.
  exists (o1 ++ o2 ++ o3). cbn. now rewrite E3, E2, E1, !sapp_assoc3.
Qed.

Lemma HandleRequest_appends req (cp : CacheProg B) :
  exists out,
    delivered (writer (snd (HandleRequest req cp)))
    = delivered (writer cp) ++ out.
Proof.
  unfold HandleRequest. destruct (respond req (backend cp)) as [resp b'].
  apply (SendResponse_appends resp (with_backend cp b')).
Qed.

(** What the loop leaves: the lines not read are a tail of the input, the
    bytes delivered extend the ones delivered before. *)
Lemma serve_reads_forward (fuel : nat) :
  forall (cp cp' : CacheProg B) e,
    serve fuel cp = Some (e, cp') ->
    scanErr (scanner cp') = scanErr (scanner cp) /\
    (exists k, tokens (scanner cp') = skipn k (tokens (scanner cp))) /\
    (exists out, delivered (writer cp') = delivered (writer cp) ++ out).
Proof.
  induction fuel as [|fuel IH]; intros cp cp' e; cbn [serve]; [discriminate|].
  destruct (ReadRequest_reads_forward cp) as (_ & Rw & Re & k1 & Rk).
  destruct (ReadRequest cp) as [[err|req] cp1]; cbn [snd] in Rw, Re, Rk.
  { assert (G : scanErr (scanner cp1) = scanErr (scanner cp) /\
                (exists k, tokens (scanner cp1) = skipn k (tokens (scanner cp))) /\
                (exists out, delivered (writer cp1) = delivered (writer cp) ++ out)).
    { split; [exact Re|]. split; [eauto|].
      exists EmptyString. now rewrite Rw, sapp_nil_r. }
    destruct (bool_decide (err = Err.io_EOF)); intros [= _ <-]; exact G. }
  pose proof (HandleRequest_keeps_scanner req cp1) as Hs.
  destruct (HandleRequest_appends req cp1) as [o1 Ho].
  destruct (HandleRequest req cp1) as [oe cp2]; cbn [snd] in Hs, Ho.
  assert (G : scanErr (scanner cp2) = scanErr (scanner cp) /\
              (exists k, tokens (scanner cp2) = skipn k (tokens (scanner cp))) /\
              (exists out, delivered (writer cp2) = delivered (writer cp) ++ out)).
  { rewrite Hs. split; [exact Re|]. split; [eauto|].
    exists o1. now rewrite Ho, Rw. }
  destruct oe as [e0|]; [intros [= _ <-]; exact G|].
  destruct (bool_decide (Req.Command req = CmdClose)); [intros [= _ <-]; exact G|].
  intros E. destruct (IH _ _ _ E) as (I1 & (k & I2) & (o & I3)).
  destruct G as (G1 & (k0 & G2) & (o0 & G3)).
  split; [congruence|]. split.
  - exists (k0 + k)%nat. rewrite I2, G2, skipn_skipn. f_equal. lia.
  - exists (o0 ++ o). now rewrite I3, G3, sapp_assoc3.
Qed.

End Engine.
End ServerMore.

Module ServerExtras.
Import Backends Server Props ServerFacts Terms ServerMore Samples.

(** X12: [Run] returns for every session: its loop makes at most one round
    per inbound line.  It reads the lines front to back, so what it leaves
    unread is a tail of the input, and it only ever appends to the bytes
    delivered on the outbound stream. *)
Theorem Run_returns_and_reads_forward
    (B : Type) (H : Backend B) (cp : CacheProg B) :
  exists e cp',
    Run cp = Some (e, cp') /\
    (exists k, tokens (scanner cp') = skipn k (tokens (scanner cp))) /\
    (exists out, delivered (writer cp') = delivered (writer cp) ++ out).
Proof.
  unfold Run, SendInitialResponse.
  pose proof (SendResponse_keeps initialResponse cp) as [Ks _].
  destruct (SendResponse_appends initialResponse cp) as [o1 Ho].
  destruct (SendResponse initialResponse cp) as [[e|] cp1]; cbn [snd] in Ks, Ho.
  { eexists _, _. split; [reflexivity|]. split; [|eauto].
    exists 0%nat. now rewrite Ks. }
  destruct (serve_returns (rounds cp1) cp1) as [[e cp'] E].
  { unfold rounds. lia. }
  exists e, cp'. split; [exact E|].
  destruct (serve_reads_forward _ _ _ _ E) as (_ & (k & I2) & (o & I3)).
  split.
  - exists k. now rewrite I2, Ks.
  - exists (o1 ++ o). now rewrite I3, Ho, sapp_assoc3.
Qed.

(** X13: the end of the input.  When the lines left are all blank and the
    writer is ready, [Run] sends the capabilities line and nothing else,
    does not call the backend, and returns no error when the stream just
    ended, the error of the scanner, wrapped twice, when reading failed. *)
Theorem Run_at_the_end_of_the_input
    (B : Type) (H : Backend B) (cp : CacheProg B) :
  Forall blank (tokens (scanner cp)) ->
  Writer_ready (writer cp) ->
  Run cp =
  Some (match scanErr (scanner cp) with
        | None => None
        | Some e =>
            Some (Err.wrapf "failed to read request: "
                    (Err.wrapf "failed to read request: " e "") "")
        end,
        mkCacheProg (backend cp) (mkScanner [] (scanErr (scanner cp)))
          (Writer_sent (writer cp) capabilitiesLine)).
Proof.
  intros Hb Hw. unfold Run, SendInitialResponse.
  rewrite (SendResponse_ready initialResponse cp capabilitiesLine Hw eq_refl).
  unfold rounds. cbn [serve]. unfold ReadRequest.
  cbn [with_writer scanner backend writer].
  rewrite (nextLine_all_blank _ Hb).
  destruct (scanErr (scanner cp)) as [e|].
  - rewrite bool_decide_eq_false_2 by apply wrapf_not_EOF. reflexivity.
  - rewrite bool_decide_eq_true_2 by reflexivity. reflexivity.
Qed.

(** X13 at a concrete input: two blank lines, the second one a no-break
    space, and then a read error. *)
Lemma Run_end_witness :
  let cp := mkCacheProg 0%nat
              (mkScanner [""; String (ascii_of_N 194) (String (ascii_of_N 160) "")]
                 (Some (errors_New "read: connection reset")))
              Samples.freshWriter in
  Forall blank (tokens (scanner cp)) /\
  Writer_ready (writer cp) /\
  Run cp =
  Some (Some (Err.wrapf "failed to read request: "
                (Err.wrapf "failed to read request: "
                   (errors_New "read: connection reset") "") ""),
        mkCacheProg 0%nat
          (mkScanner [] (Some (errors_New "read: connection reset")))
          (Writer_sent Samples.freshWriter capabilitiesLine)).
Proof.
  intros cp.
  assert (Hb : Forall blank (tokens (scanner cp))).
  { repeat constructor. }
  assert (Hw : Writer_ready (writer cp)) by (repeat split; constructor).
  split; [exact Hb|]. split; [exact Hw|].
  exact (Run_at_the_end_of_the_input nat Samples.refusing cp Hb Hw).
Defined.

(** X14: blank lines are skipped wherever a line is expected: before a
    request line, and between a put that declares a body and its body
    line.  [ReadRequest] returns the same request and leaves the same
    lines as it does without them. *)
Theorem blank_lines_are_skipped
    (B : Type) (cp : CacheProg B) (blanks toks : list string)
    (line : string) (req : Request) :
  Forall blank blanks ->
  ReadRequest (feed cp (blanks ++ toks)%list) = ReadRequest (feed cp toks) /\
  (Str.nonblank line = true ->
   Unmarshal_Request line = inr req ->
   Req.Command req = CmdPut -> 0 < Req.BodySize req ->
   ReadRequest (feed cp (line :: blanks ++ toks)%list)
   = ReadRequest (feed cp (line :: toks))).
Proof.
  intros Hb. split.
  - unfold ReadRequest, feed. cbn [scanner tokens scanErr backend writer].
    now rewrite (nextLine_blanks _ toks Hb).
  - intros Hl Hu Hc Hs.
    unfold ReadRequest, feed. cbn [scanner tokens scanErr backend writer nextLine].
    rewrite Hl, Hu.
    rewrite bool_decide_eq_true_2 by assumption.
    replace (0 <? Req.BodySize req) with true by (symmetry; now apply Z.ltb_lt).
    cbn [andb]. now rewrite (nextLine_blanks _ toks Hb).
Qed.

(** X14 at a concrete input: a tab and a carriage return count as blank. *)
Lemma blank_lines_witness :
  let blanks := [String "009" ""; String "013" ""; "   "] in
  Forall blank blanks /\
  ReadRequest (feed (Samples.session []) (blanks ++ [Samples.getLine])%list)
    = ReadRequest (feed (Samples.session []) [Samples.getLine]) /\
  ReadRequest (feed (Samples.session [])
                 (Samples.putLine :: blanks ++ [sq "'dGVzdA=='"])%list)
    = ReadRequest (feed (Samples.session [])
                     [Samples.putLine; sq "'dGVzdA=='"]).
Proof.
  intros blanks.
  assert (Hb : Forall blank blanks) by (repeat constructor).
  destruct (blank_lines_are_skipped nat (Samples.session []) blanks
              [Samples.getLine] Samples.putLine Samples.putRequest Hb) as [G1 _].
  destruct (blank_lines_are_skipped nat (Samples.session []) blanks
              [sq "'dGVzdA=='"] Samples.putLine Samples.putRequest Hb) as [_ G2].
  split; [exact Hb|]. split; [exact G1|].
  apply G2; vm_compute; reflexivity.
Defined.

(** X15: a close request ends the session.  On a ready writer the backend
    is closed exactly once, the response with the ID of the request (and
    the text of the error of [Close], if it failed) is delivered, and the
    loop ends without error, leaving every later line unread. *)
Theorem close_ends_the_session
    (B : Type) (H : Backend B) (cp cp1 : CacheProg B) (req : Request) :
  ReadRequest cp = (inr req, cp1) ->
  Req.Command req = CmdClose ->
  Writer_ready (writer cp) ->
  exists data,
    Marshal (closeResponse (Req.ID req) (fst (Close (backend cp)))) = inr data /\
    serve (rounds cp) cp =
    Some (None,
          mkCacheProg (snd (Close (backend cp))) (scanner cp1)
            (Writer_sent (writer cp) data)).
Proof.
  intros ER Hc Hw.
  destruct (ReadRequest_request _ _ _ ER) as (Eb & Ew & _ & _).
  destruct (Marshal_without_time
              (closeResponse (Req.ID req) (fst (Close (backend cp)))) eq_refl)
    as [data Hm].
  exists data. split; [exact Hm|].
  unfold rounds. cbn [serve]. rewrite ER.
  unfold HandleRequest, respond. rewrite Eb, Hc.
  rewrite (bool_decide_eq_false_2 (CmdClose = CmdPut)) by discriminate.
  rewrite (bool_decide_eq_false_2 (CmdClose = CmdGet)) by discriminate.
  rewrite (bool_decide_eq_true_2 (CmdClose = CmdClose)) by reflexivity.
  unfold closeResponse, errorResponse in Hm.
  destruct (Close (backend cp)) as [[e|] b']; cbn [fst snd] in *;
    rewrite (SendResponse_ready _ (with_backend cp1 b') data);
    cbn [writer with_backend]; rewrite ?Ew; auto.
Qed.

(** X15 at a concrete input: the line after the close is not read. *)
Lemma close_witness :
  let cp := mkCacheProg tt (mkScanner [closeLine; "junk"] None)
              Samples.freshWriter in
  let cp1 := mkCacheProg tt (mkScanner ["junk"] None) Samples.freshWriter in
  @ReadRequest unit cp = (inr closeRequest, cp1) /\
  Writer_ready (writer cp) /\
  exists data,
    Marshal (closeResponse 3 None) = inr data /\
    @serve unit accepting (rounds cp) cp =
    Some (None, mkCacheProg tt (scanner cp1) (Writer_sent (writer cp) data)).
Proof.
  intros cp cp1.
  assert (E1 : @ReadRequest unit cp = (inr closeRequest, cp1))
    by (vm_compute; reflexivity).
  assert (E2 : Writer_ready (writer cp)) by (repeat split; constructor).
  split; [exact E1|]. split; [exact E2|].
  exact (close_ends_the_session unit accepting cp cp1 closeRequest E1 eq_refl E2).
Defined.

(** X16: a writer that has failed ends the session.  With the sticky error
    of the writer set, [Run] returns that error, wrapped, without reading
    a line or calling the backend; and a request handled in that state
    reaches the backend all the same, before the loop ends with the
    error. *)
Theorem broken_writer_ends_the_session
    (B : Type) (H : Backend B) (cp cp1 : CacheProg B) (e : error)
    (req : Request) (data : string) :
  werr (writer cp) = Some e ->
  Run cp =
    Some (Some (Err.wrapf "failed to send initial response: "
                  (Err.wrapf "failed to write response: " e "") ""), cp) /\
  (ReadRequest cp = (inr req, cp1) ->
   Marshal (fst (respond req (backend cp))) = inr data ->
   serve (rounds cp) cp =
     Some (Some (Err.wrapf "failed to handle request: "
                   (Err.wrapf "failed to write response: " e "") ""),
           mkCacheProg (snd (respond req (backend cp))) (scanner cp1)
             (writer cp))).
Proof.
  intros He. split.
  - unfold Run, SendInitialResponse, SendResponse.
    change (Marshal initialResponse) with (@inr error string capabilitiesLine).
    unfold Writer_Write, Writer_op. rewrite He.
    destruct cp. reflexivity.
  - intros ER Hm.
    destruct (ReadRequest_request _ _ _ ER) as (Eb & Ew & _ & _).
    unfold rounds. cbn [serve]. rewrite ER.
    unfold HandleRequest. rewrite Eb.
    destruct (respond req (backend cp)) as [resp b']. cbn [fst snd] in *.
    unfold SendResponse. rewrite Hm. cbn [writer with_backend].
    unfold Writer_Write, Writer_op. rewrite Ew, He. reflexivity.
Qed.

(** X16 at a concrete input: the pipe is closed before the session
    starts. *)
Lemma broken_writer_witness :
  let e := errors_New "write: broken pipe" in
  let cp := mkCacheProg 0%nat (mkScanner [Samples.getLine] None)
              (mkWriter "" "" (Some e) []) in
  werr (writer cp) = Some e /\
  Run cp =
    Some (Some (Err.wrapf "failed to send initial response: "
                  (Err.wrapf "failed to write response: " e "") ""), cp).
Proof.
  intros e cp. split; [reflexivity|].
  exact (proj1 (broken_writer_ends_the_session nat Samples.refusing cp cp e
                  Samples.getRequest "" eq_refl)).
Defined.

(** X17: a body line that cannot be decoded is fatal.  After a put that
    declares a positive body size, a next non-blank line that is no JSON
    string, or whose text is no base64, ends the loop with an error that
    wraps the decoding error; the backend is not called and nothing is
    sent. *)
Theorem undecodable_body_line_is_fatal
    (B : Type) (H : Backend B) (cp : CacheProg B)
    (line bodyLine : string) (rest rest' : list string) (req : Request)
    (e : error) :
  nextLine (tokens (scanner cp)) = Some (line, rest) ->
  Unmarshal_Request line = inr req ->
  Req.Command req = CmdPut -> 0 < Req.BodySize req ->
  nextLine rest = Some (bodyLine, rest') ->
  Unmarshal_string bodyLine = inl e \/
  (exists s, Unmarshal_string bodyLine = inr s /\
             Base64.DecodeString s = inl e) ->
  exists err,
    serve (rounds cp) cp =
      Some (Some err,
            mkCacheProg (backend cp) (mkScanner rest' (scanErr (scanner cp)))
              (writer cp)) /\
    Err.errors_Is err e = true.
Proof.
  intros E1 E2 Hc Hs E3 Hbad.
  unfold rounds. cbn [serve]. unfold ReadRequest.
  rewrite E1, E2, E3.
  rewrite bool_decide_eq_true_2 by assumption.
  replace (0 <? Req.BodySize req) with true by (symmetry; now apply Z.ltb_lt).
  cbn [andb].
  destruct Hbad as [Hu|(s & Hu & Hd)]; rewrite Hu; [|rewrite Hd];
    (rewrite bool_decide_eq_false_2 by apply wrapf_not_EOF;
     eexists; split; [reflexivity|];
     apply errors_Is_wrapf, errors_Is_wrapf, errors_Is_refl).
Qed.

(** X17 at a concrete input: the body line is a JSON string, but not of
    base64. *)
Lemma undecodable_body_witness :
  let cp := Samples.session [Samples.putLine; sq "'not base64!'"; Samples.getLine] in
  exists err,
    serve (rounds cp) cp =
      Some (Some err,
            mkCacheProg 0%nat (mkScanner [Samples.getLine] None)
              Samples.freshWriter) /\
    Err.errors_Is err Base64.CorruptInputError = true.
Proof.
  intros cp.
  apply (undecodable_body_line_is_fatal nat Samples.refusing cp Samples.putLine
           (sq "'not base64!'") [sq "'not base64!'"; Samples.getLine]
           [Samples.getLine] Samples.putRequest Base64.CorruptInputError);
    try (vm_compute; reflexivity).
  right. exists "not base64!". split; vm_compute; reflexivity.
Defined.

(** X18: every request is answered once, under its own ID.  Whatever the
    command, known or not, the response carries the ID of the request; on
    a ready writer [HandleRequest] delivers exactly its line and returns
    no error.  The one response that cannot be serialized is a hit whose
    time the JSON encoding refuses: then nothing is written and
    [HandleRequest] returns the error, the backend having been called. *)
Theorem every_request_is_answered_under_its_ID
    (B : Type) (H : Backend B) (cp : CacheProg B) (req : Request) :
  Writer_ready (writer cp) ->
  let resp := fst (respond req (backend cp)) in
  let b' := snd (respond req (backend cp)) in
  Resp.ID resp = Req.ID req /\
  match Marshal resp with
  | inr data =>
      HandleRequest req cp =
      (None, mkCacheProg b' (scanner cp) (Writer_sent (writer cp) data))
  | inl e =>
      Req.Command req = CmdGet /\ Resp.Time resp <> None /\
      HandleRequest req cp =
      (Some (Err.wrapf "failed to marshal response: " e ""),
       mkCacheProg b' (scanner cp) (writer cp))
  end.
Proof.
  intros Hw resp b'. split.
  { subst resp. unfold respond.
    destruct (bool_decide (Req.Command req = CmdPut)).
    { destruct (Put _ _ _ _ (backend cp)) as [[p [e|]] b0]; reflexivity. }
    destruct (bool_decide (Req.Command req = CmdGet)).
    { destruct (Get _ (backend cp)) as [[[[[[o p] n] t] m] [e|]] b0];
        [reflexivity|]. destruct m; reflexivity. }
    destruct (bool_decide (Req.Command req = CmdClose)); [|reflexivity].
    destruct (Close (backend cp)) as [[e|] b0]; reflexivity. }
  destruct (Marshal resp) as [e|data] eqn:Em.
  - assert (Ht : Resp.Time resp <> None).
    { intros Hn. destruct (Marshal_without_time resp Hn) as [d Hd]. congruence. }
    split; [|split; [exact Ht|]].
    + subst resp. unfold respond in Ht.
      destruct (bool_decide (Req.Command req = CmdPut)).
      { destruct (Put _ _ _ _ (backend cp)) as [[p [e0|]] b0]; now elim Ht. }
      destruct (bool_decide (Req.Command req = CmdGet)) eqn:Eg.
      { now apply bool_decide_eq_true in Eg. }
      destruct (bool_decide (Req.Command req = CmdClose)); [|now elim Ht].
      destruct (Close (backend cp)) as [[e0|] b0]; now elim Ht.
    + unfold HandleRequest. subst resp b'.
      destruct (respond req (backend cp)) as [r b0]. cbn [fst snd] in *.
      unfold SendResponse. rewrite Em. reflexivity.
  - unfold HandleRequest. subst resp b'.
    destruct (respond req (backend cp)) as [r b0]. cbn [fst snd] in *.
    now rewrite (SendResponse_ready r (with_backend cp b0) data Hw Em).
Qed.

(** X18 at a concrete input: an unknown command. *)
Lemma every_request_witness :
  let req := Req.mkRequest 7 "bogus" [] [] None 0 in
  let cp := Samples.session [] in
  Writer_ready (writer cp) /\
  Resp.ID (fst (respond req (backend cp))) = 7 /\
  HandleRequest req cp =
    (None,
     mkCacheProg 0%nat (scanner cp)
       (Writer_sent (writer cp) (sq "{'ID':7,'Err':'unknown command: bogus'}"))).
Proof.
  intros req cp.
  assert (Hw : Writer_ready (writer cp)) by (repeat split; constructor).
  split; [exact Hw|].
  exact (every_request_is_answered_under_its_ID nat Samples.refusing cp req Hw).
Defined.

End ServerExtras.

Module Framing.
Import Backends Server Props StrFacts CodecFacts Terms.

Lemma one_line_app a b : one_line (a ++ b) = one_line a && one_line b.
Proof. apply all_app. Qed.

Lemma one_line_cons c s :
  one_line (String c s) = negb (Ascii.eqb c "010") && one_line s.
Proof. reflexivity. Qed.

Lemma plain_one_line s : all plain s = true -> one_line s = true.
Proof.
  apply all_impl. intros c Hc. now rewrite (plain_not_newline c Hc).
Qed.

Lemma ascii_of_N_not_nl (k : N) :
  (k < 256)%N -> k <> 10%N -> Ascii.eqb (ascii_of_N k) "010" = false.
Proof.
  intros Hk Hne. destruct (Ascii.eqb_spec (ascii_of_N k) "010") as [E|]; [|reflexivity].
  apply (f_equal N_of_ascii) in E. rewrite N_ascii_embedding in E by assumption.
  now elim Hne.
Qed.

Lemma hexdigit_not_nl (k : N) :
  (k < 16)%N -> Ascii.eqb (Hex.hexdigit k) "010" = false.
Proof.
  intros Hk. unfold Hex.hexdigit.
  destruct (k <? 10)%N; apply ascii_of_N_not_nl; lia.
Qed.

Lemma enc6_not_nl (k : N) :
  (k < 64)%N -> Ascii.eqb (Base64.enc6 k) "010" = false.
Proof.
  intros Hk. unfold Base64.enc6.
  destruct (N.ltb_spec k 26); [apply ascii_of_N_not_nl; lia|].
  destruct (N.ltb_spec k 52); [apply ascii_of_N_not_nl; lia|].
  destruct (N.ltb_spec k 62); [apply ascii_of_N_not_nl; lia|].
  destruct (k =? 62)%N; reflexivity.
Qed.

Lemma byteN_below (c : ascii) : (Str.byteN c < 256)%N.
Proof. apply N_ascii_bounded. Qed.

Lemma u00_one_line (c : ascii) : one_line (Json.u00 (Str.byteN c)) = true.
Proof.
  unfold Json.u00. pose proof (byteN_below c) as Hc.
  change (one_line ("\u00" ++ ?s)) with (one_line s).
  rewrite !one_line_cons.
  rewrite !hexdigit_not_nl; [reflexivity| |].
  - apply N.mod_lt. discriminate.
  - apply N.Div0.div_lt_upper_bound. exact Hc.
Qed.

(** The text [quote_body] makes holds no line feed. *)
Lemma quote_body_one_line_bounded (n : nat) :
  forall s, (String.length s <= n)%nat -> one_line (Json.quote_body s) = true.
Proof.
  induction n as [|n IH]; intros s Hs.
  { destruct s; [reflexivity|cbn in Hs; lia]. }
  destruct s as [|c r]; [reflexivity|].
  cbn [String.length] in Hs.
  assert (Hr : one_line (Json.quote_body r) = true) by (apply IH; lia).
  cbn [Json.quote_body]. cbv zeta.
  destruct (Ascii.eqb c dquote); [exact Hr|].
  destruct (Ascii.eqb c "\"); [exact Hr|].
  destruct (Str.byteN c =? 8)%N; [exact Hr|].
  destruct (Str.byteN c =? 12)%N; [exact Hr|].
  destruct (Str.byteN c =? 10)%N eqn:E10; [exact Hr|].
  destruct (Str.byteN c =? 13)%N; [exact Hr|].
  destruct (Str.byteN c =? 9)%N; [exact Hr|].
  destruct ((Str.byteN c <? 32) || (Str.byteN c =? 60) || (Str.byteN c =? 62)
            || (Str.byteN c =? 38))%N.
  { now rewrite one_line_app, u00_one_line, Hr. }
  assert (Hc : Ascii.eqb c "010" = false).
  { destruct (Ascii.eqb_spec c "010") as [->|]; [discriminate E10|reflexivity]. }
  assert (Hplain : one_line (String c (Json.quote_body r)) = true).
  { now rewrite one_line_cons, Hc, Hr. }
  destruct r as [|d [|e r'']]; try exact Hplain.
  assert (Hr'' : one_line (Json.quote_body r'') = true).
  { apply IH. cbn [String.length] in Hs. lia. }
  destruct ((Str.byteN c =? 226) && (Str.byteN d =? 128) && (Str.byteN e =? 168))%N;
    [exact Hr''|].
  destruct ((Str.byteN c =? 226) && (Str.byteN d =? 128) && (Str.byteN e =? 169))%N;
    [exact Hr''|].
  exact Hplain.
Qed.

Lemma quote_one_line s : one_line (Json.quote s) = true.
Proof.
  unfold Json.quote. rewrite one_line_cons, one_line_app.
  now rewrite (quote_body_one_line_bounded (String.length s) s).
Qed.

Lemma base64_one_line_bounded (n : nat) :
  forall bs, (List.length bs <= n)%nat ->
             one_line (Base64.EncodeToString bs) = true.
Proof.
  assert (Hb : forall b : byte, (Byte.to_N b < 256)%N).
  { intros b. destruct b; reflexivity. }
  induction n as [|n IH]; intros bs Hn.
  { destruct bs; [reflexivity|cbn in Hn; lia]. }
  destruct bs as [|a [|b [|c r]]]; [reflexivity| | |].
  - pose proof (Hb a). cbn [Base64.EncodeToString]. rewrite !one_line_cons.
    rewrite !enc6_not_nl; [reflexivity| |].
    + assert ((Byte.to_N a mod 4 < 4)%N) by (apply N.mod_lt; discriminate). lia.
    + apply N.Div0.div_lt_upper_bound. lia.
  - pose proof (Hb a). pose proof (Hb b).
    cbn [Base64.EncodeToString]. rewrite !one_line_cons.
    assert ((Byte.to_N a mod 4 < 4)%N) by (apply N.mod_lt; discriminate).
    assert ((Byte.to_N b mod 16 < 16)%N) by (apply N.mod_lt; discriminate).
    assert ((Byte.to_N b / 16 < 16)%N) by (apply N.Div0.div_lt_upper_bound; lia).
    rewrite !enc6_not_nl; [reflexivity| | |]; try lia.
    apply N.Div0.div_lt_upper_bound. lia.
  - pose proof (Hb a). pose proof (Hb b). pose proof (Hb c).
    cbn [Base64.EncodeToString]. rewrite !one_line_cons.
    assert ((Byte.to_N a mod 4 < 4)%N) by (apply N.mod_lt; discriminate).
    assert ((Byte.to_N b mod 16 < 16)%N) by (apply N.mod_lt; discriminate).
    assert ((Byte.to_N b / 16 < 16)%N) by (apply N.Div0.div_lt_upper_bound; lia).
    assert ((Byte.to_N c / 64 < 4)%N) by (apply N.Div0.div_lt_upper_bound; lia).
    assert ((Byte.to_N c mod 64 < 64)%N) by (apply N.mod_lt; discriminate).
    rewrite !enc6_not_nl; try lia.
    + cbn [negb andb]. apply IH. cbn [List.length] in Hn. lia.
    + apply N.Div0.div_lt_upper_bound. lia.
Qed.

Lemma format_int_one_line z : one_line (Fmt.format_int z) = true.
Proof. apply plain_one_line, format_int_plain. Qed.

Lemma zeros_one_line n : one_line (TimeJson.zeros n) = true.
Proof. induction n; [reflexivity|]. cbn [TimeJson.zeros]. now rewrite one_line_cons, IHn. Qed.

Lemma zpad_one_line w z : one_line (TimeJson.zpad w z) = true.
Proof.
  unfold TimeJson.zpad. now rewrite one_line_app, zeros_one_line, format_int_one_line.
Qed.

Lemma Forall_one_line l :
  Forall (fun c => negb (Ascii.eqb c "010") = true) l ->
  one_line (string_of_list_ascii l) = true.
Proof.
  induction 1 as [|c r Hc _ IH]; [reflexivity|].
  cbn [string_of_list_ascii]. now rewrite one_line_cons, Hc, IH.
Qed.

Lemma strip_zeros_Forall (P : ascii -> Prop) l :
  Forall P l -> Forall P (TimeJson.strip_zeros l).
Proof.
  induction 1 as [|c r Hc Hr IH]; [constructor|].
  cbn [TimeJson.strip_zeros]. destruct (Ascii.eqb c "0"); [exact IH|].
  now constructor.
Qed.

Lemma fraction_one_line ns : one_line (TimeJson.fraction ns) = true.
Proof.
  unfold TimeJson.fraction. destruct (ns =? 0); [reflexivity|].
  change (one_line ("." ++ ?s)) with (one_line s).
  apply Forall_one_line, Forall_rev, strip_zeros_Forall, Forall_rev.
  apply (all_Forall (fun c => negb (Ascii.eqb c "010"))).
  apply zpad_one_line.
Qed.

Lemma time_one_line t s : TimeJson.MarshalJSON t = inr s -> one_line s = true.
Proof.
  unfold TimeJson.MarshalJSON.
  destruct (TimeJson.civil_from_days (sec t / 86400)) as [[y m] d].
  destruct ((y <? 0) || (10000 <=? y)); [discriminate|].
  intros [= <-].
  rewrite one_line_cons, !one_line_app, !zpad_one_line, fraction_one_line.
  reflexivity.
Qed.

Lemma join_one_line sep l :
  one_line sep = true ->
  Forall (fun s => one_line s = true) l ->
  one_line (Json.join sep l) = true.
Proof.
  intros Hsep. induction 1 as [|x r Hx Hr IH]; [reflexivity|].
  cbn [Json.join]. destruct r as [|y r']; [exact Hx|].
  now rewrite !one_line_app, Hx, Hsep, IH.
Qed.

Lemma member_one_line name text :
  one_line text = true -> one_line (member name text) = true.
Proof.
  intros Ht. unfold member. now rewrite !one_line_app, quote_one_line, Ht.
Qed.

Lemma array_one_line (cmds : list Cmd) :
  one_line ("[" ++ Json.join "," (map Json.quote cmds) ++ "]") = true.
Proof.
  rewrite (one_line_app "["), (one_line_app (Json.join "," _) "]").
  rewrite join_one_line; [reflexivity|reflexivity|].
  apply Forall_map, Forall_forall. intros x _. apply quote_one_line.
Qed.

(** X19: a response is one line.  Whatever the strings and bytes a
    response carries (line feeds in an error text or a path included),
    its serialized form holds no line feed, so the line feed
    [SendResponse] writes after it is the only one and the responses
    stay framed one per line. *)
Theorem Marshal_makes_one_line (resp : Response) (data : string) :
  Marshal resp = inr data -> one_line data = true.
Proof.
  unfold Marshal.
  destruct (Resp.Time resp) as [t|].
  - destruct (TimeJson.MarshalJSON t) as [e|s] eqn:Et; [discriminate|].
    pose proof (time_one_line t s Et) as Hs.
    intros [= <-]. rewrite !one_line_app.
    rewrite join_one_line; [reflexivity|reflexivity|].
    repeat (apply Forall_app; split).
    + destruct (Resp.ID resp =? 0); repeat constructor.
      apply member_one_line, format_int_one_line.
    + destruct (bool_decide _); repeat constructor.
      apply member_one_line, quote_one_line.
    + destruct (Resp.KnownCommands resp) as [|c cs]; repeat constructor.
      apply member_one_line, (array_one_line (c :: cs)).
    + destruct (Resp.Miss resp); repeat constructor.
    + destruct (Resp.OutputID resp) as [|b bs]; repeat constructor.
      apply member_one_line, quote_one_line.
    + destruct (Resp.Size resp =? 0); repeat constructor.
      apply member_one_line, format_int_one_line.
    + constructor; [now apply member_one_line|].
      destruct (bool_decide _); repeat constructor.
      apply member_one_line, quote_one_line.
  - intros [= <-]. rewrite !one_line_app.
    rewrite join_one_line; [reflexivity|reflexivity|].
    repeat (apply Forall_app; split).
    + destruct (Resp.ID resp =? 0); repeat constructor.
      apply member_one_line, format_int_one_line.
    + destruct (bool_decide _); repeat constructor.
      apply member_one_line, quote_one_line.
    + destruct (Resp.KnownCommands resp) as [|c cs]; repeat constructor.
      apply member_one_line, (array_one_line (c :: cs)).
    + destruct (Resp.Miss resp); repeat constructor.
    + destruct (Resp.OutputID resp) as [|b bs]; repeat constructor.
      apply member_one_line, quote_one_line.
    + destruct (Resp.Size resp =? 0); repeat constructor.
      apply member_one_line, format_int_one_line.
    + destruct (bool_decide _); repeat constructor.
      apply member_one_line, quote_one_line.
Qed.

(** X19 at a concrete input: an error text of two lines. *)
Lemma Marshal_one_line_witness :
  Marshal (errorResponse 5 ("first" ++ String "010" "second"))
  = inr (sq "{'ID':5,'Err':'first\nsecond'}") /\
  one_line (sq "{'ID':5,'Err':'first\nsecond'}") = true.
Proof.
  assert (E : Marshal (errorResponse 5 ("first" ++ String "010" "second"))
              = inr (sq "{'ID':5,'Err':'first\nsecond'}"))
    by (vm_compute; reflexivity).
  split; [exact E|].
  exact (Marshal_makes_one_line _ _ E).
Defined.

End Framing.
